(** * Meal_prep_new: nutrition and budget analytics

    A shallow embedding of the analytic core of the household meal and
    budget tracker:

    - [NutritionCalculator] (energy model, nutrient aggregation, report
      generation),
    - [DataStore] (meals, meal plans, expenses and the food catalog, read
      and written),
    - [BudgetTracker] (monthly expenses, daily average, month-end
      projection and the figures of the budget summary),
    - [Visualizer] (the statistics of a series, color gradients),
    - [MealTracker] (adding, changing and deleting the meals of a day),
    - [App] (the start dates of the reports it asks for),

    together with the JavaScript built-ins they rely on ([JS], [JSDate]).

    Modelling conventions.

    - A JavaScript number is an exact rational extended with [NaN] and the
      two infinities ([JS.number]).  Arithmetic is exact: binary64 rounding
      error and overflow are not part of the model, and zero is unsigned.
      Where the program rounds, to an integer or to a tenth, a value half
      way between two results falls to one side in the model and may fall
      to the other in binary64; what is stated about a rounded result is
      stated so that it holds on both sides ([Reference.clearOfTies]).
    - An object used as a dictionary (nutrition totals, the activity table,
      the stored meal sets) is a [gmap] with string keys; a missing key is
      JavaScript's [undefined].
    - A property that may be [undefined] is an [option]; [null] and
      [undefined] are not distinguished.
    - A [try] body is a function into [option], [None] meaning that an
      exception was thrown; the [catch] clause supplies the default.
      [ErrorHandler.handleError] only logs and displays, it returns
      normally and is not modelled further.
    - "Now" ([new Date()]) and the host time zone are explicit arguments.
      [JSDate] reads local time as UTC plus one fixed offset; [ZonedDate]
      and [Zoned] follow the rules of a zone ([Zone.t]), daylight-saving
      changes included, and give the same dates wherever the zone keeps
      one offset. *)

From Stdlib Require Import ZArith QArith Qabs Qround Lia Lqa String Ascii DecimalString.
From Stdlib Require HexadecimalString.
From stdpp Require Import gmap strings list fin_maps.

(* ===================================================================== *)
(** ** JavaScript values and built-ins                                     *)
(* ===================================================================== *)

Module JS.

(** Numbers: finite values are rationals, kept in lowest terms by every
    operation. *)
Inductive number : Type :=
| Fin (q : Q)
| PosInf
| NegInf
| NaN.

Definition ofZ (z : Z) : number := Fin (inject_Z z).

Definition isFinite (x : number) : bool :=
  match x with Fin _ => true | _ => false end.

Definition signQ (q : Q) : comparison := (Qnum q ?= 0)%Z.

Definition infOfSign (c : comparison) : number :=
  match c with Gt => PosInf | Lt => NegInf | Eq => NaN end.

Definition add (x y : number) : number :=
  match x, y with
  | NaN, _ | _, NaN => NaN
  | Fin a, Fin b => Fin (Qred (a + b))
  | PosInf, NegInf | NegInf, PosInf => NaN
  | PosInf, _ | _, PosInf => PosInf
  | NegInf, _ | _, NegInf => NegInf
  end.

Definition sub (x y : number) : number :=
  match x, y with
  | NaN, _ | _, NaN => NaN
  | Fin a, Fin b => Fin (Qred (a - b))
  | PosInf, PosInf | NegInf, NegInf => NaN
  | PosInf, _ | _, NegInf => PosInf
  | NegInf, _ | _, PosInf => NegInf
  end.

Definition mul (x y : number) : number :=
  match x, y with
  | NaN, _ | _, NaN => NaN
  | Fin a, Fin b => Fin (Qred (a * b))
  | PosInf, Fin b | Fin b, PosInf => infOfSign (signQ b)
  | NegInf, Fin b | Fin b, NegInf => infOfSign (CompOpp (signQ b))
  | PosInf, PosInf | NegInf, NegInf => PosInf
  | PosInf, NegInf | NegInf, PosInf => NegInf
  end.

Definition div (x y : number) : number :=
  match x, y with
  | NaN, _ | _, NaN => NaN
  | Fin a, Fin b =>
      match signQ b with
      | Eq => infOfSign (signQ a)
      | _ => Fin (Qred (a / b))
      end
  | Fin _, _ => Fin 0
  | PosInf, Fin b => match signQ b with Lt => NegInf | _ => PosInf end
  | NegInf, Fin b => match signQ b with Lt => PosInf | _ => NegInf end
  | _, _ => NaN
  end.

(** [Math.round]: the nearest integer, halves rounded towards +Infinity. *)
Definition Math_round (x : number) : number :=
  match x with
  | Fin q => Fin (inject_Z (Qfloor (q + (1 # 2))))
  | _ => x
  end.

(** [ToBoolean] on a number: [0] and [NaN] are falsy. *)
Definition toBoolean (x : number) : bool :=
  match x with
  | Fin q => match signQ q with Eq => false | _ => true end
  | NaN => false
  | _ => true
  end.

(** [a || b] on numbers. *)
Definition or (a b : number) : number := if toBoolean a then a else b.

(** A property holding a number, or [undefined]. *)
Definition truthy (o : option number) : bool :=
  match o with Some x => toBoolean x | None => false end.

(** [a || b] on such properties. *)
Definition orProp (a b : option number) : option number :=
  if truthy a then a else b.

(** [ToNumber] of such a property: [undefined] becomes [NaN]. *)
Definition toNumber (o : option number) : number := default NaN o.

(** [parseFloat] of a property that holds a number or is [undefined]: a
    number is printed and read back unchanged, [undefined] gives [NaN]. *)
Definition parseFloat (o : option number) : number := default NaN o.

(** A string property, or [undefined]: only the empty string is falsy. *)
Definition truthyString (o : option string) : bool :=
  match o with
  | Some s => negb (String.eqb s "")
  | None => false
  end.

(** [String.prototype.toLowerCase] on the ASCII letters. *)
Definition lowerAscii (c : ascii) : ascii :=
  let n := nat_of_ascii c in
  if (65 <=? n)%nat && (n <=? 90)%nat then ascii_of_nat (n + 32) else c.

Fixpoint toLowerCase (s : string) : string :=
  match s with
  | EmptyString => EmptyString
  | String c rest => String (lowerAscii c) (toLowerCase rest)
  end.

(** Identifiers are integers or strings; [toString] prints an integer in
    decimal. *)
Inductive ident : Type :=
| IdNum (n : Z)
| IdStr (s : string).

Definition toString (i : ident) : string :=
  match i with
  | IdNum n => NilZero.string_of_int (Z.to_int n)
  | IdStr s => s
  end.

(** [s.split(sep)] for a one-character separator. *)
Fixpoint split (sep : ascii) (s : string) : list string :=
  match s with
  | EmptyString => [""]
  | String c rest =>
      if Ascii.eqb c sep then "" :: split sep rest
      else match split sep rest with
           | cur :: more => String c cur :: more
           | [] => [String c ""]
           end
  end.

Definition isWhiteSpace (c : ascii) : bool :=
  let n := nat_of_ascii c in
  (n =? 32)%nat || ((9 <=? n)%nat && (n <=? 13)%nat).

Fixpoint trimStart (s : string) : string :=
  match s with
  | String c rest => if isWhiteSpace c then trimStart rest else s
  | EmptyString => s
  end.

Definition digitValue (radix : Z) (c : ascii) : option Z :=
  let n := Z.of_nat (nat_of_ascii c) in
  let v :=
    if (48 <=? n)%Z && (n <=? 57)%Z then Some (n - 48)%Z
    else if (97 <=? n)%Z && (n <=? 122)%Z then Some (n - 87)%Z
    else if (65 <=? n)%Z && (n <=? 90)%Z then Some (n - 55)%Z
    else None in
  v ≫= λ v, if (v <? radix)%Z then Some v else None.

(** The longest prefix of digits, read in the given radix; [acc] is [None]
    until a digit has been seen. *)
Fixpoint readDigits (radix : Z) (s : string) (acc : option Z) : option Z :=
  match s with
  | String c rest =>
      match digitValue radix c with
      | Some v => readDigits radix rest (Some (default 0 acc * radix + v)%Z)
      | None => acc
      end
  | EmptyString => acc
  end.

(** [parseInt(x)] without a radix: white space, a sign, an optional [0x]
    prefix, then digits; [None] is [NaN].  [undefined] reads as the text
    "undefined", which has no digits. *)
Definition parseInt (x : option string) : option Z :=
  s ← x;
  let s := trimStart s in
  let '(sign, s) :=
    match s with
    | String c rest =>
        if Ascii.eqb c "-" then ((-1)%Z, rest)
        else if Ascii.eqb c "+" then (1%Z, rest)
        else (1%Z, s)
    | EmptyString => (1%Z, s)
    end in
  let '(radix, s) :=
    match s with
    | String c0 (String c1 rest) =>
        if Ascii.eqb c0 "0" && (Ascii.eqb c1 "x" || Ascii.eqb c1 "X")
        then (16%Z, rest)
        else (10%Z, s)
    | _ => (10%Z, s)
    end in
  Z.mul sign <$> readDigits radix s None.

(** [a === b] on numbers. *)
Definition eqb (a b : number) : bool :=
  match a, b with
  | Fin x, Fin y => Qeq_bool x y
  | PosInf, PosInf | NegInf, NegInf => true
  | _, _ => false
  end.

(** [0 <= x] and [0 < x] on numbers; both are false on [NaN]. *)
Definition nonNegative (x : number) : bool :=
  match x with
  | Fin q => Qle_bool 0 q
  | PosInf => true
  | _ => false
  end.

Definition positive (x : number) : bool := nonNegative x && toBoolean x.

(** A number variable that holds an integer or [NaN]. *)
Definition ofInt (o : option Z) : number :=
  match o with Some z => ofZ z | None => NaN end.

(** [a === b] on two such variables: [NaN] equals nothing. *)
Definition strictEq (a b : option Z) : bool :=
  match a, b with
  | Some x, Some y => (x =? y)%Z
  | _, _ => false
  end.

(** [a < b] and [a > b] on numbers; a comparison with [NaN] is false. *)
Definition ltb (a b : number) : bool :=
  match a, b with
  | Fin x, Fin y => negb (Qle_bool y x)
  | NegInf, Fin _ | NegInf, PosInf | Fin _, PosInf => true
  | _, _ => false
  end.

Definition gtb (a b : number) : bool := ltb b a.

(** [isNaN(x)] on a number. *)
Definition isNaN (x : number) : bool :=
  match x with NaN => true | _ => false end.

(** [Math.min(a, b)] and [Math.max(a, b)]: [NaN] when either is [NaN]. *)
Definition min2 (a b : number) : number :=
  match a, b with
  | NaN, _ | _, NaN => NaN
  | _, _ => if ltb b a then b else a
  end.

Definition max2 (a b : number) : number :=
  match a, b with
  | NaN, _ | _, NaN => NaN
  | _, _ => if ltb a b then b else a
  end.

(** [Math.min(...values)] and [Math.max(...values)]: [Infinity] and
    [-Infinity] when there are no values. *)
Definition Math_min (values : list number) : number := foldr min2 PosInf values.

Definition Math_max (values : list number) : number := foldr max2 NegInf values.

(** [s.startsWith(prefix)]. *)
Definition startsWith (s prefix : string) : bool := String.prefix prefix s.

(** [a === b] on identifiers: a number never equals a string. *)
Definition identEq (a b : ident) : bool :=
  match a, b with
  | IdNum x, IdNum y => (x =? y)%Z
  | IdStr x, IdStr y => String.eqb x y
  | _, _ => false
  end.

End JS.

Export JS(number, Fin, PosInf, NegInf, NaN, ident, IdNum, IdStr).

(* ===================================================================== *)
(** ** The [Date] built-in                                                 *)
(* ===================================================================== *)

Module JSDate.

(** A [Date] holds a time value, milliseconds since the epoch, or is the
    invalid date.  Here local time is UTC shifted by a fixed offset [tz]
    (in milliseconds); [ZonedDate] below has the methods under the rules
    of a zone.  The limits of the time range are not modelled. *)
Inductive t : Type :=
| Valid (time : Z)
| Invalid.

Definition msPerDay : Z := 86400000.

(** Days since 1970-01-01 to (year, month 1..12, day of month) in the
    proleptic Gregorian calendar, and back. *)
Definition civilFromDays (z : Z) : Z * Z * Z :=
  let z := (z + 719468)%Z in
  let era := (z `div` 146097)%Z in
  let doe := (z `mod` 146097)%Z in
  let yoe := ((doe - doe `div` 1460 + doe `div` 36524 - doe `div` 146096) `div` 365)%Z in
  let y := (yoe + era * 400)%Z in
  let doy := (doe - (365 * yoe + yoe `div` 4 - yoe `div` 100))%Z in
  let mp := ((5 * doy + 2) `div` 153)%Z in
  let d := (doy - (153 * mp + 2) `div` 5 + 1)%Z in
  let m := if (mp <? 10)%Z then (mp + 3)%Z else (mp - 9)%Z in
  (if (m <=? 2)%Z then (y + 1)%Z else y, m, d).

Definition daysFromCivil (y m d : Z) : Z :=
  let y := if (m <=? 2)%Z then (y - 1)%Z else y in
  let era := (y `div` 400)%Z in
  let yoe := (y `mod` 400)%Z in
  let mp := if (2 <? m)%Z then (m - 3)%Z else (m + 9)%Z in
  let doy := ((153 * mp + 2) `div` 5 + d - 1)%Z in
  let doe := (yoe * 365 + yoe `div` 4 - yoe `div` 100 + doy)%Z in
  (era * 146097 + doe - 719468)%Z.

(** The local calendar fields; [None] is [NaN]. *)
Definition localFields (tz : Z) (d : t) : option (Z * Z * Z) :=
  match d with
  | Valid time => Some (civilFromDays ((time + tz) `div` msPerDay))
  | Invalid => None
  end.

Definition getFullYear (tz : Z) (d : t) : option Z :=
  '(y, _, _) ← localFields tz d; Some y.

(** Months count from 0. *)
Definition getMonth (tz : Z) (d : t) : option Z :=
  '(_, m, _) ← localFields tz d; Some (m - 1)%Z.

Definition getDate (tz : Z) (d : t) : option Z :=
  '(_, _, day) ← localFields tz d; Some day.

(** ECMAScript's [MakeDay]: the day number of the first day of the month,
    the month counted from 0 and carried over into the year, plus
    [date - 1]. *)
Definition makeDay (year month date : Z) : Z :=
  (daysFromCivil (year + month `div` 12) (month `mod` 12 + 1) 1 + date - 1)%Z.

(** [new Date(year, month, day)]: local midnight; a year from 0 to 99
    stands for 1900 + year. *)
Definition make (tz : Z) (year month day : option Z) : t :=
  match year, month, day with
  | Some y, Some m, Some d =>
      let y := if (0 <=? y)%Z && (y <=? 99)%Z then (1900 + y)%Z else y in
      Valid (makeDay y m d * msPerDay - tz)
  | _, _, _ => Invalid
  end.

(** [date.setDate(dt)]: day [dt] of the local month the date is in, at the
    same local time of day; [dt] out of range carries over. *)
Definition setDate (tz : Z) (d : t) (dt : option Z) : t :=
  match d, dt with
  | Valid time, Some dt =>
      let local := (time + tz)%Z in
      let '(y, m, _) := civilFromDays (local `div` msPerDay) in
      Valid (makeDay y (m - 1) dt * msPerDay + local `mod` msPerDay - tz)
  | _, _ => Invalid
  end.

(** [a <= b] on dates compares the time values; [NaN] compares false. *)
Definition le (a b : t) : bool :=
  match a, b with
  | Valid x, Valid y => (x <=? y)%Z
  | _, _ => false
  end.

Definition digits (z : Z) : string := NilZero.string_of_int (Z.to_int z).

Fixpoint zeros (n : nat) : string :=
  match n with
  | O => ""
  | S n => String "0" (zeros n)
  end.

Definition padStart (width : nat) (s : string) : string :=
  zeros (width - String.length s) +:+ s.

Definition isoYear (y : Z) : string :=
  if (0 <=? y)%Z && (y <=? 9999)%Z then padStart 4 (digits y)
  else (if (y <? 0)%Z then "-" else "+") +:+ padStart 6 (digits (Z.abs y)).

(** The UTC day number of a time value. *)
Definition utcDay (time : Z) : Z := (time `div` msPerDay)%Z.

Definition isoDate (day : Z) : string :=
  let '(y, m, d) := civilFromDays day in
  isoYear y +:+ "-" +:+ padStart 2 (digits m) +:+ "-" +:+ padStart 2 (digits d).

(** [date.toISOString().split('T')[0]]: the UTC calendar date;
    [toISOString] throws a [RangeError] on the invalid date. *)
Definition toISODate (d : t) : option string :=
  match d with
  | Valid time => Some (isoDate (utcDay time))
  | Invalid => None
  end.

(** [date.getDay()]: the local day of the week, Sunday being 0; the first
    day of the epoch was a Thursday. *)
Definition getDay (tz : Z) (d : t) : option Z :=
  match d with
  | Valid time => Some (((time + tz) `div` msPerDay + 4) `mod` 7)%Z
  | Invalid => None
  end.

End JSDate.

(** *** Time zones with rules *)

Module Zone.

(** The rules of a time zone, as ECMAScript's [LocalTZA(t, isUTC)]: the
    offset from UTC, in milliseconds, in force at a UTC time value, and
    the offset by which a local time value is read; for a local time that
    a transition skips or repeats that is the offset in force before the
    transition. *)
Record t : Type := mk {
  atUTC : Z → Z;
  atLocal : Z → Z
}.

(** A zone that keeps one offset. *)
Definition fixed (tz : Z) : t := mk (λ _, tz) (λ _, tz).

(** Europe/London in 2024: one hour ahead of UTC from 31 March, 01:00 UTC,
    to 27 October, 01:00 UTC. *)
Definition london2024 : t :=
  let hour := 3600000%Z in
  let start := (19813 * 86400000 + hour)%Z in
  let stop := (20023 * 86400000 + hour)%Z in
  mk (λ time, if (start <=? time)%Z && (time <? stop)%Z then hour else 0%Z)
     (λ local,
        if (start + hour <=? local)%Z && (local <? stop + hour)%Z then hour else 0%Z).

End Zone.

(** The methods of [Date] that read or write local time, under the rules
    of a zone.  With [Zone.fixed tz] they are the functions of [JSDate]. *)
Module ZonedDate.

(** [LocalTime(t)] and [UTC(t)]. *)
Definition localTime (zone : Zone.t) (time : Z) : Z :=
  (time + Zone.atUTC zone time)%Z.

Definition utc (zone : Zone.t) (local : Z) : Z :=
  (local - Zone.atLocal zone local)%Z.

Definition localFields (zone : Zone.t) (d : JSDate.t) : option (Z * Z * Z) :=
  match d with
  | JSDate.Valid time =>
      Some (JSDate.civilFromDays (localTime zone time `div` JSDate.msPerDay))
  | JSDate.Invalid => None
  end.

Definition getFullYear (zone : Zone.t) (d : JSDate.t) : option Z :=
  '(y, _, _) ← localFields zone d; Some y.

Definition getMonth (zone : Zone.t) (d : JSDate.t) : option Z :=
  '(_, m, _) ← localFields zone d; Some (m - 1)%Z.

Definition getDate (zone : Zone.t) (d : JSDate.t) : option Z :=
  '(_, _, day) ← localFields zone d; Some day.

Definition getDay (zone : Zone.t) (d : JSDate.t) : option Z :=
  match d with
  | JSDate.Valid time =>
      Some ((localTime zone time `div` JSDate.msPerDay + 4) `mod` 7)%Z
  | JSDate.Invalid => None
  end.

(** [new Date(year, month, day)]: the UTC time of local midnight. *)
Definition make (zone : Zone.t) (year month day : option Z) : JSDate.t :=
  match year, month, day with
  | Some y, Some m, Some d =>
      let y := if (0 <=? y)%Z && (y <=? 99)%Z then (1900 + y)%Z else y in
      JSDate.Valid (utc zone (JSDate.makeDay y m d * JSDate.msPerDay))
  | _, _, _ => JSDate.Invalid
  end.

(** [date.setDate(dt)]: the UTC time of day [dt] of the local month, at
    the local time of day the date has. *)
Definition setDate (zone : Zone.t) (d : JSDate.t) (dt : option Z) : JSDate.t :=
  match d, dt with
  | JSDate.Valid time, Some dt =>
      let local := localTime zone time in
      let '(y, m, _) := JSDate.civilFromDays (local `div` JSDate.msPerDay) in
      JSDate.Valid
        (utc zone (JSDate.makeDay y (m - 1) dt * JSDate.msPerDay
                   + local `mod` JSDate.msPerDay))
  | _, _ => JSDate.Invalid
  end.

End ZonedDate.

(* ===================================================================== *)
(** ** Data model                                                          *)
(* ===================================================================== *)

Module Person.
Record t : Type := mk {
  id : string;
  name : string;
  gender : option string;
  age : option number;
  weight : option number;
  height : option number;
  weightUnit : option string;
  heightUnit : option string;
  activityLevel : option string
}.
End Person.

Module FoodItem.
(** The four macro fields are read unconditionally, so an absent one acts
    as [NaN]; the micro fields and the cost are tested before use. *)
Record t : Type := mk {
  id : ident;
  name : string;
  servingSize : string;
  calories : number;
  protein : number;
  carbs : number;
  fat : number;
  fiber : option number;
  sodium : option number;
  calcium : option number;
  iron : option number;
  vitaminA : option number;
  vitaminC : option number;
  costPerServing : option number
}.
End FoodItem.

Module MealItem.
(** [servings] is stored as a number ([MealTracker.addMeal] parses the form
    value before saving) or is missing. *)
Record t : Type := mk {
  foodId : option ident;
  servings : option number;
  notes : string
}.
End MealItem.

(** A day's meals: meal type to the array of its items. *)
Abbreviation DayMeals := (gmap string (list MealItem.t)).

Module Expense.
(** [amount] is the number [BudgetTracker] parsed from the form, or [null]
    once a value that was not finite has been through storage. *)
Record t : Type := mk {
  id : string;
  date : string;
  description : string;
  amount : option number
}.
End Expense.

Module NewFood.
(** The argument of [DataStore.addFoodToDatabase]: a catalog item that may
    or may not bring an [id] of its own, any field of which may be
    missing. *)
Record t : Type := mk {
  id : option ident;
  name : string;
  servingSize : string;
  calories : option number;
  protein : option number;
  carbs : option number;
  fat : option number;
  fiber : option number;
  sodium : option number;
  calcium : option number;
  iron : option number;
  vitaminA : option number;
  vitaminC : option number;
  costPerServing : option number
}.

(** The object with its [id] set. *)
Definition withId (i : ident) (f : t) : t :=
  mk (Some i) (name f) (servingSize f) (calories f) (protein f) (carbs f) (fat f)
    (fiber f) (sodium f) (calcium f) (iron f) (vitaminA f) (vitaminC f)
    (costPerServing f).
End NewFood.

(** A nutrition-totals object. *)
Abbreviation Totals := (gmap string number).

Module Report.
Record Series : Type := mkSeries {
  planned : list number;
  consumed : list number
}.
Record Datasets : Type := mkDatasets {
  calories : Series;
  protein : Series;
  carbs : Series;
  fat : Series;
  cost : Series
}.
Record t : Type := mk {
  labels : list string;
  datasets : Datasets
}.
End Report.

(* ===================================================================== *)
(** ** [JSON.parse(JSON.stringify(x))]                                     *)
(* ===================================================================== *)

Module JSON.

(** A number property: a number that is not finite is written as [null],
    a property that is [undefined] is left out; either way it reads back
    as no number. *)
Definition roundTrip (x : option number) : option number :=
  match x with
  | Some (Fin q) => Some (Fin q)
  | _ => None
  end.

(** A number property that is read without a test ([food.calories *
    servings]): left out it acts as [NaN], written as [null] it acts as 0. *)
Definition macro (x : option number) : number :=
  match x with
  | None => NaN
  | Some (Fin q) => Fin q
  | Some _ => Fin 0
  end.

Definition mealItem (item : MealItem.t) : MealItem.t :=
  MealItem.mk (MealItem.foodId item) (roundTrip (MealItem.servings item))
    (MealItem.notes item).

Definition dayMeals (meals : DayMeals) : DayMeals :=
  (λ items : list MealItem.t, mealItem <$> items) <$> meals.

Definition expense (e : Expense.t) : Expense.t :=
  Expense.mk (Expense.id e) (Expense.date e) (Expense.description e)
    (roundTrip (Expense.amount e)).

(** The catalog item a new food is stored as, under the id [i]. *)
Definition food (i : ident) (f : NewFood.t) : FoodItem.t :=
  FoodItem.mk i (NewFood.name f) (NewFood.servingSize f)
    (macro (NewFood.calories f)) (macro (NewFood.protein f))
    (macro (NewFood.carbs f)) (macro (NewFood.fat f))
    (roundTrip (NewFood.fiber f)) (roundTrip (NewFood.sodium f))
    (roundTrip (NewFood.calcium f)) (roundTrip (NewFood.iron f))
    (roundTrip (NewFood.vitaminA f)) (roundTrip (NewFood.vitaminC f))
    (roundTrip (NewFood.costPerServing f)).

End JSON.

(* ===================================================================== *)
(** ** DataStore: what the calculator reads                                *)
(* ===================================================================== *)

Module DataStore.

(** The parsed content of local storage under the three keys used here;
    [None] is a key that holds nothing ([getData] then returns [null]). *)
Record Storage : Type := mkStorage {
  MEALS : option (gmap string DayMeals);
  MEAL_PLANS : option (gmap string DayMeals);
  FOOD_DATABASE : option (list FoodItem.t)
}.

Definition emptyDay : DayMeals :=
  {[ "breakfast" := []; "lunch" := []; "dinner" := []; "snacks" := [] ]}.

Definition getMeals (st : Storage) (date familyMemberId : string) : DayMeals :=
  let allMeals := default ∅ (MEALS st) in
  let key := date +:+ "_" +:+ familyMemberId in
  default emptyDay (allMeals !! key).

Definition getMealPlans (st : Storage) (date familyMemberId : string) : DayMeals :=
  let allMealPlans := default ∅ (MEAL_PLANS st) in
  let key := date +:+ "_" +:+ familyMemberId in
  default emptyDay (allMealPlans !! key).

Definition getFoodDatabase (st : Storage) : list FoodItem.t :=
  default [] (FOOD_DATABASE st).

(** *** The operations that write *)

(** Local storage with the expenses.  The state holds what [JSON.parse]
    returned, which a further round trip leaves as it is. *)
Record State : Type := mkState {
  stored : Storage;
  EXPENSES : option (list Expense.t)
}.

(** [saveData(key, data)]: [localStorage.setItem] stores the text of
    [data], or throws (storage that is full or switched off), which
    [saveData] catches and answers with [false].  Which of the two happens
    is decided outside the program: it is the argument [accepted].
    [written] is the state with the key replaced. *)
Definition saveData (accepted : bool) (written st : State) : bool * State :=
  if accepted then (true, written) else (false, st).

Definition saveMeals (accepted : bool) (st : State) (date familyMemberId : string)
    (meals : DayMeals) : bool * State :=
  let allMeals := default ∅ (MEALS (stored st)) in
  let key := date +:+ "_" +:+ familyMemberId in
  let allMeals := <[key := JSON.dayMeals meals]> allMeals in
  saveData accepted
    (mkState (mkStorage (Some allMeals) (MEAL_PLANS (stored st))
                (FOOD_DATABASE (stored st)))
       (EXPENSES st))
    st.

Definition saveMealPlans (accepted : bool) (st : State) (date familyMemberId : string)
    (mealPlans : DayMeals) : bool * State :=
  let allMealPlans := default ∅ (MEAL_PLANS (stored st)) in
  let key := date +:+ "_" +:+ familyMemberId in
  let allMealPlans := <[key := JSON.dayMeals mealPlans]> allMealPlans in
  saveData accepted
    (mkState (mkStorage (MEALS (stored st)) (Some allMealPlans)
                (FOOD_DATABASE (stored st)))
       (EXPENSES st))
    st.

(** [array[index]] for a number that holds an integer: [undefined] out of
    range. *)
Definition at_index {A : Type} (array : list A) (index : Z) : option A :=
  if (0 <=? index)%Z then array !! Z.to_nat index else None.

(** [convertPlanToMeal]: nothing in the [try] block throws on data of
    these types.  The results of the two writes are not looked at.  The
    time stamps and the [planned] flag the new item carries are not part
    of [MealItem.t]. *)
Definition convertPlanToMeal (accepted1 accepted2 : bool) (st : State)
    (date familyMemberId mealType : string) (planIndex : Z) : bool * State :=
  let mealPlans := getMealPlans (stored st) date familyMemberId in
  match mealPlans !! mealType ≫= λ plans, at_index plans planIndex with
  | None => (false, st)
  | Some planItem =>
      let meals := getMeals (stored st) date familyMemberId in
      let consumed := default [] (meals !! mealType) in
      let meals :=
        <[mealType := consumed ++ [MealItem.mk (MealItem.foodId planItem)
                                     (MealItem.servings planItem)
                                     (MealItem.notes planItem)]]> meals in
      let st := (saveMeals accepted1 st date familyMemberId meals).2 in
      let mealPlans := alter (delete (Z.to_nat planIndex)) mealType mealPlans in
      let st := (saveMealPlans accepted2 st date familyMemberId mealPlans).2 in
      (true, st)
  end.

Definition getExpenses (st : State) : list Expense.t := default [] (EXPENSES st).

(** [addExpense]: the id is the clock's reading, printed. *)
Definition addExpense (accepted : bool) (now : Z) (st : State)
    (date description : string) (amount : option number)
  : option Expense.t * State :=
  let expenses := getExpenses st in
  let newExpense := Expense.mk (JSDate.digits now) date description amount in
  let expenses := expenses ++ [JSON.expense newExpense] in
  let '(ok, st) := saveData accepted (mkState (stored st) (Some expenses)) st in
  (if ok then Some newExpense else None, st).

Definition deleteExpense (accepted : bool) (st : State) (expenseId : string)
  : bool * State :=
  let expenses := getExpenses st in
  let updatedExpenses := filter (λ expense, Expense.id expense ≠ expenseId) expenses in
  saveData accepted (mkState (stored st) (Some updatedExpenses)) st.

(** [addFoodToDatabase]: in [{id: ..., ...food}] an [id] that [food]
    brings replaces the time stamp.  The catalog is written with the new
    item as JSON keeps it; the result is the object [newFood] itself, as
    it is in memory, or [null]. *)
Definition addFoodToDatabase (accepted : bool) (now : Z) (st : State)
    (food : NewFood.t) : option NewFood.t * State :=
  let foodDb := getFoodDatabase (stored st) in
  let id := default (IdStr (JSDate.digits now)) (NewFood.id food) in
  let newFood := NewFood.withId id food in
  let foodDb := foodDb ++ [JSON.food id newFood] in
  let '(ok, st) :=
    saveData accepted
      (mkState (mkStorage (MEALS (stored st)) (MEAL_PLANS (stored st)) (Some foodDb))
         (EXPENSES st))
      st in
  (if ok then Some newFood else None, st).

(** [getFoodById]: [foodDb.find(food => food.id === foodId)]. *)
Definition getFoodById (st : State) (foodId : ident) : option FoodItem.t :=
  List.find (λ food, JS.identEq (FoodItem.id food) foodId) (getFoodDatabase (stored st)).

End DataStore.

(** What a call reads from its surroundings: local storage, the clock
    ([new Date()]) and the host time zone. *)
Record Env : Type := mkEnv {
  storage : DataStore.Storage;
  now : Z;
  tz : Z
}.

(* ===================================================================== *)
(** ** NutritionCalculator: energy model and aggregation                   *)
(* ===================================================================== *)

Module NutritionCalculator.

(** The activity table; only its own five keys are looked up, the names
    an object literal inherits from [Object.prototype] are not modelled. *)
Definition ACTIVITY_MULTIPLIERS : gmap string number :=
  {[ "SEDENTARY" := Fin 1.2;
     "LIGHT" := Fin 1.375;
     "MODERATE" := Fin 1.55;
     "ACTIVE" := Fin 1.725;
     "VERY_ACTIVE" := Fin 1.9 ]}.

(** The body of the [try] block of [calculateBMR]. *)
Definition calculateBMR_try (person : option Person.t) : option number :=
  p ← person;
  if negb (JS.truthyString (Person.gender p))
     || negb (JS.truthy (Person.weight p))
     || negb (JS.truthy (Person.height p))
     || negb (JS.truthy (Person.age p))
  then None
  else
    let weight :=
      if bool_decide (Person.weightUnit p = Some "lb")
      then JS.mul (JS.toNumber (Person.weight p)) (Fin 0.453592)
      else JS.toNumber (Person.weight p) in
    let height :=
      if bool_decide (Person.heightUnit p = Some "in")
      then JS.mul (JS.toNumber (Person.height p)) (Fin 2.54)
      else JS.toNumber (Person.height p) in
    let age := JS.toNumber (Person.age p) in
    let bmr :=
      if String.eqb (JS.toLowerCase (default "" (Person.gender p))) "male"
      then JS.sub (JS.add (JS.add (Fin 88.362) (JS.mul (Fin 13.397) weight))
                          (JS.mul (Fin 4.799) height))
                  (JS.mul (Fin 5.677) age)
      else JS.sub (JS.add (JS.add (Fin 447.593) (JS.mul (Fin 9.247) weight))
                          (JS.mul (Fin 3.098) height))
                  (JS.mul (Fin 4.330) age) in
    Some (JS.Math_round bmr).

Definition calculateBMR (person : option Person.t) : number :=
  default (Fin 0) (calculateBMR_try person).

Definition calculateTDEE (bmr : number) (activityLevel : option string) : number :=
  let multiplier :=
    JS.orProp (activityLevel ≫= (ACTIVITY_MULTIPLIERS !!.))
              (ACTIVITY_MULTIPLIERS !! "MODERATE") in
  JS.Math_round (JS.mul bmr (JS.toNumber multiplier)).

(** The body of the [try] block of [calculateDailyCalorieNeeds]: reading
    [person.activityLevel] throws when [person] is [null]. *)
Definition calculateDailyCalorieNeeds_try (person : option Person.t) : option number :=
  let bmr := calculateBMR person in
  p ← person;
  Some (calculateTDEE bmr (Person.activityLevel p)).

Definition calculateDailyCalorieNeeds (person : option Person.t) : number :=
  default (Fin 2000) (calculateDailyCalorieNeeds_try person).

(** The object literal [totals] / [dailyTotals] starts from. *)
Definition zeroTotals : Totals :=
  {[ "calories" := Fin 0; "protein" := Fin 0; "carbs" := Fin 0; "fat" := Fin 0;
     "fiber" := Fin 0; "sodium" := Fin 0; "calcium" := Fin 0; "iron" := Fin 0;
     "vitaminA" := Fin 0; "vitaminC" := Fin 0; "cost" := Fin 0 ]}.

(** The object literal returned by the [catch] clauses of
    [calculateMealNutrition] and [calculateDailyNutrition]. *)
Definition errorTotals : Totals :=
  {[ "calories" := Fin 0; "protein" := Fin 0; "carbs" := Fin 0; "fat" := Fin 0;
     "fiber" := Fin 0; "cost" := Fin 0 ]}.

(** [foodDatabase.find(f => f.id.toString() === item.foodId.toString())]:
    the callback runs once per visited element and throws when
    [item.foodId] is [undefined]; [Some None] is the result [undefined]. *)
Fixpoint find (foodDatabase : list FoodItem.t) (foodId : option ident)
  : option (option FoodItem.t) :=
  match foodDatabase with
  | [] => Some None
  | f :: rest =>
      i ← foodId;
      if String.eqb (JS.toString (FoodItem.id f)) (JS.toString i)
      then Some (Some f)
      else find rest foodId
  end.

(** [totals[key] += x] on a key the object has. *)
Definition addTo (key : string) (x : number) (totals : Totals) : Totals :=
  alter (λ t, JS.add t x) key totals.

(** [if (food.k) totals.k += (food.k * servings)]. *)
Definition addOptional (key : string) (field : option number) (servings : number)
    (totals : Totals) : Totals :=
  if JS.truthy field
  then addTo key (JS.mul (JS.toNumber field) servings) totals
  else totals.

(** [parseFloat(item.servings) || 1]. *)
Definition resolveServings (item : MealItem.t) : number :=
  JS.or (JS.parseFloat (MealItem.servings item)) (Fin 1).

(** The callback of [mealItems.forEach]. *)
Definition addItem (foodDatabase : list FoodItem.t) (totals : Totals)
    (item : MealItem.t) : option Totals :=
  food ← find foodDatabase (MealItem.foodId item);
  match food with
  | None => Some totals
  | Some food =>
      let servings := resolveServings item in
      let totals := addTo "calories" (JS.mul (FoodItem.calories food) servings) totals in
      let totals := addTo "protein" (JS.mul (FoodItem.protein food) servings) totals in
      let totals := addTo "carbs" (JS.mul (FoodItem.carbs food) servings) totals in
      let totals := addTo "fat" (JS.mul (FoodItem.fat food) servings) totals in
      let totals := addOptional "fiber" (FoodItem.fiber food) servings totals in
      let totals := addOptional "sodium" (FoodItem.sodium food) servings totals in
      let totals := addOptional "calcium" (FoodItem.calcium food) servings totals in
      let totals := addOptional "iron" (FoodItem.iron food) servings totals in
      let totals := addOptional "vitaminA" (FoodItem.vitaminA food) servings totals in
      let totals := addOptional "vitaminC" (FoodItem.vitaminC food) servings totals in
      let totals := addOptional "cost" (FoodItem.costPerServing food) servings totals in
      Some totals
  end.

Fixpoint forEachItem (foodDatabase : list FoodItem.t) (mealItems : list MealItem.t)
    (totals : Totals) : option Totals :=
  match mealItems with
  | [] => Some totals
  | item :: rest =>
      totals ← addItem foodDatabase totals item;
      forEachItem foodDatabase rest totals
  end.

(** [Math.round(x * 10) / 10]. *)
Definition round1 (x : number) : number :=
  JS.div (JS.Math_round (JS.mul x (Fin 10))) (Fin 10).

(** The body of the [try] block of [calculateMealNutrition]. *)
Definition calculateMealNutrition_try (mealItems : option (list MealItem.t))
    (foodDatabase : list FoodItem.t) : option Totals :=
  match mealItems with
  | None | Some [] => Some zeroTotals
  | Some items =>
      match forEachItem foodDatabase items zeroTotals with
      | Some totals => Some (round1 <$> totals)
      | None => None
      end
  end.

Definition calculateMealNutrition (mealItems : option (list MealItem.t))
    (foodDatabase : list FoodItem.t) : Totals :=
  default errorTotals (calculateMealNutrition_try mealItems foodDatabase).

Definition mealTypes : list string := ["breakfast"; "lunch"; "dinner"; "snacks"].

(** [dailyTotals[key] += mealNutrition[key] || 0] for every key of
    [dailyTotals]. *)
Definition addMeal (mealNutrition dailyTotals : Totals) : Totals :=
  map_imap (λ key v,
    Some (JS.add v (JS.toNumber (JS.orProp (mealNutrition !! key) (Some (Fin 0))))))
    dailyTotals.

(** The body of the [try] block of [calculateDailyNutrition]: reading
    [meals[mealType]] throws when [meals] is [null] or [undefined]; a slot
    that is missing is skipped. *)
Definition calculateDailyNutrition_try (meals : option DayMeals)
    (foodDatabase : list FoodItem.t) : option Totals :=
  match meals with
  | None => None
  | Some meals =>
  let dailyTotals :=
    foldl (λ dailyTotals mealType,
      match meals !! mealType with
      | Some items =>
          addMeal (calculateMealNutrition (Some items) foodDatabase) dailyTotals
      | None => dailyTotals
      end) zeroTotals mealTypes in
  Some (round1 <$> dailyTotals)
  end.

Definition calculateDailyNutrition (meals : option DayMeals)
    (foodDatabase : list FoodItem.t) : Totals :=
  default errorTotals (calculateDailyNutrition_try meals foodDatabase).

(** *** Percentages of the daily recommended values *)

Module CALORIES_PER_GRAM.
Definition PROTEIN : number := Fin 4.
Definition CARBS : number := Fin 4.
Definition FAT : number := Fin 9.
Definition FIBER : number := Fin 2.
End CALORIES_PER_GRAM.

Module DAILY_RECOMMENDED.
Module CALORIES.
Definition ADULT_MALE : number := Fin 2500.
Definition ADULT_FEMALE : number := Fin 2000.
Definition CHILD : number := Fin 1800.
End CALORIES.
Module MACROS.
Definition PROTEIN_PERCENT : number := Fin 0.15.
Definition CARBS_PERCENT : number := Fin 0.55.
Definition FAT_PERCENT : number := Fin 0.30.
End MACROS.
Module MICROS.
Definition FIBER : number := Fin 25.
Definition SODIUM : number := Fin 2300.
Definition CALCIUM : number := Fin 1000.
Definition IRON : number := Fin 18.
Definition VITAMIN_A : number := Fin 900.
Definition VITAMIN_C : number := Fin 90.
End MICROS.
End DAILY_RECOMMENDED.

(** [Math.round((x / recommended) * 100)]. *)
Definition percentOf (x recommended : number) : number :=
  JS.Math_round (JS.mul (JS.div x recommended) (Fin 100)).

(** [calculateNutritionPercentages] has no [try] block; [nutrition] is an
    object, a key it lacks reads as [undefined]. *)
Definition calculateNutritionPercentages (nutrition : Totals)
    (calorieNeeds : option number) : Totals :=
  let calories := JS.toNumber (JS.orProp calorieNeeds (Some (Fin 2000))) in
  let recommendedProtein :=
    JS.div (JS.mul calories DAILY_RECOMMENDED.MACROS.PROTEIN_PERCENT)
           CALORIES_PER_GRAM.PROTEIN in
  let recommendedCarbs :=
    JS.div (JS.mul calories DAILY_RECOMMENDED.MACROS.CARBS_PERCENT)
           CALORIES_PER_GRAM.CARBS in
  let recommendedFat :=
    JS.div (JS.mul calories DAILY_RECOMMENDED.MACROS.FAT_PERCENT)
           CALORIES_PER_GRAM.FAT in
  let field key := JS.toNumber (nutrition !! key) in
  {[ "calories" := percentOf (field "calories") calories;
     "protein" := percentOf (field "protein") recommendedProtein;
     "carbs" := percentOf (field "carbs") recommendedCarbs;
     "fat" := percentOf (field "fat") recommendedFat;
     "fiber" := percentOf (field "fiber") DAILY_RECOMMENDED.MICROS.FIBER;
     "sodium" := percentOf (field "sodium") DAILY_RECOMMENDED.MICROS.SODIUM;
     "calcium" := percentOf (field "calcium") DAILY_RECOMMENDED.MICROS.CALCIUM;
     "iron" := percentOf (field "iron") DAILY_RECOMMENDED.MICROS.IRON;
     "vitaminA" := percentOf (field "vitaminA") DAILY_RECOMMENDED.MICROS.VITAMIN_A;
     "vitaminC" := percentOf (field "vitaminC") DAILY_RECOMMENDED.MICROS.VITAMIN_C ]}.

(** *** Report generation *)

(** The five figures of one nutrition object that go into a report. *)
Record Metrics : Type := mkMetrics {
  mCalories : number;
  mProtein : number;
  mCarbs : number;
  mFat : number;
  mCost : number
}.

Definition zeroMetrics : Metrics :=
  mkMetrics (Fin 0) (Fin 0) (Fin 0) (Fin 0) (Fin 0).

(** [nutrition.calories], ..., [nutrition.cost]. *)
Definition metricsOf (nutrition : Totals) : Metrics :=
  mkMetrics (JS.toNumber (nutrition !! "calories"))
            (JS.toNumber (nutrition !! "protein"))
            (JS.toNumber (nutrition !! "carbs"))
            (JS.toNumber (nutrition !! "fat"))
            (JS.toNumber (nutrition !! "cost")).

(** [total... += nutrition. ...] on the five running totals. *)
Definition addMetrics (total x : Metrics) : Metrics :=
  mkMetrics (JS.add (mCalories total) (mCalories x))
            (JS.add (mProtein total) (mProtein x))
            (JS.add (mCarbs total) (mCarbs x))
            (JS.add (mFat total) (mFat x))
            (JS.add (mCost total) (mCost x)).

Definition push {A : Type} (l : list A) (x : A) : list A := l ++ [x].

Definition pushSeries (s : Report.Series) (p c : number) : Report.Series :=
  Report.mkSeries (push (Report.planned s) p) (push (Report.consumed s) c).

(** The ten [push] calls that end the processing of one date. *)
Definition pushMetrics (d : Report.Datasets) (consumed planned : Metrics)
  : Report.Datasets :=
  Report.mkDatasets
    (pushSeries (Report.calories d) (mCalories planned) (mCalories consumed))
    (pushSeries (Report.protein d) (mProtein planned) (mProtein consumed))
    (pushSeries (Report.carbs d) (mCarbs planned) (mCarbs consumed))
    (pushSeries (Report.fat d) (mFat planned) (mFat consumed))
    (pushSeries (Report.cost d) (mCost planned) (mCost consumed)).

Definition emptySeries : Report.Series := Report.mkSeries [] [].

(** The report object before any date is processed; the [catch] clause
    returns a fresh copy of it. *)
Definition emptyReport : Report.t :=
  Report.mk []
    (Report.mkDatasets emptySeries emptySeries emptySeries emptySeries emptySeries).

Definition consumedOf (env : Env) (foodDatabase : list FoodItem.t)
    (dateString memberId : string) : Metrics :=
  metricsOf (calculateDailyNutrition
               (Some (DataStore.getMeals (storage env) dateString memberId))
               foodDatabase).

Definition plannedOf (env : Env) (foodDatabase : list FoodItem.t)
    (dateString memberId : string) : Metrics :=
  metricsOf (calculateDailyNutrition
               (Some (DataStore.getMealPlans (storage env) dateString memberId))
               foodDatabase).

(** [const date = new Date(start); date.setDate(date.getDate() + i)]. *)
Definition dayAfter (env : Env) (start : JSDate.t) (i : Z) : JSDate.t :=
  let date := start in
  JSDate.setDate (tz env) date ((λ day, (day + i)%Z) <$> JSDate.getDate (tz env) date).

(** The dates a report covers. *)
Definition reportDates (env : Env) (reportType : string) (startDate : JSDate.t)
  : list JSDate.t :=
  let today := JSDate.Valid (now env) in
  if String.eqb reportType "daily" then [startDate]
  else if String.eqb reportType "weekly" then
    let startOfWeek := startDate in
    filter (λ date, JSDate.le date today = true)
           (dayAfter env startOfWeek <$> seqZ 0 7)
  else if String.eqb reportType "monthly" then
    let year := JSDate.getFullYear (tz env) startDate in
    let month := JSDate.getMonth (tz env) startDate in
    let startOfMonth := JSDate.make (tz env) year month (Some 1%Z) in
    let endOfMonth := JSDate.make (tz env) year (Z.succ <$> month) (Some 0%Z) in
    let daysInMonth := default 0%Z (JSDate.getDate (tz env) endOfMonth) in
    filter (λ date, JSDate.le date today = true)
           (dayAfter env startOfMonth <$> seqZ 0 daysInMonth)
  else [].

(** The callback of [dates.forEach]; [familyMembers.forEach] throws when
    [familyMembers] is [null] or [undefined]. *)
Definition processDate (env : Env) (foodDatabase : list FoodItem.t)
    (familyMemberId : string) (familyMembers : option (list Person.t))
    (report : Report.t) (date : JSDate.t) : option Report.t :=
  dateString ← JSDate.toISODate date;
  let labels := push (Report.labels report) dateString in
  if String.eqb familyMemberId "all" then
    members ← familyMembers;
    let '(totalConsumed, totalPlanned) :=
      foldl (λ '(totalConsumed, totalPlanned) member,
               (addMetrics totalConsumed
                  (consumedOf env foodDatabase dateString (Person.id member)),
                addMetrics totalPlanned
                  (plannedOf env foodDatabase dateString (Person.id member))))
            (zeroMetrics, zeroMetrics) members in
    Some (Report.mk labels
            (pushMetrics (Report.datasets report) totalConsumed totalPlanned))
  else
    Some (Report.mk labels
            (pushMetrics (Report.datasets report)
               (consumedOf env foodDatabase dateString familyMemberId)
               (plannedOf env foodDatabase dateString familyMemberId))).

Fixpoint forEachDate (env : Env) (foodDatabase : list FoodItem.t)
    (familyMemberId : string) (familyMembers : option (list Person.t))
    (dates : list JSDate.t) (report : Report.t) : option Report.t :=
  match dates with
  | [] => Some report
  | date :: rest =>
      report ← processDate env foodDatabase familyMemberId familyMembers report date;
      forEachDate env foodDatabase familyMemberId familyMembers rest report
  end.

(** The body of the [try] block of [generateNutritionReport]. *)
Definition generateNutritionReport_try (env : Env) (reportType familyMemberId : string)
    (startDate : JSDate.t) (familyMembers : option (list Person.t))
  : option Report.t :=
  let foodDatabase := DataStore.getFoodDatabase (storage env) in
  let dates := reportDates env reportType startDate in
  forEachDate env foodDatabase familyMemberId familyMembers dates emptyReport.

Definition generateNutritionReport (env : Env) (reportType familyMemberId : string)
    (startDate : JSDate.t) (familyMembers : option (list Person.t)) : Report.t :=
  default emptyReport
    (generateNutritionReport_try env reportType familyMemberId startDate familyMembers).

End NutritionCalculator.

(* ===================================================================== *)
(** ** BudgetTracker: daily average and month-end estimate                 *)
(* ===================================================================== *)

Module BudgetTracker.

(** [parseInt(currentMonth.split('-')[0])]. *)
Definition selectedYear (currentMonth : string) : option Z :=
  JS.parseInt (JS.split "-" currentMonth !! 0%nat).

(** [parseInt(currentMonth.split('-')[1]) - 1]. *)
Definition selectedMonth (currentMonth : string) : option Z :=
  Z.pred <$> JS.parseInt (JS.split "-" currentMonth !! 1%nat).

(** [new Date(year, month + 1, 0).getDate()]. *)
Definition daysInMonth (env : Env) (year month : option Z) : option Z :=
  JSDate.getDate (tz env) (JSDate.make (tz env) year (Z.succ <$> month) (Some 0%Z)).

(** [year === now.getFullYear() && month === now.getMonth()]. *)
Definition isCurrentMonth (env : Env) (year month : option Z) : bool :=
  let now := JSDate.Valid (now env) in
  JS.strictEq year (JSDate.getFullYear (tz env) now)
  && JS.strictEq month (JSDate.getMonth (tz env) now).

(** The divisor of [calculateDailyAverage]. *)
Definition daysPassed (env : Env) (currentMonth : string) : option Z :=
  let year := selectedYear currentMonth in
  let month := selectedMonth currentMonth in
  if isCurrentMonth env year month
  then JSDate.getDate (tz env) (JSDate.Valid (now env))
  else daysInMonth env year month.

(** Nothing in the [try] block can throw on a string [currentMonth], so
    the [catch] clause is left out. *)
Definition calculateDailyAverage (env : Env) (currentMonth : string)
    (totalSpent : number) : number :=
  JS.div totalSpent (JS.ofInt (daysPassed env currentMonth)).

Definition calculateEstimatedTotal (env : Env) (currentMonth : string)
    (totalSpent : number) : number :=
  let year := selectedYear currentMonth in
  let month := selectedMonth currentMonth in
  let daysInMonth := daysInMonth env year month in
  if negb (isCurrentMonth env year month) then totalSpent
  else
    let daysPassed := JSDate.getDate (tz env) (JSDate.Valid (now env)) in
    let dailyAverage := JS.div totalSpent (JS.ofInt daysPassed) in
    JS.add totalSpent
      (JS.mul dailyAverage (JS.sub (JS.ofInt daysInMonth) (JS.ofInt daysPassed))).

(** [calculateMonthlyExpenses]: [expenses] is the list the tracker loaded
    from storage; on such a list nothing in the [try] block throws. *)
Definition calculateMonthlyExpenses (expenses : list Expense.t)
    (currentMonth : string) : number :=
  let monthExpenses :=
    filter (λ expense, JS.startsWith (Expense.date expense) currentMonth = true)
           expenses in
  foldl (λ total expense, JS.add total (JS.parseFloat (Expense.amount expense)))
        (Fin 0) monthExpenses.

(** The figures [updateBudgetSummary] computes before it renders them. *)
Record Figures : Type := mkFigures {
  combinedExpenses : number;
  remainingBudget : number;
  dailyAverage : number;
  estimatedTotal : number;
  projectedRemaining : number;
  spentPercentage : number;
  projectedPercentage : number;
  spentOverBudget : bool;
  projectedOverBudget : bool
}.

(** [Math.min((amount / monthlyBudget) * 100, 100) || 0]. *)
Definition percentage (amount monthlyBudget : number) : number :=
  JS.or (JS.min2 (JS.mul (JS.div amount monthlyBudget) (Fin 100)) (Fin 100)) (Fin 0).

(** The arithmetic of [updateBudgetSummary]; [totalExpenses] and
    [mealCosts] are what [calculateMonthlyExpenses] and
    [calculateMonthlyMealCosts] returned, the two flags are the tests
    [... > 100] that select the [over-budget] style of the two bars. *)
Definition summaryFigures (env : Env) (currentMonth : string)
    (monthlyBudget totalExpenses mealCosts : number) : Figures :=
  let combinedExpenses := JS.add totalExpenses mealCosts in
  let remainingBudget := JS.sub monthlyBudget combinedExpenses in
  let dailyAverage := calculateDailyAverage env currentMonth combinedExpenses in
  let estimatedTotal := calculateEstimatedTotal env currentMonth combinedExpenses in
  let projectedRemaining := JS.sub monthlyBudget estimatedTotal in
  let spentPercentage := percentage combinedExpenses monthlyBudget in
  let projectedPercentage := percentage estimatedTotal monthlyBudget in
  mkFigures combinedExpenses remainingBudget dailyAverage estimatedTotal
    projectedRemaining spentPercentage projectedPercentage
    (JS.gtb spentPercentage (Fin 100)) (JS.gtb projectedPercentage (Fin 100)).

End BudgetTracker.

(* ===================================================================== *)
(** ** Visualizer: statistics                                              *)
(* ===================================================================== *)

Module Visualizer.

Record Stats : Type := mkStats {
  min : number;
  max : number;
  avg : number;
  sum : number;
  count : nat
}.

(** [calculateStats]: an element of [values] is a number or [null]
    ([undefined] behaves as [NaN] does here).  In the sum [null] counts as
    0; the valid values are those that are neither [NaN] nor [null]. *)
Definition calculateStats (values : option (list (option number))) : Stats :=
  match values with
  | None | Some [] => mkStats (Fin 0) (Fin 0) (Fin 0) (Fin 0) 0
  | Some values =>
      let sum := foldl (λ total val, JS.add total (default (Fin 0) val)) (Fin 0) values in
      let validValues :=
        omap (λ val : option number,
                val ≫= λ x, if JS.isNaN x then None else Some x) values in
      mkStats (JS.Math_min validValues) (JS.Math_max validValues)
        (JS.div sum (JS.ofZ (Z.of_nat (length validValues))))
        sum (length validValues)
  end.

(** A color as [hexToRgb] returns it. *)
Record Rgb : Type := mkRgb { r : Z; g : Z; b : Z }.

(** The value of a character of the class [[a-f\d]] under the flag [i]. *)
Definition hexDigit (c : ascii) : option Z :=
  let n := Z.of_nat (nat_of_ascii c) in
  if (48 <=? n)%Z && (n <=? 57)%Z then Some (n - 48)%Z
  else if (97 <=? n)%Z && (n <=? 102)%Z then Some (n - 87)%Z
  else if (65 <=? n)%Z && (n <=? 70)%Z then Some (n - 55)%Z
  else None.

(** [parseInt(s, 16)] of a group of two such characters. *)
Definition parseHexPair (c1 c2 : ascii) : option Z :=
  h1 ← hexDigit c1; h2 ← hexDigit c2; Some (16 * h1 + h2)%Z.

(** [hexToRgb]: the pattern wants six hexadecimal digits, after one [#]
    or none; [null] when it does not match. *)
Definition hexToRgb (hex : string) : option Rgb :=
  let digits := match hex with String "#" rest => rest | _ => hex end in
  match digits with
  | String c1 (String c2 (String c3 (String c4 (String c5 (String c6 EmptyString))))) =>
      r ← parseHexPair c1 c2;
      g ← parseHexPair c3 c4;
      b ← parseHexPair c5 c6;
      Some (mkRgb r g b)
  | _ => None
  end.

(** [x.toString(16)] of a number [Math.round] returned: an integer,
    [NaN] or an infinity. *)
Definition toString16 (x : number) : string :=
  match x with
  | Fin q => HexadecimalString.NilZero.string_of_int (Z.to_hex_int (Qfloor q))
  | NaN => "NaN"
  | PosInf => "Infinity"
  | NegInf => "-Infinity"
  end.

(** The callback of [[r, g, b].map] in [rgbToHex]. *)
Definition hexOf (x : number) : string :=
  let hex := toString16 (JS.Math_round x) in
  if (String.length hex =? 1)%nat then "0" +:+ hex else hex.

Definition rgbToHex (r g b : number) : string :=
  "#" +:+ hexOf r +:+ hexOf g +:+ hexOf b.

(** [start + ((end - start) * i / (steps - 1))] on one channel. *)
Definition channel (start end_ i steps : Z) : number :=
  JS.add (JS.ofZ start)
    (JS.div (JS.mul (JS.sub (JS.ofZ end_) (JS.ofZ start)) (JS.ofZ i))
            (JS.sub (JS.ofZ steps) (Fin 1))).

(** [generateColorGradient] for [steps] that holds an integer.  The
    function has no [try]: reading [start.r] or [end.r] of [null] throws
    out of it, in the first round of the loop, which is [None] here. *)
Definition generateColorGradient (startColor endColor : string) (steps : Z)
  : option (list string) :=
  let start := hexToRgb startColor in
  let end_ := hexToRgb endColor in
  mapM (λ i,
          start ← start;
          end_ ← end_;
          let r := channel (r start) (r end_) i steps in
          let g := channel (g start) (g end_) i steps in
          let b := channel (b start) (b end_) i steps in
          Some (rgbToHex r g b))
       (seqZ 0 steps).

End Visualizer.

(* ===================================================================== *)
(** ** MealTracker: the meals of the selected day                          *)
(* ===================================================================== *)

Module MealTracker.

(** The variables of the module.  [currentFamilyMemberId] is [null] until
    a member is selected. *)
Record Tracker : Type := mkTracker {
  currentDate : string;
  currentFamilyMemberId : option string;
  meals : DayMeals;
  mealPlans : DayMeals;
  viewMode : string
}.

(** [currentFamilyMemberId] as a template literal prints it. *)
Definition memberText (t : Tracker) : string :=
  default "null" (currentFamilyMemberId t).

(** [loadMeals]: without a selected member nothing is read.  What
    [renderMeals] and [updateNutritionSummary] do is on the page only;
    they assign none of the variables. *)
Definition loadMeals (t : Tracker) (st : DataStore.State) : Tracker :=
  if JS.truthyString (currentFamilyMemberId t)
  then mkTracker (currentDate t) (currentFamilyMemberId t)
         (DataStore.getMeals (DataStore.stored st) (currentDate t) (memberText t))
         (DataStore.getMealPlans (DataStore.stored st) (currentDate t) (memberText t))
         (viewMode t)
  else t.

Definition changeFamilyMember (t : Tracker) (st : DataStore.State)
    (familyMemberId : option string) : Tracker :=
  loadMeals (mkTracker (currentDate t) familyMemberId (meals t) (mealPlans t)
               (viewMode t)) st.

Definition changeViewMode (t : Tracker) (mode : string) : Tracker :=
  mkTracker (currentDate t) (currentFamilyMemberId t) (meals t) (mealPlans t) mode.

(** The item [addMeal] and [updateMeal] build.  [foodId] and [notes] are
    the values of the form's fields, [servings] is what [parseFloat] reads
    in the text of the servings field ([NaN] in an empty one); the time
    stamps and the status are not part of [MealItem.t]. *)
Definition mealItem (foodId : string) (servings : number) (notes : string)
  : MealItem.t :=
  MealItem.mk (Some (IdStr foodId)) (Some (JS.or servings (Fin 1))) notes.

Definition withMeals (t : Tracker) (targetData : DayMeals) : Tracker :=
  mkTracker (currentDate t) (currentFamilyMemberId t) targetData (mealPlans t)
    (viewMode t).

Definition withMealPlans (t : Tracker) (targetData : DayMeals) : Tracker :=
  mkTracker (currentDate t) (currentFamilyMemberId t) (meals t) targetData
    (viewMode t).

(** The end of [addMeal], [updateMeal] and [deleteMeal]: [targetData] is
    the object the variable already refers to, so the variable changes
    whether or not the write is accepted. *)
Definition save (accepted : bool) (consumed : bool) (t : Tracker)
    (st : DataStore.State) (targetData : DayMeals) : Tracker * DataStore.State :=
  if consumed
  then (withMeals t targetData,
        (DataStore.saveMeals accepted st (currentDate t) (memberText t) targetData).2)
  else (withMealPlans t targetData,
        (DataStore.saveMealPlans accepted st (currentDate t) (memberText t)
           targetData).2).

(** [addMeal]: nothing in the [try] block throws before the variables
    and storage have their new values. *)
Definition addMeal (accepted : bool) (t : Tracker) (st : DataStore.State)
    (mealType foodId : string) (servings : number) (notes status : string)
  : Tracker * DataStore.State :=
  let consumed := String.eqb status "consumed" in
  let targetData := if consumed then meals t else mealPlans t in
  let items := default [] (targetData !! mealType) in
  let targetData := <[mealType := items ++ [mealItem foodId servings notes]]> targetData in
  save accepted consumed t st targetData.

(** [updateMeal], for an [index] that holds an integer: "Meal not found"
    is thrown and caught, and nothing changes. *)
Definition updateMeal (accepted : bool) (t : Tracker) (st : DataStore.State)
    (mealType : string) (index : Z) (foodId : string) (servings : number)
    (notes : string) : Tracker * DataStore.State :=
  let consumed := String.eqb (viewMode t) "consumed" in
  let targetData := if consumed then meals t else mealPlans t in
  match targetData !! mealType ≫= λ items, DataStore.at_index items index with
  | None => (t, st)
  | Some _ =>
      let targetData :=
        alter (λ items, <[Z.to_nat index := mealItem foodId servings notes]> items)
              mealType targetData in
      save accepted consumed t st targetData
  end.

(** [deleteMeal]. *)
Definition deleteMeal (accepted : bool) (t : Tracker) (st : DataStore.State)
    (mealType : string) (index : Z) : Tracker * DataStore.State :=
  let consumed := String.eqb (viewMode t) "consumed" in
  let targetData := if consumed then meals t else mealPlans t in
  match targetData !! mealType ≫= λ items, DataStore.at_index items index with
  | None => (t, st)
  | Some _ =>
      let targetData := alter (delete (Z.to_nat index)) mealType targetData in
      save accepted consumed t st targetData
  end.

(** [consumePlannedMeal]: after a conversion that answered [true] both
    variables are read again from storage. *)
Definition consumePlannedMeal (accepted1 accepted2 : bool) (t : Tracker)
    (st : DataStore.State) (mealType : string) (index : Z)
  : Tracker * DataStore.State :=
  let '(success, st) :=
    DataStore.convertPlanToMeal accepted1 accepted2 st (currentDate t) (memberText t)
      mealType index in
  if success
  then (mkTracker (currentDate t) (currentFamilyMemberId t)
          (DataStore.getMeals (DataStore.stored st) (currentDate t) (memberText t))
          (DataStore.getMealPlans (DataStore.stored st) (currentDate t) (memberText t))
          (viewMode t),
        st)
  else (t, st).

End MealTracker.

(* ===================================================================== *)
(** ** App: generating a report                                            *)
(* ===================================================================== *)

Module App.

(** [calculateAverage]. *)
Definition calculateAverage (values : option (list number)) : number :=
  match values with
  | None | Some [] => Fin 0
  | Some values =>
      JS.div (foldl JS.add (Fin 0) values) (JS.ofZ (Z.of_nat (length values)))
  end.

(** The start date [generateReport] passes on: the clock's reading
    [started], moved back to Sunday for a weekly report and to the first
    of the month for a monthly one. *)
Definition reportStart (tz started : Z) (reportType : string) : JSDate.t :=
  let startDate := JSDate.Valid started in
  if String.eqb reportType "weekly" then
    JSDate.setDate tz startDate
      (day ← JSDate.getDate tz startDate;
       weekday ← JSDate.getDay tz startDate;
       Some (day - weekday)%Z)
  else if String.eqb reportType "monthly" then
    JSDate.setDate tz startDate (Some 1%Z)
  else startDate.

(** The report [generateReport] hands to [renderReport].  The clock is
    read twice: [started] when the start date is made, [now env] when
    [generateNutritionReport] asks for today.  [familyMembers] is what
    [DataStore.getFamilyMembers] returned. *)
Definition generateReport (env : Env) (started : Z) (familyMembers : list Person.t)
    (reportType familyMemberId : string) : Report.t :=
  NutritionCalculator.generateNutritionReport env reportType familyMemberId
    (reportStart (tz env) started reportType) (Some familyMembers).

End App.

(* ===================================================================== *)
(** ** Reports under the rules of a time zone                              *)
(* ===================================================================== *)

(** [generateNutritionReport] and [App.generateReport] with the dates made
    by [ZonedDate]; the storage and the clock are those of [env], whose
    [tz] these functions do not read. *)
Module Zoned.

(** [const date = new Date(start); date.setDate(date.getDate() + i)]. *)
Definition dayAfter (zone : Zone.t) (start : JSDate.t) (i : Z) : JSDate.t :=
  let date := start in
  ZonedDate.setDate zone date ((λ day, (day + i)%Z) <$> ZonedDate.getDate zone date).

(** The dates a report covers. *)
Definition reportDates (zone : Zone.t) (now : Z) (reportType : string)
    (startDate : JSDate.t) : list JSDate.t :=
  let today := JSDate.Valid now in
  if String.eqb reportType "daily" then [startDate]
  else if String.eqb reportType "weekly" then
    let startOfWeek := startDate in
    filter (λ date, JSDate.le date today = true)
           (dayAfter zone startOfWeek <$> seqZ 0 7)
  else if String.eqb reportType "monthly" then
    let year := ZonedDate.getFullYear zone startDate in
    let month := ZonedDate.getMonth zone startDate in
    let startOfMonth := ZonedDate.make zone year month (Some 1%Z) in
    let endOfMonth := ZonedDate.make zone year (Z.succ <$> month) (Some 0%Z) in
    let daysInMonth := default 0%Z (ZonedDate.getDate zone endOfMonth) in
    filter (λ date, JSDate.le date today = true)
           (dayAfter zone startOfMonth <$> seqZ 0 daysInMonth)
  else [].

Definition generateNutritionReport_try (zone : Zone.t) (env : Env)
    (reportType familyMemberId : string) (startDate : JSDate.t)
    (familyMembers : option (list Person.t)) : option Report.t :=
  let foodDatabase := DataStore.getFoodDatabase (storage env) in
  let dates := reportDates zone (now env) reportType startDate in
  NutritionCalculator.forEachDate env foodDatabase familyMemberId familyMembers dates
    NutritionCalculator.emptyReport.

Definition generateNutritionReport (zone : Zone.t) (env : Env)
    (reportType familyMemberId : string) (startDate : JSDate.t)
    (familyMembers : option (list Person.t)) : Report.t :=
  default NutritionCalculator.emptyReport
    (generateNutritionReport_try zone env reportType familyMemberId startDate
       familyMembers).

(** The start date of [App.generateReport]. *)
Definition reportStart (zone : Zone.t) (started : Z) (reportType : string)
  : JSDate.t :=
  let startDate := JSDate.Valid started in
  if String.eqb reportType "weekly" then
    ZonedDate.setDate zone startDate
      (day ← ZonedDate.getDate zone startDate;
       weekday ← ZonedDate.getDay zone startDate;
       Some (day - weekday)%Z)
  else if String.eqb reportType "monthly" then
    ZonedDate.setDate zone startDate (Some 1%Z)
  else startDate.

Definition generateReport (zone : Zone.t) (env : Env) (started : Z)
    (familyMembers : list Person.t) (reportType familyMemberId : string)
  : Report.t :=
  generateNutritionReport zone env reportType familyMemberId
    (reportStart zone started reportType) (Some familyMembers).

End Zoned.

(* ===================================================================== *)
(** ** Sample data                                                         *)
(* ===================================================================== *)

Module Sample.

(** The first default family member of [App.DEFAULT_FAMILY_MEMBERS]. *)
Definition selman : Person.t :=
  Person.mk "1" "Selman" (Some "male") (Some (Fin 32)) (Some (Fin 75))
    (Some (Fin 180)) (Some "kg") (Some "cm") (Some "MODERATE").

(** The same person with no [gender], as [DataStore.addFamilyMember]
    first stores a member. *)
Definition noGender : Person.t :=
  Person.mk "1" "Selman" None (Some (Fin 32)) (Some (Fin 75))
    (Some (Fin 180)) None None (Some "MODERATE").

(** The catalog [DataStore.initialData.foodDatabase] ships with. *)
Definition oatmeal : FoodItem.t :=
  FoodItem.mk (IdNum 1) "Oatmeal" "1 cup cooked" (Fin 150) (Fin 5) (Fin 27) (Fin 3)
    None None None None None None (Some (Fin 0.35)).

Definition chickenBreast : FoodItem.t :=
  FoodItem.mk (IdNum 2) "Chicken Breast" "3 oz cooked" (Fin 165) (Fin 31) (Fin 0)
    (Fin 3.5) None None None None None None (Some (Fin 1.20)).

Definition broccoli : FoodItem.t :=
  FoodItem.mk (IdNum 3) "Broccoli" "1 cup" (Fin 55) (Fin 3.7) (Fin 11) (Fin 0.6)
    None None None None None None (Some (Fin 0.60)).

Definition foodDatabase : list FoodItem.t := [oatmeal; chickenBreast; broccoli].

(** Two servings of oatmeal, the food id being the string the form's
    [select] element yields. *)
Definition twoOatmeal : MealItem.t :=
  MealItem.mk (Some (IdStr "1")) (Some (Fin 2)) "".

(** One serving of chicken breast. *)
Definition oneChicken : MealItem.t :=
  MealItem.mk (Some (IdNum 2)) (Some (Fin 1)) "".

(** An entry whose food is not in the catalog. *)
Definition unknownFood : MealItem.t :=
  MealItem.mk (Some (IdStr "42")) (Some (Fin 3)) "".

(** An entry with a negative number of servings. *)
Definition minusTwoOatmeal : MealItem.t :=
  MealItem.mk (Some (IdNum 1)) (Some (Fin (-2))) "".

(** A family of two, as stored: the ids are the creation time stamps. *)
Definition member1 : Person.t :=
  Person.mk "1700000000001" "Selman" (Some "male") (Some (Fin 32)) (Some (Fin 75))
    (Some (Fin 180)) (Some "kg") (Some "cm") (Some "MODERATE").

Definition member2 : Person.t :=
  Person.mk "1700000000002" "Aybike" (Some "female") (Some (Fin 28)) (Some (Fin 60))
    (Some (Fin 165)) (Some "kg") (Some "cm") (Some "LIGHT").

(** 29 February 2024, noon UTC, in a zone at UTC. *)
Definition noon : Z := 19782 * 86400000 + 43200000.

(** Storage in which, on that day, the first member ate two servings of
    oatmeal for breakfast and the second has chicken planned for dinner. *)
Definition storage : DataStore.Storage :=
  DataStore.mkStorage
    (Some {[ "2024-02-29_1700000000001" := {[ "breakfast" := [twoOatmeal] ]} ]})
    (Some {[ "2024-02-29_1700000000002" := {[ "dinner" := [oneChicken] ]} ]})
    (Some foodDatabase).

Definition env : Env := mkEnv storage noon 0.

(** 10 March 2024, noon UTC. *)
Definition tenthOfMarch : Env := mkEnv storage (19792 * 86400000 + 43200000) 0.

(** An entry that has lost its [foodId]. *)
Definition noFoodId : MealItem.t :=
  MealItem.mk None (Some (Fin 1)) "".

(** Three servings of oatmeal: their cost, 1.05, is half way between two
    tenths. *)
Definition threeOatmeal : MealItem.t :=
  MealItem.mk (Some (IdNum 1)) (Some (Fin 3)) "".

(** London on Wednesday 3 April 2024 at 00:30, three days after the
    clocks went forward; the fixed offset is not used there. *)
Definition londonSpring : Env := mkEnv storage ((19813 + 2) * 86400000 + 84600000) 0.

(** Sunday 31 March 2024, 00:30 in London, half an hour before the change. *)
Definition springSunday : Z := 19813 * 86400000 + 1800000.

(** London on 5 November 2024 at noon, and noon of 15 October there. *)
Definition londonAutumn : Env := mkEnv storage ((20023 + 9) * 86400000 + 43200000) 0.

Definition midOctober : Z := (20023 - 12) * 86400000 + 39600000.

(** London on Wednesday 10 July 2024 at noon, one hour ahead of UTC, and
    the midnight there that began Sunday 7 July. *)
Definition londonSummer : Env := mkEnv storage (19914 * 86400000 + 39600000) 3600000.

Definition summerSunday : Z := 19910 * 86400000 + 82800000.

(** Chicken breast entered without servings, which count as one. *)
Definition chickenNoServings : MealItem.t :=
  MealItem.mk (Some (IdNum 2)) None "".

(** Storage nothing has been written to, on 29 February 2024 at noon. *)
Definition fresh : Env := mkEnv (DataStore.mkStorage None None None) noon 0.

(** The sample storage with two expenses, one of February and one of
    March 2024. *)
Definition state : DataStore.State :=
  DataStore.mkState storage
    (Some [ Expense.mk "1700000000003" "2024-02-27" "Groceries" (Some (Fin 42.5));
            Expense.mk "1700000000004" "2024-03-02" "Market" (Some (Fin 18)) ]).

End Sample.

(* ===================================================================== *)
(** ** What the specification says, in its own words                       *)
(* ===================================================================== *)

Module Spec.

(** Weight in kilograms: pounds are multiplied by 0.453592. *)
Definition weightKg (weight : Q) (unit : option string) : Q :=
  if bool_decide (unit = Some "lb") then (weight * 0.453592)%Q else weight.

(** Height in centimetres: inches are multiplied by 2.54. *)
Definition heightCm (height : Q) (unit : option string) : Q :=
  if bool_decide (unit = Some "in") then (height * 2.54)%Q else height.

(** Harris-Benedict, gender-branched, in plain rational arithmetic. *)
Definition harrisBenedict (male : bool) (weight_kg height_cm age : Q) : Q :=
  if male
  then (88.362 + 13.397 * weight_kg + 4.799 * height_cm - 5.677 * age)%Q
  else (447.593 + 9.247 * weight_kg + 3.098 * height_cm - 4.330 * age)%Q.

(** The nearest integer, halves upwards. *)
Definition nearestInteger (q : Q) : Z := Qfloor (q + (1 # 2)).

(** Case-insensitive: anything that is not "male" takes the other branch. *)
Definition isMale (gender : string) : bool :=
  String.eqb (JS.toLowerCase gender) "male".

(** The rational a finite number stands for. *)
Definition amount (x : number) : Q :=
  match x with Fin q => q | _ => 0%Q end.

(** What a catalog item holds under a key of the totals object: a field
    that is absent counts for nothing. *)
Definition fieldAmount (key : string) (f : FoodItem.t) : Q :=
  if decide (key = "calories") then amount (FoodItem.calories f)
  else if decide (key = "protein") then amount (FoodItem.protein f)
  else if decide (key = "carbs") then amount (FoodItem.carbs f)
  else if decide (key = "fat") then amount (FoodItem.fat f)
  else if decide (key = "fiber") then from_option amount 0%Q (FoodItem.fiber f)
  else if decide (key = "sodium") then from_option amount 0%Q (FoodItem.sodium f)
  else if decide (key = "calcium") then from_option amount 0%Q (FoodItem.calcium f)
  else if decide (key = "iron") then from_option amount 0%Q (FoodItem.iron f)
  else if decide (key = "vitaminA") then from_option amount 0%Q (FoodItem.vitaminA f)
  else if decide (key = "vitaminC") then from_option amount 0%Q (FoodItem.vitaminC f)
  else if decide (key = "cost") then from_option amount 0%Q (FoodItem.costPerServing f)
  else 0%Q.

(** Tolerant id match: the first catalog item whose id reads the same. *)
Definition resolve (catalog : list FoodItem.t) (i : ident) : option FoodItem.t :=
  List.find (λ f, String.eqb (JS.toString (FoodItem.id f)) (JS.toString i)) catalog.

(** One entry's share of a field: the field of its food times its
    resolved servings. *)
Definition entryAmount (key : string) (catalog : list FoodItem.t)
    (entry : MealItem.t) : Q :=
  match MealItem.foodId entry ≫= resolve catalog with
  | Some f => (fieldAmount key f * amount (NutritionCalculator.resolveServings entry))%Q
  | None => 0%Q
  end.

(** The exact sum over the entries. *)
Definition exactTotal (key : string) (catalog : list FoodItem.t)
    (entries : list MealItem.t) : Q :=
  foldr (λ entry acc, (entryAmount key catalog entry + acc)%Q) 0%Q entries.

(** Rounding to one decimal place: the nearest multiple of 1/10, halves
    upwards. *)
Definition roundToTenth (q : Q) : Q :=
  (inject_Z (Qfloor (q * 10 + (1 # 2))) / 10)%Q.

(** The sum of two arrays, index by index. *)
Definition addArrays (a b : list number) : list number := zip_with JS.add a b.

(** The sum of the one-day arrays of several reports, starting from zero. *)
Definition sumArrays (arrays : list (list number)) : list number :=
  foldl addArrays [Fin 0] arrays.

(** The ten metric arrays of a report. *)
Definition metricArrays : list (Report.t → list number) :=
  [ λ r, Report.planned (Report.calories (Report.datasets r));
    λ r, Report.consumed (Report.calories (Report.datasets r));
    λ r, Report.planned (Report.protein (Report.datasets r));
    λ r, Report.consumed (Report.protein (Report.datasets r));
    λ r, Report.planned (Report.carbs (Report.datasets r));
    λ r, Report.consumed (Report.carbs (Report.datasets r));
    λ r, Report.planned (Report.fat (Report.datasets r));
    λ r, Report.consumed (Report.fat (Report.datasets r));
    λ r, Report.planned (Report.cost (Report.datasets r));
    λ r, Report.consumed (Report.cost (Report.datasets r)) ].

(** How many of [n] consecutive dates, the first at time [start], are not
    after time [now]. *)
Definition datesUpTo (n start now : Z) : Z :=
  Z.max 0 (Z.min n ((now - start) `div` JSDate.msPerDay + 1)).

Definition isDigit (c : ascii) : bool :=
  let n := nat_of_ascii c in (48 <=? n)%nat && (n <=? 57)%nat.

Definition digit (c : ascii) : Z := Z.of_nat (nat_of_ascii c) - 48.

(** A month selector [YYYY-MM]: four digits, a dash, and two digits that
    read 01 to 12. *)
Definition wellFormedMonth (s : string) : bool :=
  match s with
  | String y1 (String y2 (String y3 (String y4 (String dash
      (String m1 (String m2 EmptyString)))))) =>
      isDigit y1 && isDigit y2 && isDigit y3 && isDigit y4
      && Ascii.eqb dash "-" && isDigit m1 && isDigit m2
      && (1 <=? 10 * digit m1 + digit m2)%Z && (10 * digit m1 + digit m2 <=? 12)%Z
  | _ => false
  end.

End Spec.

(* ===================================================================== *)
(** ** Well-formed data                                                    *)
(* ===================================================================== *)

Module WellFormed.

(** A finite number that is not negative. *)
Definition NonNeg (x : number) : Prop := ∃ q, x = Fin q ∧ (0 <= q)%Q.

(** A finite number. *)
Definition Finite (x : number) : Prop := ∃ q, x = Fin q.

(** A catalog item as the data model has it: the macro fields, and the
    micro fields and the cost when present, are finite and not negative. *)
Definition food (f : FoodItem.t) : Prop :=
  Forall NonNeg
    [FoodItem.calories f; FoodItem.protein f; FoodItem.carbs f; FoodItem.fat f]
  ∧ Forall (λ field : option number, ∀ x, field = Some x → NonNeg x)
      [FoodItem.fiber f; FoodItem.sodium f; FoodItem.calcium f; FoodItem.iron f;
       FoodItem.vitaminA f; FoodItem.vitaminC f; FoodItem.costPerServing f].

(** The same with "finite" for "finite and not negative". *)
Definition finiteFood (f : FoodItem.t) : Prop :=
  Forall Finite
    [FoodItem.calories f; FoodItem.protein f; FoodItem.carbs f; FoodItem.fat f]
  ∧ Forall (λ field : option number, ∀ x, field = Some x → Finite x)
      [FoodItem.fiber f; FoodItem.sodium f; FoodItem.calcium f; FoodItem.iron f;
       FoodItem.vitaminA f; FoodItem.vitaminC f; FoodItem.costPerServing f].

(** Servings that are absent, [NaN] or zero, or a positive finite number. *)
Definition servings (item : MealItem.t) : Prop :=
  JS.truthy (MealItem.servings item) = false
  ∨ ∃ q, MealItem.servings item = Some (Fin q) ∧ (0 < q)%Q.

(** An entry whose food id resolves in the catalog and whose resolved
    servings are finite. *)
Definition resolved (catalog : list FoodItem.t) (item : MealItem.t) : Prop :=
  is_Some (MealItem.foodId item ≫= Spec.resolve catalog)
  ∧ Finite (NutritionCalculator.resolveServings item).

End WellFormed.

(* ===================================================================== *)
(** ** Notions used to state further results                               *)
(* ===================================================================== *)

Module Gregorian.

(** The leap-year rule and the lengths of the months, 1 to 12. *)
Definition isLeapYear (y : Z) : bool :=
  ((y `mod` 4 =? 0)%Z && negb (y `mod` 100 =? 0)%Z) || (y `mod` 400 =? 0)%Z.

Definition daysIn (y m : Z) : Z :=
  if (m =? 2)%Z then (if isLeapYear y then 29 else 28)%Z
  else if (m =? 4)%Z || (m =? 6)%Z || (m =? 9)%Z || (m =? 11)%Z then 30%Z
  else 31%Z.

(** The day number of the first day of the month with index [k], the
    months being counted from January of year 0. *)
Definition firstOfMonth (k : Z) : Z := JSDate.makeDay 0 k 1.

End Gregorian.

Module Shape.

(** A number in lowest terms, as every result of the arithmetic is. *)
Definition canonical (x : number) : Prop :=
  match x with Fin q => Qred q = q | _ => True end.

(** A whole number of tenths, in lowest terms. *)
Definition Tenth (x : number) : Prop := ∃ z, x = Fin (Qred (inject_Z z / 10)).

(** An entry that names a food and whose resolved servings are finite. *)
Definition entry (item : MealItem.t) : Prop :=
  is_Some (MealItem.foodId item)
  ∧ WellFormed.Finite (NutritionCalculator.resolveServings item).

(** Servings that storage keeps as they are: a finite number, or none. *)
Definition storable (item : MealItem.t) : Prop :=
  JSON.roundTrip (MealItem.servings item) = MealItem.servings item.

(** An entry that finds its food in the catalog, or names a food that the
    item [new] does not answer to. *)
Definition settled (foodDatabase : list FoodItem.t) (new : FoodItem.t)
    (item : MealItem.t) : Prop :=
  (∃ f, NutritionCalculator.find foodDatabase (MealItem.foodId item) = Some (Some f))
  ∨ (∃ i, MealItem.foodId item = Some i
          ∧ JS.toString (FoodItem.id new) ≠ JS.toString i).

(** The tracker is in step with storage: its two variables hold, up to
    what JSON keeps, the stored meals and plans of its date and member. *)
Definition inStep (t : MealTracker.Tracker) (st : DataStore.State) : Prop :=
  JSON.dayMeals (MealTracker.meals t)
  = JSON.dayMeals (DataStore.getMeals (DataStore.stored st)
                     (MealTracker.currentDate t) (MealTracker.memberText t))
  ∧ JSON.dayMeals (MealTracker.mealPlans t)
    = JSON.dayMeals (DataStore.getMealPlans (DataStore.stored st)
                       (MealTracker.currentDate t) (MealTracker.memberText t)).

(** From [first] to [last] the zone keeps the offset [tz], for UTC times
    and for the local times they stand for. *)
Definition steady (zone : Zone.t) (tz first last : Z) : Prop :=
  ∀ time, (first ≤ time ≤ last)%Z →
          Zone.atUTC zone time = tz ∧ Zone.atLocal zone (time + tz)%Z = tz.

(** Every planned and consumed array has one entry for each label. *)
Definition aligned (report : Report.t) : Prop :=
  Forall (λ array : Report.t → list number,
            length (array report) = length (Report.labels report))
         Spec.metricArrays.

(** Every planned and consumed array holds 0 for each label. *)
Definition allZero (report : Report.t) : Prop :=
  Forall (λ array : Report.t → list number,
            array report = replicate (length (Report.labels report)) (Fin 0))
         Spec.metricArrays.

End Shape.

Module Reference.

(** The recommended daily amount behind each percentage, for calorie
    needs of [calories]. *)
Definition recommended (key : string) (calories : Q) : Q :=
  if decide (key = "calories") then calories
  else if decide (key = "protein") then (calories * 0.15 / 4)%Q
  else if decide (key = "carbs") then (calories * 0.55 / 4)%Q
  else if decide (key = "fat") then (calories * 0.30 / 9)%Q
  else if decide (key = "fiber") then 25%Q
  else if decide (key = "sodium") then 2300%Q
  else if decide (key = "calcium") then 1000%Q
  else if decide (key = "iron") then 18%Q
  else if decide (key = "vitaminA") then 900%Q
  else if decide (key = "vitaminC") then 90%Q
  else 0%Q.

Definition percentageKeys : list string :=
  ["calories"; "protein"; "carbs"; "fat"; "fiber"; "sodium"; "calcium"; "iron";
   "vitaminA"; "vitaminC"].

(** A value that is more than a millionth away from every point half
    way between two integers, where rounding to the nearest integer turns.
    The rounding error of binary64 arithmetic on figures of this program's
    size is far below that. *)
Definition clearOfTies (x : Q) : Prop :=
  ((1 # 1000000) < Qabs (x - inject_Z (Qfloor x) - (1 # 2)))%Q.

(** What an expense counts for in a month. *)
Definition share (currentMonth : string) (expense : Expense.t) : Q :=
  if JS.startsWith (Expense.date expense) currentMonth
  then from_option Spec.amount 0%Q (Expense.amount expense)
  else 0%Q.

(** What a meal type adds to a key of the daily totals. *)
Definition mealFigure (meals : DayMeals) (foodDatabase : list FoodItem.t)
    (key mealType : string) : number :=
  match meals !! mealType with
  | Some items =>
      default (Fin 0)
        (NutritionCalculator.calculateMealNutrition (Some items) foodDatabase !! key)
  | None => Fin 0
  end.

(** The entries [calculateStats] counts: those that are neither [null]
    nor [NaN]. *)
Definition validValues (values : list (option number)) : list number :=
  omap (λ val : option number, val ≫= λ x, if JS.isNaN x then None else Some x) values.

(** The item of a stored plan at an index. *)
Definition planItemAt (st : DataStore.State) (date familyMemberId mealType : string)
    (planIndex : Z) : option MealItem.t :=
  DataStore.getMealPlans (DataStore.stored st) date familyMemberId !! mealType
    ≫= λ plans, DataStore.at_index plans planIndex.

(** A color the way [rgbToHex] writes it: [#] and six digits in lower
    case. *)
Definition normalColor (hex : string) : string :=
  "#" +:+ JS.toLowerCase (match hex with String "#" rest => rest | _ => hex end).

(** A channel between the channels of two colors. *)
Definition between (start end_ x : Z) : Prop :=
  (Z.min start end_ ≤ x ≤ Z.max start end_)%Z.

(** How many items a meal type holds. *)
Definition itemCount (meals : DayMeals) (mealType : string) : nat :=
  length (default [] (meals !! mealType)).

End Reference.

(* ===================================================================== *)
(** ** Arithmetic of the number model                                      *)
(* ===================================================================== *)

Section NumberFacts.

Lemma Qred_zero_mul (q : Q) : Qred (0 * q) = 0%Q.
Proof.
  change 0%Q with (Qred 0) at 2. apply Qred_complete. ring.
Qed.

Lemma mul_zero_fin (q : Q) : JS.mul (Fin 0) (Fin q) = Fin 0.
Proof. simpl. by rewrite Qred_zero_mul. Qed.

Lemma Math_round_zero : JS.Math_round (Fin 0) = Fin 0.
Proof. reflexivity. Qed.

Lemma signQ_Eq (q : Q) : JS.signQ q = Eq ↔ (q == 0)%Q.
Proof.
  unfold JS.signQ, Qeq. simpl. rewrite Z.compare_eq_iff. lia.
Qed.

Lemma signQ_Gt (q : Q) : JS.signQ q = Gt ↔ (0 < q)%Q.
Proof.
  unfold JS.signQ, Qlt. simpl. rewrite Z.compare_gt_iff. lia.
Qed.

Lemma signQ_Lt (q : Q) : JS.signQ q = Lt ↔ (q < 0)%Q.
Proof.
  unfold JS.signQ, Qlt. simpl. rewrite Z.compare_lt_iff. lia.
Qed.

Lemma add_NonNeg (x y : number) :
  WellFormed.NonNeg x → WellFormed.NonNeg y → WellFormed.NonNeg (JS.add x y).
Proof.
  intros (a & -> & Ha) (b & -> & Hb). eexists. split; [reflexivity |].
  rewrite Qred_correct. exact (Qplus_le_compat 0 a 0 b Ha Hb).
Qed.

Lemma mul_NonNeg (x y : number) :
  WellFormed.NonNeg x → WellFormed.NonNeg y → WellFormed.NonNeg (JS.mul x y).
Proof.
  intros (a & -> & Ha) (b & -> & Hb). eexists. split; [reflexivity |].
  rewrite Qred_correct. by apply Qmult_le_0_compat.
Qed.

Lemma NonNeg_zero : WellFormed.NonNeg (Fin 0).
Proof. by exists 0%Q. Qed.

Lemma NonNeg_one : WellFormed.NonNeg (Fin 1).
Proof. by exists 1%Q. Qed.

End NumberFacts.

(* ===================================================================== *)
(** ** Energy model                                                        *)
(* ===================================================================== *)

Section EnergyModel.

Import NutritionCalculator.

(** Every entry of the activity table is a finite, truthy number. *)
Lemma ACTIVITY_MULTIPLIERS_finite :
  map_Forall (λ _ v, ∃ q, v = Fin q ∧ JS.toBoolean v = true) ACTIVITY_MULTIPLIERS.
Proof.
  unfold ACTIVITY_MULTIPLIERS.
  repeat (apply map_Forall_insert_2; [eexists; split; reflexivity |]).
  apply map_Forall_empty.
Qed.

(** The multiplier [calculateTDEE] ends up with is a finite number. *)
Lemma multiplier_finite (activityLevel : option string) :
  ∃ q, JS.toNumber (JS.orProp (activityLevel ≫= (ACTIVITY_MULTIPLIERS !!.))
                              (ACTIVITY_MULTIPLIERS !! "MODERATE")) = Fin q.
Proof.
  destruct activityLevel as [k|]; simpl.
  - destruct (ACTIVITY_MULTIPLIERS !! k) as [v|] eqn:Hk.
    + destruct (ACTIVITY_MULTIPLIERS_finite k v Hk) as (q & -> & Ht).
      unfold JS.orProp. simpl in *. rewrite Ht. by exists q.
    + by eexists.
  - by eexists.
Qed.

Lemma calculateTDEE_zero (activityLevel : option string) :
  calculateTDEE (Fin 0) activityLevel = Fin 0.
Proof.
  unfold calculateTDEE.
  destruct (multiplier_finite activityLevel) as [q ->].
  by rewrite mul_zero_fin.
Qed.

Lemma calculateBMR_try_missing (p : Person.t) :
  Person.gender p = None ∨ Person.weight p = None
  ∨ Person.height p = None ∨ Person.age p = None →
  calculateBMR_try (Some p) = None.
Proof.
  intros H. unfold calculateBMR_try. simpl.
  destruct H as [H | [H | [H | H]]]; rewrite H; simpl;
    repeat first [ reflexivity | rewrite orb_true_r | rewrite orb_true_l ].
Qed.

(** C1 (as the code behaves).  For a person record that lacks any of
    gender, weight, height or age, [calculateBMR] catches its own error and
    returns 0, so [calculateDailyCalorieNeeds] returns the resulting
    [calculateTDEE] of 0 and its own [catch] clause, with the default of
    2000, is never reached. *)
Theorem calculateDailyCalorieNeeds_missing_field (p : Person.t) :
  Person.gender p = None ∨ Person.weight p = None
  ∨ Person.height p = None ∨ Person.age p = None →
  calculateDailyCalorieNeeds (Some p) = Fin 0
  ∧ JS.eqb (calculateDailyCalorieNeeds (Some p)) (Fin 2000) = false.
Proof.
  intros H.
  assert (calculateDailyCalorieNeeds (Some p) = Fin 0) as ->; [| done].
  unfold calculateDailyCalorieNeeds, calculateDailyCalorieNeeds_try, calculateBMR.
  rewrite (calculateBMR_try_missing p H). simpl.
  by rewrite calculateTDEE_zero.
Qed.

Lemma calculateDailyCalorieNeeds_missing_field_witness :
  Person.gender Sample.noGender = None
  ∧ calculateDailyCalorieNeeds (Some Sample.noGender) = Fin 0.
Proof.
  split; [reflexivity |].
  apply (calculateDailyCalorieNeeds_missing_field Sample.noGender).
  left. reflexivity.
Defined.

(** Only a [null] person reaches the default of 2000: reading
    [person.activityLevel] then throws inside the [try] block. *)
Example calculateDailyCalorieNeeds_null :
  calculateDailyCalorieNeeds None = Fin 2000
  ∧ calculateDailyCalorieNeeds (Some Sample.selman) = Fin 2751.
Proof. split; reflexivity. Qed.

(** C2, the stated example: for the male of 75 kg, 180 cm and 32 years the
    formula gives 1775.293, so the result is 1775 and not 1780. *)
Lemma calculateBMR_example_not_1780 :
  calculateBMR (Some Sample.selman) = Fin 1775
  ∧ JS.eqb (calculateBMR (Some Sample.selman)) (Fin 1780) = false.
Proof. split; reflexivity. Qed.

(** In the exact arithmetic of the model, [calculateBMR] of a person whose
    gender, weight, height and age are present is the nearest integer to
    the value of the formula. *)
Lemma calculateBMR_nearest (p : Person.t) (g : string) (w h a : Q) :
  Person.gender p = Some g → g ≠ "" →
  Person.weight p = Some (Fin w) → ¬ (w == 0)%Q →
  Person.height p = Some (Fin h) → ¬ (h == 0)%Q →
  Person.age p = Some (Fin a) → ¬ (a == 0)%Q →
  calculateBMR (Some p)
  = JS.ofZ (Spec.nearestInteger
              (Spec.harrisBenedict (Spec.isMale g)
                 (Spec.weightKg w (Person.weightUnit p))
                 (Spec.heightCm h (Person.heightUnit p)) a))
  ∧ calculateBMR (Some Sample.selman) = Fin 1775.
Proof.
  intros Hg Hne Hw Hw0 Hh Hh0 Ha Ha0. split; [| reflexivity].
  assert (∀ q, ¬ (q == 0)%Q → JS.truthy (Some (Fin q)) = true) as Htruthy.
  { intros q Hq. simpl. destruct (JS.signQ q) eqn:E; try reflexivity.
    by apply signQ_Eq in E. }
  assert (JS.truthyString (Some g) = true) as Hgender.
  { simpl. apply negb_true_iff. by apply String.eqb_neq. }
  unfold calculateBMR, calculateBMR_try. cbn [mbind option_bind].
  rewrite Hg, Hw, Hh, Ha, Hgender, !Htruthy by done.
  cbn [negb orb]. unfold JS.toNumber. cbn [default from_option id].
  unfold Spec.nearestInteger, Spec.harrisBenedict, Spec.isMale, Spec.weightKg,
    Spec.heightCm, JS.ofZ.
  destruct (String.eqb (JS.toLowerCase g) "male"),
    (bool_decide (Person.weightUnit p = Some "lb")),
    (bool_decide (Person.heightUnit p = Some "in"));
    cbn [default from_option id JS.Math_round JS.add JS.sub JS.mul];
    do 2 f_equal; apply Qfloor_comp; rewrite !Qred_correct; ring.
Qed.

(** The nearest integer is less than 1 away. *)
Lemma nearestInteger_within (x : Q) :
  (inject_Z (Spec.nearestInteger x) - 1 < x < inject_Z (Spec.nearestInteger x) + 1)%Q.
Proof.
  unfold Spec.nearestInteger.
  pose proof (Qfloor_le (x + (1 # 2))) as Hle.
  pose proof (Qlt_floor (x + (1 # 2))) as Hlt.
  rewrite inject_Z_plus in Hlt. change (inject_Z 1) with 1%Q in Hlt.
  split; lra.
Qed.

(** C2 (amended).  For every person whose gender, weight, height and age
    are present (truthy: a non-empty gender, non-zero numbers),
    [calculateBMR] is an integer less than 1 away from the value of the
    gender-branched Harris-Benedict formula on the weight in kilograms and
    the height in centimetres, and it is the nearest integer to that value
    whenever the value is clear of the points half way between two
    integers, where the rounding of binary64 arithmetic decides; for the
    male of 75 kg, 180 cm and 32 years it is 1775. *)
Theorem calculateBMR_harris_benedict (p : Person.t) (g : string) (w h a : Q) :
  Person.gender p = Some g → g ≠ "" →
  Person.weight p = Some (Fin w) → ¬ (w == 0)%Q →
  Person.height p = Some (Fin h) → ¬ (h == 0)%Q →
  Person.age p = Some (Fin a) → ¬ (a == 0)%Q →
  let value :=
    Spec.harrisBenedict (Spec.isMale g) (Spec.weightKg w (Person.weightUnit p))
      (Spec.heightCm h (Person.heightUnit p)) a in
  (∃ z, calculateBMR (Some p) = JS.ofZ z
        ∧ (inject_Z z - 1 < value < inject_Z z + 1)%Q
        ∧ (Reference.clearOfTies value → z = Spec.nearestInteger value))
  ∧ calculateBMR (Some Sample.selman) = Fin 1775.
Proof.
  intros Hg Hne Hw Hw0 Hh Hh0 Ha Ha0 value. split; [| reflexivity].
  exists (Spec.nearestInteger value).
  split; [exact (proj1 (calculateBMR_nearest p g w h a Hg Hne Hw Hw0 Hh Hh0 Ha Ha0)) |].
  split; [apply nearestInteger_within | done].
Qed.

Lemma calculateBMR_harris_benedict_witness :
  (∃ z, calculateBMR (Some Sample.selman) = JS.ofZ z
        ∧ (inject_Z z - 1 < Spec.harrisBenedict true 75 180 32 < inject_Z z + 1)%Q
        ∧ (Reference.clearOfTies (Spec.harrisBenedict true 75 180 32) →
           z = Spec.nearestInteger (Spec.harrisBenedict true 75 180 32)))
  ∧ calculateBMR (Some Sample.selman) = Fin 1775.
Proof.
  exact (calculateBMR_harris_benedict Sample.selman "male" 75 180 32
           eq_refl ltac:(discriminate) eq_refl ltac:(discriminate)
           eq_refl ltac:(discriminate) eq_refl ltac:(discriminate)).
Defined.

(** The value of the formula for a male of 81 kg, 186 cm and 29 years is
    1901.5, half way between two integers: there the theorem leaves 1901
    and 1902 open, and binary64 arithmetic, in which the sum comes out
    just below 1901.5, gives 1901. *)
Example harris_benedict_at_a_tie :
  (Spec.harrisBenedict true 81 186 29 == 3803 # 2)%Q
  ∧ ¬ Reference.clearOfTies (Spec.harrisBenedict true 81 186 29).
Proof.
  split; [reflexivity |]. unfold Reference.clearOfTies. intros H.
  vm_compute in H. discriminate H.
Qed.

End EnergyModel.

(* ===================================================================== *)
(** ** Aggregation                                                         *)
(* ===================================================================== *)

Section Aggregation.

Import NutritionCalculator.

Implicit Types (foodDatabase : list FoodItem.t) (totals : Totals)
               (item : MealItem.t) (items : list MealItem.t).

Lemma round1_zero : round1 (Fin 0) = Fin 0.
Proof. reflexivity. Qed.

Lemma round1_zeroTotals : round1 <$> zeroTotals = zeroTotals.
Proof.
  unfold zeroTotals.
  repeat (rewrite fmap_insert, round1_zero).
  by rewrite map_fmap_singleton, round1_zero.
Qed.

(** The early return on an empty array gives the same object as running
    the loop and the rounding on nothing. *)
Lemma calculateMealNutrition_try_eq items foodDatabase :
  calculateMealNutrition_try (Some items) foodDatabase
  = (λ totals : Totals, round1 <$> totals)
      <$> forEachItem foodDatabase items zeroTotals.
Proof.
  destruct items as [| item items]; simpl.
  - by rewrite round1_zeroTotals.
  - by destruct (addItem _ _ _ ≫= _).
Qed.

Lemma forEachItem_app foodDatabase items1 items2 totals :
  forEachItem foodDatabase (items1 ++ items2) totals
  = forEachItem foodDatabase items1 totals ≫= forEachItem foodDatabase items2.
Proof.
  revert totals. induction items1 as [| item items1 IH]; intros totals; simpl.
  - reflexivity.
  - destruct (addItem foodDatabase totals item) as [totals' |]; simpl; [apply IH | reflexivity].
Qed.

(** An id that no catalog item prints to is not found. *)
Lemma find_unknown foodDatabase (i : ident) :
  Forall (λ f, JS.toString (FoodItem.id f) ≠ JS.toString i) foodDatabase →
  find foodDatabase (Some i) = Some None.
Proof.
  induction 1 as [| f rest Hf _ IH]; simpl; [reflexivity |].
  apply String.eqb_neq in Hf. by rewrite Hf.
Qed.

Lemma addItem_unknown foodDatabase totals item :
  find foodDatabase (MealItem.foodId item) = Some None →
  addItem foodDatabase totals item = Some totals.
Proof. intros H. unfold addItem. by rewrite H. Qed.

(** C5.  An entry whose food id matches no catalog item, under the
    comparison of the ids' string forms, is skipped: the totals of a list
    that contains it, anywhere, are those of the list without it. *)
Theorem calculateMealNutrition_skips_unknown foodDatabase
    (before after : list MealItem.t) (unknown : MealItem.t) (i : ident) :
  MealItem.foodId unknown = Some i →
  Forall (λ f, JS.toString (FoodItem.id f) ≠ JS.toString i) foodDatabase →
  calculateMealNutrition (Some (before ++ unknown :: after)) foodDatabase
  = calculateMealNutrition (Some (before ++ after)) foodDatabase.
Proof.
  intros Hid Hno. unfold calculateMealNutrition.
  rewrite !calculateMealNutrition_try_eq, !forEachItem_app. simpl.
  destruct (forEachItem foodDatabase before zeroTotals) as [totals |]; simpl; [| reflexivity].
  rewrite addItem_unknown; [reflexivity |].
  rewrite Hid. by apply find_unknown.
Qed.

Lemma calculateMealNutrition_skips_unknown_witness :
  calculateMealNutrition
    (Some ([Sample.twoOatmeal] ++ Sample.unknownFood :: [Sample.oneChicken]))
    Sample.foodDatabase
  = calculateMealNutrition (Some ([Sample.twoOatmeal] ++ [Sample.oneChicken]))
      Sample.foodDatabase.
Proof.
  apply (calculateMealNutrition_skips_unknown Sample.foodDatabase
           [Sample.twoOatmeal] [Sample.oneChicken] Sample.unknownFood (IdStr "42")).
  - reflexivity.
  - repeat constructor; simpl; discriminate.
Defined.

(** *** Totals are not negative on well-formed data *)

Lemma round1_Fin (q : Q) :
  round1 (Fin q)
  = Fin (Qred (inject_Z (Qfloor (Qred (q * 10) + (1 # 2))) / 10)).
Proof. reflexivity. Qed.

Lemma round1_NonNeg (x : number) :
  WellFormed.NonNeg x → WellFormed.NonNeg (round1 x).
Proof.
  intros (q & -> & Hq). rewrite round1_Fin. eexists. split; [reflexivity |].
  rewrite Qred_correct. apply Qle_shift_div_l; [reflexivity |].
  rewrite Qmult_0_l. change 0%Q with (inject_Z 0). rewrite <- Zle_Qle.
  change 0%Z with (Qfloor 0). apply Qfloor_resp_le.
  rewrite Qred_correct.
  apply Qle_trans with (q * 10)%Q.
  - by apply Qmult_le_0_compat.
  - rewrite <- (Qplus_0_r (q * 10)) at 1. by apply Qplus_le_r.
Qed.

Lemma resolveServings_default item :
  JS.truthy (MealItem.servings item) = false → resolveServings item = Fin 1.
Proof.
  unfold resolveServings, JS.or, JS.parseFloat, JS.truthy.
  destruct (MealItem.servings item) as [x |]; simpl; [| done].
  by intros ->.
Qed.

Lemma resolveServings_given item (q : Q) :
  MealItem.servings item = Some (Fin q) → ¬ (q == 0)%Q →
  resolveServings item = Fin q.
Proof.
  intros Hs Hq. unfold resolveServings, JS.or, JS.parseFloat. rewrite Hs. simpl.
  destruct (JS.signQ q) eqn:E; try reflexivity.
  by apply signQ_Eq in E.
Qed.

Lemma resolveServings_NonNeg item :
  WellFormed.servings item → WellFormed.NonNeg (resolveServings item).
Proof.
  intros [H | (q & Hs & Hq)].
  - rewrite resolveServings_default by done. apply NonNeg_one.
  - rewrite (resolveServings_given item q Hs).
    + exists q. split; [reflexivity | by apply Qlt_le_weak].
    + intros E. rewrite E in Hq. by apply Qlt_irrefl in Hq.
Qed.

Lemma addTo_NonNeg key (x : number) totals :
  WellFormed.NonNeg x →
  map_Forall (λ _ v, WellFormed.NonNeg v) totals →
  map_Forall (λ _ v, WellFormed.NonNeg v) (addTo key x totals).
Proof.
  intros Hx Ht k v. unfold addTo. rewrite lookup_alter.
  case_decide as E; [subst k |]; [| apply Ht].
  destruct (totals !! key) as [t |] eqn:Hk; simpl; [| done].
  intros [= <-]. apply add_NonNeg; [by apply (Ht key) | done].
Qed.

Lemma addOptional_NonNeg key (field : option number) (servings : number) totals :
  (∀ x, field = Some x → WellFormed.NonNeg x) →
  WellFormed.NonNeg servings →
  map_Forall (λ _ v, WellFormed.NonNeg v) totals →
  map_Forall (λ _ v, WellFormed.NonNeg v) (addOptional key field servings totals).
Proof.
  intros Hf Hs Ht. unfold addOptional.
  destruct (JS.truthy field) eqn:E; [| done].
  destruct field as [x |]; [| done].
  apply addTo_NonNeg; [| done]. apply mul_NonNeg; [by apply Hf | done].
Qed.

Lemma find_elem_of foodDatabase (foodId : option ident) (f : FoodItem.t) :
  find foodDatabase foodId = Some (Some f) → f ∈ foodDatabase.
Proof.
  induction foodDatabase as [| g rest IH]; simpl; [done |].
  destruct foodId as [i |]; simpl; [| done].
  destruct (String.eqb _ _).
  - intros [= ->]. apply list_elem_of_here.
  - intros H. apply list_elem_of_further. by apply IH.
Qed.

Lemma addItem_NonNeg foodDatabase totals totals' item :
  Forall WellFormed.food foodDatabase →
  WellFormed.servings item →
  map_Forall (λ _ v, WellFormed.NonNeg v) totals →
  addItem foodDatabase totals item = Some totals' →
  map_Forall (λ _ v, WellFormed.NonNeg v) totals'.
Proof.
  intros Hdb Hitem Ht. unfold addItem.
  destruct (find foodDatabase (MealItem.foodId item)) as [[f |] |] eqn:Hfind;
    simpl; [| by intros [= <-] | done].
  intros [= <-].
  apply find_elem_of in Hfind.
  rewrite Forall_forall in Hdb. destruct (Hdb f Hfind) as [Hmacro Hmicro].
  pose proof (resolveServings_NonNeg item Hitem) as Hs.
  repeat match goal with
         | H : Forall _ (_ :: _) |- _ => apply Forall_cons in H as [? H]
         end.
  repeat first [ apply addOptional_NonNeg; [done | done |]
               | apply addTo_NonNeg; [by apply mul_NonNeg |] ].
  done.
Qed.

Lemma forEachItem_NonNeg foodDatabase items totals totals' :
  Forall WellFormed.food foodDatabase →
  Forall WellFormed.servings items →
  map_Forall (λ _ v, WellFormed.NonNeg v) totals →
  forEachItem foodDatabase items totals = Some totals' →
  map_Forall (λ _ v, WellFormed.NonNeg v) totals'.
Proof.
  intros Hdb Hitems. revert totals.
  induction Hitems as [| item items Hitem _ IH]; intros totals Ht; simpl.
  - by intros [= <-].
  - destruct (addItem foodDatabase totals item) as [totals1 |] eqn:E; simpl; [| done].
    apply IH. by eapply addItem_NonNeg.
Qed.

Lemma zeroTotals_NonNeg : map_Forall (λ _ v, WellFormed.NonNeg v) zeroTotals.
Proof.
  unfold zeroTotals.
  repeat (apply map_Forall_insert_2; [apply NonNeg_zero |]).
  apply map_Forall_empty.
Qed.

Lemma errorTotals_NonNeg : map_Forall (λ _ v, WellFormed.NonNeg v) errorTotals.
Proof.
  unfold errorTotals.
  repeat (apply map_Forall_insert_2; [apply NonNeg_zero |]).
  apply map_Forall_empty.
Qed.

Lemma round1_map_NonNeg totals :
  map_Forall (λ _ v, WellFormed.NonNeg v) totals →
  map_Forall (λ _ v, WellFormed.NonNeg v) (round1 <$> totals).
Proof.
  intros Ht k v. rewrite lookup_fmap.
  destruct (totals !! k) as [t |] eqn:Hk; simpl; [| done].
  intros [= <-]. apply round1_NonNeg. by apply (Ht k).
Qed.

Lemma calculateMealNutrition_NonNeg foodDatabase items :
  Forall WellFormed.food foodDatabase →
  Forall WellFormed.servings items →
  map_Forall (λ _ v, WellFormed.NonNeg v)
    (calculateMealNutrition (Some items) foodDatabase).
Proof.
  intros Hdb Hitems. unfold calculateMealNutrition.
  rewrite calculateMealNutrition_try_eq.
  destruct (forEachItem foodDatabase items zeroTotals) as [totals |] eqn:E; simpl.
  - apply round1_map_NonNeg.
    eapply forEachItem_NonNeg; [done | done | apply zeroTotals_NonNeg | done].
  - apply errorTotals_NonNeg.
Qed.

Lemma addMeal_NonNeg (mealNutrition dailyTotals : Totals) :
  map_Forall (λ _ v, WellFormed.NonNeg v) mealNutrition →
  map_Forall (λ _ v, WellFormed.NonNeg v) dailyTotals →
  map_Forall (λ _ v, WellFormed.NonNeg v) (addMeal mealNutrition dailyTotals).
Proof.
  intros Hm Hd k v. unfold addMeal. rewrite map_lookup_imap.
  destruct (dailyTotals !! k) as [t |] eqn:Hk; simpl; [| done].
  intros [= <-]. apply add_NonNeg; [by apply (Hd k) |].
  unfold JS.orProp.
  destruct (JS.truthy (mealNutrition !! k)) eqn:E; [| apply NonNeg_zero].
  destruct (mealNutrition !! k) as [x |] eqn:Hx; [| done].
  by apply (Hm k).
Qed.

(** C4, the stated invariant: a negative number of servings is truthy, so
    it is used as it is, and the totals come out negative. *)
Lemma negative_servings_not_resolved :
  resolveServings Sample.minusTwoOatmeal = Fin (-2)
  ∧ JS.positive (resolveServings Sample.minusTwoOatmeal) = false
  ∧ calculateMealNutrition (Some [Sample.minusTwoOatmeal]) Sample.foodDatabase
      !! "calories" = Some (Fin (-300))
  ∧ JS.nonNegative (Fin (-300)) = false.
Proof. repeat split; reflexivity. Qed.

(** C4 (amended).  Servings that are absent, [NaN] or zero resolve to 1,
    any other number, a negative one included, is used as it is.  On a
    catalog whose fields are finite and not negative, when the servings of
    every entry are absent, [NaN], zero or positive and finite, every field
    of the totals of [calculateMealNutrition] and of
    [calculateDailyNutrition] is finite and not negative. *)
Theorem totals_non_negative foodDatabase :
  Forall WellFormed.food foodDatabase →
  (∀ item, JS.truthy (MealItem.servings item) = false →
           resolveServings item = Fin 1)
  ∧ (∀ item q, MealItem.servings item = Some (Fin q) → ¬ (q == 0)%Q →
               resolveServings item = Fin q)
  ∧ (∀ items key v,
       Forall WellFormed.servings items →
       calculateMealNutrition (Some items) foodDatabase !! key = Some v →
       WellFormed.NonNeg v)
  ∧ (∀ (meals : DayMeals) key v,
       map_Forall (λ _ items, Forall WellFormed.servings items) meals →
       calculateDailyNutrition (Some meals) foodDatabase !! key = Some v →
       WellFormed.NonNeg v).
Proof.
  intros Hdb. split; [| split; [| split]].
  - apply resolveServings_default.
  - apply resolveServings_given.
  - intros items key v Hitems Hv.
    by apply (calculateMealNutrition_NonNeg foodDatabase items Hdb Hitems key).
  - intros meals key v Hmeals.
    assert (∀ mealType (dailyTotals : Totals),
      map_Forall (λ _ v, WellFormed.NonNeg v) dailyTotals →
      map_Forall (λ _ v, WellFormed.NonNeg v)
        match meals !! mealType with
        | Some items =>
            addMeal (calculateMealNutrition (Some items) foodDatabase) dailyTotals
        | None => dailyTotals
        end) as Hstep.
    { intros mealType dailyTotals Hd.
      destruct (meals !! mealType) as [items |] eqn:E; [| done].
      apply addMeal_NonNeg; [| done].
      apply calculateMealNutrition_NonNeg; [done | by apply (Hmeals mealType)]. }
    unfold calculateDailyNutrition, calculateDailyNutrition_try. simpl.
    apply (round1_map_NonNeg _ (Hstep _ _ (Hstep _ _ (Hstep _ _
             (Hstep _ _ zeroTotals_NonNeg)))) key).
Qed.

Lemma totals_non_negative_witness :
  Forall WellFormed.food Sample.foodDatabase
  ∧ Forall WellFormed.servings [Sample.twoOatmeal; Sample.chickenNoServings]
  ∧ calculateMealNutrition (Some [Sample.twoOatmeal; Sample.chickenNoServings])
      Sample.foodDatabase !! "calories" = Some (Fin 465)
  ∧ calculateMealNutrition (Some [Sample.twoOatmeal; Sample.chickenNoServings])
      Sample.foodDatabase !! "cost" = Some (Fin (19 # 10))
  ∧ ∀ key v,
      calculateMealNutrition (Some [Sample.twoOatmeal; Sample.chickenNoServings])
        Sample.foodDatabase !! key = Some v →
      WellFormed.NonNeg v.
Proof.
  assert (Forall WellFormed.food Sample.foodDatabase) as Hdb.
  { repeat (apply Forall_cons; split); try apply Forall_nil;
      (split; repeat (apply Forall_cons; split); try apply Forall_nil;
       first [ exact I
             | by (eexists; split; [reflexivity | unfold Qle; simpl; lia])
             | by intros x [=]
             | intros x [= <-]; eexists; split;
               [reflexivity | unfold Qle; simpl; lia] ]). }
  assert (Forall WellFormed.servings [Sample.twoOatmeal; Sample.chickenNoServings])
    as Hit.
  { apply Forall_cons. split; [right; exists 2%Q; split; reflexivity |].
    apply Forall_cons. split; [left; reflexivity | apply Forall_nil; exact I]. }
  split; [exact Hdb |]. split; [exact Hit |].
  split; [vm_compute; reflexivity |]. split; [vm_compute; reflexivity |].
  intros key v.
  exact (proj1 (proj2 (proj2 (totals_non_negative Sample.foodDatabase Hdb)))
           [Sample.twoOatmeal; Sample.chickenNoServings] key v Hit).
Defined.

(** C3 (as the code behaves).  The [catch] clauses of
    [calculateMealNutrition] and [calculateDailyNutrition] return an object
    with six keys: sodium, calcium, iron, vitaminA and vitaminC, which the
    object returned on success has, are missing.  An entry without a food
    id, or a meal set that is [null], reaches them.  The [catch] clause of
    [generateNutritionReport] does return the complete empty report. *)
Theorem error_default_is_partial :
  (calculateMealNutrition (Some [Sample.noFoodId]) Sample.foodDatabase = errorTotals
   ∧ calculateDailyNutrition None Sample.foodDatabase = errorTotals)
  ∧ dom errorTotals
    = ({[ "calories"; "protein"; "carbs"; "fat"; "fiber"; "cost" ]} : gset string)
  ∧ Forall (λ key, is_Some (zeroTotals !! key) ∧ errorTotals !! key = None)
      ["sodium"; "calcium"; "iron"; "vitaminA"; "vitaminC"]
  ∧ (∀ env reportType familyMemberId familyMembers,
       generateNutritionReport env reportType familyMemberId JSDate.Invalid
         familyMembers = emptyReport)
  ∧ (∀ env time,
       generateNutritionReport env "daily" "all" (JSDate.Valid time) None
       = emptyReport).
Proof.
  split; [| split; [| split; [| split]]].
  - split; reflexivity.
  - unfold errorTotals. rewrite !dom_insert_L, dom_singleton_L. set_solver.
  - repeat constructor; by eexists.
  - intros env reportType familyMemberId familyMembers.
    unfold generateNutritionReport, generateNutritionReport_try, reportDates.
    destruct (String.eqb reportType "daily"); [reflexivity |].
    destruct (String.eqb reportType "weekly"); [reflexivity |].
    destruct (String.eqb reportType "monthly"); reflexivity.
  - reflexivity.
Qed.

(** *** Totals are the rounded exact sums *)

Lemma lookup_addTo key (x : number) totals k :
  addTo key x totals !! k
  = if decide (key = k) then (λ t, JS.add t x) <$> totals !! key else totals !! k.
Proof. apply lookup_alter. Qed.

Lemma lookup_addOptional key (field : option number) (servings : number) totals k :
  addOptional key field servings totals !! k
  = if decide (key = k)
    then (λ t, if JS.truthy field
               then JS.add t (JS.mul (JS.toNumber field) servings) else t)
           <$> totals !! key
    else totals !! k.
Proof.
  unfold addOptional. destruct (JS.truthy field).
  - apply lookup_addTo.
  - case_decide; [subst k; by destruct (totals !! key) | done].
Qed.

Lemma find_resolve foodDatabase (i : ident) :
  find foodDatabase (Some i) = Some (Spec.resolve foodDatabase i).
Proof.
  unfold Spec.resolve.
  induction foodDatabase as [| f rest IH]; simpl; [done |].
  by destruct (String.eqb _ _).
Qed.

Lemma resolve_elem_of foodDatabase (i : ident) (f : FoodItem.t) :
  Spec.resolve foodDatabase i = Some f → f ∈ foodDatabase.
Proof.
  intros H. apply (find_elem_of foodDatabase (Some i)). by rewrite find_resolve, H.
Qed.

(** One accumulation step on a macro field. *)
Lemma macro_step (t T a s : Q) :
  (t == T)%Q →
  ∃ t', Some (JS.add (Fin t) (JS.mul (Fin a) (Fin s))) = Some (Fin t')
        ∧ (t' == T + a * s)%Q.
Proof.
  intros Ht. eexists. split; [reflexivity |].
  by rewrite !Qred_correct, Ht.
Qed.

(** One accumulation step on a field that is tested first. *)
Lemma optional_step (field : option number) (t T s : Q) :
  (∀ x, field = Some x → WellFormed.Finite x) →
  (t == T)%Q →
  ∃ t', Some (if JS.truthy field
               then JS.add (Fin t) (JS.mul (JS.toNumber field) (Fin s)) else Fin t)
        = Some (Fin t')
        ∧ (t' == T + from_option Spec.amount 0 field * s)%Q.
Proof.
  intros Hf Ht. destruct field as [x |]; simpl.
  - destruct (Hf x eq_refl) as [a ->]. simpl.
    destruct (JS.signQ a) eqn:E.
    + apply signQ_Eq in E. exists t. split; [done |]. rewrite Ht, E. ring.
    + eexists. split; [reflexivity |]. by rewrite !Qred_correct, Ht.
    + eexists. split; [reflexivity |]. by rewrite !Qred_correct, Ht.
  - exists t. split; [done |]. rewrite Ht. ring.
Qed.

(** A key of the totals object is one of the eleven names. *)
Lemma totals_key (key : string) :
  is_Some (zeroTotals !! key) →
  key ∈ ["calories"; "protein"; "carbs"; "fat"; "fiber"; "sodium"; "calcium";
         "iron"; "vitaminA"; "vitaminC"; "cost"].
Proof.
  unfold zeroTotals. intros [v Hv].
  repeat (rewrite lookup_insert in Hv;
          case_decide; [subst key; set_solver |]).
  apply lookup_singleton_Some in Hv as [<- _]. set_solver.
Qed.

Lemma lookup_addTo_eq key (x : number) totals :
  addTo key x totals !! key = (λ t, JS.add t x) <$> totals !! key.
Proof. rewrite lookup_addTo. by case_decide. Qed.

Lemma lookup_addTo_ne key (x : number) totals k :
  key ≠ k → addTo key x totals !! k = totals !! k.
Proof. intros. rewrite lookup_addTo. by case_decide. Qed.

Lemma lookup_addOptional_eq key (field : option number) (servings : number) totals :
  addOptional key field servings totals !! key
  = (λ t, if JS.truthy field
          then JS.add t (JS.mul (JS.toNumber field) servings) else t)
      <$> totals !! key.
Proof. rewrite lookup_addOptional. by case_decide. Qed.

Lemma lookup_addOptional_ne key (field : option number) (servings : number) totals k :
  key ≠ k → addOptional key field servings totals !! k = totals !! k.
Proof. intros. rewrite lookup_addOptional. by case_decide. Qed.

(** The effect of one resolved entry on the value under a key. *)
Lemma addItem_exact foodDatabase totals item (f : FoodItem.t) (s : Q) :
  find foodDatabase (MealItem.foodId item) = Some (Some f) →
  WellFormed.finiteFood f →
  resolveServings item = Fin s →
  ∃ totals', addItem foodDatabase totals item = Some totals'
    ∧ ∀ key t T,
        is_Some (zeroTotals !! key) →
        totals !! key = Some (Fin t) → (t == T)%Q →
        ∃ t', totals' !! key = Some (Fin t')
              ∧ (t' == T + Spec.fieldAmount key f * s)%Q.
Proof.
  intros Hfind [Hmacro Hmicro] Hs. unfold addItem. rewrite Hfind. simpl.
  rewrite Hs. eexists. split; [reflexivity |].
  intros key t T Hkey Ht HT.
  repeat match goal with
         | H : Forall _ (_ :: _) |- _ => apply Forall_cons in H as [? H]
         end.
  apply totals_key in Hkey.
  repeat (apply elem_of_cons in Hkey as [-> | Hkey]);
    [.. | by apply elem_of_nil in Hkey].
  all: repeat first
         [ rewrite lookup_addOptional_ne by discriminate
         | rewrite lookup_addTo_ne by discriminate
         | rewrite lookup_addOptional_eq
         | rewrite lookup_addTo_eq ];
       rewrite Ht; simpl.
  all: unfold Spec.fieldAmount; repeat (case_decide; try done).
  all: repeat match goal with
              | H : WellFormed.Finite _ |- _ => destruct H as [? ->]
              end; simpl.
  all: first [ by apply macro_step | by apply optional_step ].
Qed.

Lemma forEachItem_exact foodDatabase items totals :
  Forall WellFormed.finiteFood foodDatabase →
  Forall (WellFormed.resolved foodDatabase) items →
  ∃ totals', forEachItem foodDatabase items totals = Some totals'
    ∧ ∀ key t T,
        is_Some (zeroTotals !! key) →
        totals !! key = Some (Fin t) → (t == T)%Q →
        ∃ t', totals' !! key = Some (Fin t')
              ∧ (t' == T + Spec.exactTotal key foodDatabase items)%Q.
Proof.
  intros Hdb Hitems. revert totals.
  induction Hitems as [| item items [Hres [s Hs]] _ IH]; intros totals; simpl.
  - exists totals. split; [done |]. intros key t T _ Ht HT.
    exists t. split; [done |]. rewrite HT. ring.
  - destruct (MealItem.foodId item) as [i |] eqn:Hid; simpl in Hres;
      [| by destruct Hres].
    destruct Hres as [f Hf].
    assert (WellFormed.finiteFood f) as Hfin.
    { rewrite Forall_forall in Hdb. apply Hdb. by eapply resolve_elem_of. }
    destruct (addItem_exact foodDatabase totals item f s) as (totals1 & -> & H1);
      [by rewrite Hid, find_resolve, Hf | done | done |]. simpl.
    destruct (IH totals1) as (totals' & -> & H').
    exists totals'. split; [done |]. intros key t T Hkey Ht HT.
    destruct (H1 key t T Hkey Ht HT) as (t1 & Ht1 & HT1).
    destruct (H' key t1 _ Hkey Ht1 HT1) as (t' & Ht' & HT').
    exists t'. split; [done |]. rewrite HT'.
    unfold Spec.entryAmount. rewrite Hid. simpl. rewrite Hf, Hs. simpl. ring.
Qed.

(** Rounding to a tenth gives a multiple of 1/10 within 1/20 of the
    argument. *)
Lemma roundToTenth_near (q : Q) :
  (∃ z, Spec.roundToTenth q == inject_Z z / 10)%Q
  ∧ (q - (1 # 20) < Spec.roundToTenth q)%Q ∧ (Spec.roundToTenth q <= q + (1 # 20))%Q.
Proof.
  unfold Spec.roundToTenth. split; [by eexists |].
  pose proof (Qfloor_le (q * 10 + (1 # 2))) as Hle.
  pose proof (Qlt_floor (q * 10 + (1 # 2))) as Hlt.
  set (z := Qfloor (q * 10 + (1 # 2))) in *.
  rewrite inject_Z_plus in Hlt. change (inject_Z 1) with 1%Q in Hlt.
  unfold Qdiv. change (/ 10)%Q with (1 # 10)%Q. split; lra.
Qed.

(** In the exact arithmetic of the model, when every entry resolves in
    the catalog (all figures finite), every field of the totals of
    [calculateMealNutrition] is the sum, over the entries, of the matched
    item's field times the entry's resolved servings, rounded to one
    decimal place once, at the end. *)
Lemma calculateMealNutrition_exact foodDatabase items :
  Forall WellFormed.finiteFood foodDatabase →
  Forall (WellFormed.resolved foodDatabase) items →
  (∀ key, is_Some (zeroTotals !! key) →
     ∃ r, calculateMealNutrition (Some items) foodDatabase !! key = Some (Fin r)
          ∧ (r == Spec.roundToTenth (Spec.exactTotal key foodDatabase items))%Q)
  ∧ dom (calculateMealNutrition (Some items) foodDatabase) = dom zeroTotals
  ∧ (∀ (f : FoodItem.t) (item : MealItem.t) (i : ident),
       FoodItem.calories f = Fin 150 →
       MealItem.foodId item = Some i →
       JS.toString (FoodItem.id f) = JS.toString i →
       MealItem.servings item = Some (Fin 2) →
       calculateMealNutrition (Some [item]) [f] !! "calories" = Some (Fin 300)).
Proof.
  intros Hdb Hitems. split; [| split].
  - intros key Hkey.
    unfold calculateMealNutrition. rewrite calculateMealNutrition_try_eq.
    destruct (forEachItem_exact foodDatabase items zeroTotals Hdb Hitems)
      as (totals' & -> & H'). simpl.
    assert (zeroTotals !! key = Some (Fin 0)) as H0.
    { apply totals_key in Hkey.
      repeat (apply elem_of_cons in Hkey as [-> | Hkey]);
        [reflexivity .. | by apply elem_of_nil in Hkey]. }
    destruct (H' key 0%Q 0%Q Hkey H0 (Qeq_refl 0)) as (t' & Ht' & HT').
    rewrite lookup_fmap, Ht'. simpl. eexists. split; [reflexivity |].
    rewrite Qred_correct. unfold Spec.roundToTenth.
    rewrite (Qfloor_comp (Qred (t' * 10) + (1 # 2))
               (Spec.exactTotal key foodDatabase items * 10 + (1 # 2))); [reflexivity |].
    rewrite Qred_correct, HT'. ring.
  - unfold calculateMealNutrition. rewrite calculateMealNutrition_try_eq.
    destruct (forEachItem_exact foodDatabase items zeroTotals Hdb Hitems)
      as (totals' & Heq & H'). rewrite Heq. simpl. rewrite dom_fmap_L.
    clear H'. revert Heq. generalize zeroTotals as totals. clear Hitems.
    induction items as [| item items IH]; intros totals; simpl.
    + by intros [= ->].
    + destruct (addItem foodDatabase totals item) as [totals1 |] eqn:E; simpl; [| done].
      intros H. rewrite (IH _ H). clear IH H. unfold addItem in E.
      destruct (find foodDatabase (MealItem.foodId item)) as [[f |] |];
        simpl in E; [| by injection E as <- | done].
      injection E as <-. unfold addOptional, addTo.
      repeat (destruct (JS.truthy _)); by rewrite ?dom_alter_L.
  - intros f item i Hc Hid Hi Hs. unfold calculateMealNutrition. simpl.
    unfold addItem. rewrite Hid. simpl. rewrite Hi, String.eqb_refl. simpl.
    rewrite lookup_fmap.
    repeat first
             [ rewrite lookup_addOptional_ne by discriminate
             | rewrite lookup_addTo_ne by discriminate
             | rewrite lookup_addOptional_eq
             | rewrite lookup_addTo_eq ].
    unfold resolveServings. rewrite Hc, Hs. reflexivity.
Qed.

(** C6.  When every entry resolves in the catalog (all figures finite),
    every field of the totals of [calculateMealNutrition] is a number of
    tenths less than a tenth away from the sum, over the entries, of the
    matched item's field times the entry's resolved servings: the sum is
    rounded once, at the end, and not entry by entry.  It is the sum
    rounded to the nearest tenth whenever ten times the sum is clear of
    the points half way between two integers, where the rounding of
    binary64 arithmetic decides.  One entry of two servings of a food with
    150 calories gives 300 calories. *)
Theorem calculateMealNutrition_rounded_once foodDatabase items :
  Forall WellFormed.finiteFood foodDatabase →
  Forall (WellFormed.resolved foodDatabase) items →
  (∀ key, is_Some (zeroTotals !! key) →
     let exact := Spec.exactTotal key foodDatabase items in
     ∃ r, calculateMealNutrition (Some items) foodDatabase !! key = Some (Fin r)
          ∧ (∃ k : Z, r == inject_Z k / 10)%Q
          ∧ (exact - (1 # 10) < r < exact + (1 # 10))%Q
          ∧ (Reference.clearOfTies (exact * 10) → (r == Spec.roundToTenth exact)%Q))
  ∧ dom (calculateMealNutrition (Some items) foodDatabase) = dom zeroTotals
  ∧ (∀ (f : FoodItem.t) (item : MealItem.t) (i : ident),
       FoodItem.calories f = Fin 150 →
       MealItem.foodId item = Some i →
       JS.toString (FoodItem.id f) = JS.toString i →
       MealItem.servings item = Some (Fin 2) →
       calculateMealNutrition (Some [item]) [f] !! "calories" = Some (Fin 300)).
Proof.
  intros Hdb Hitems.
  destruct (calculateMealNutrition_exact foodDatabase items Hdb Hitems)
    as (Hsum & Hdom & Hexample).
  split; [| by split].
  intros key Hkey exact. destruct (Hsum key Hkey) as (r & Hr & Heq).
  exists r. split; [done |].
  destruct (roundToTenth_near exact) as ([k Hk] & Hlo & Hhi).
  fold exact in Heq.
  split; [exists k; by rewrite Heq |].
  split; [rewrite Heq; split; lra | done].
Qed.

Lemma calculateMealNutrition_rounded_once_witness :
  Forall WellFormed.finiteFood Sample.foodDatabase
  ∧ Forall (WellFormed.resolved Sample.foodDatabase)
      [Sample.twoOatmeal; Sample.chickenNoServings]
  ∧ (∃ r, calculateMealNutrition (Some [Sample.twoOatmeal; Sample.chickenNoServings])
            Sample.foodDatabase !! "protein" = Some (Fin r)
          ∧ (∃ k : Z, r == inject_Z k / 10)%Q
          ∧ (Spec.exactTotal "protein" Sample.foodDatabase
               [Sample.twoOatmeal; Sample.chickenNoServings] - (1 # 10) < r
             < Spec.exactTotal "protein" Sample.foodDatabase
                 [Sample.twoOatmeal; Sample.chickenNoServings] + (1 # 10))%Q
          ∧ (Reference.clearOfTies
               (Spec.exactTotal "protein" Sample.foodDatabase
                  [Sample.twoOatmeal; Sample.chickenNoServings] * 10) →
             (r == Spec.roundToTenth
                     (Spec.exactTotal "protein" Sample.foodDatabase
                        [Sample.twoOatmeal; Sample.chickenNoServings]))%Q))
  ∧ calculateMealNutrition (Some [Sample.twoOatmeal]) [Sample.oatmeal] !! "calories"
    = Some (Fin 300).
Proof.
  assert (Forall WellFormed.finiteFood Sample.foodDatabase) as Hdb.
  { repeat (apply Forall_cons; split); try apply Forall_nil;
      (split; repeat (apply Forall_cons; split); try apply Forall_nil;
       first [ exact I | eexists; reflexivity | by intros x [=]
             | intros x [= <-]; eexists; reflexivity ]). }
  assert (Forall (WellFormed.resolved Sample.foodDatabase)
            [Sample.twoOatmeal; Sample.chickenNoServings]) as Hit.
  { apply Forall_cons; split;
      [split; [exists Sample.oatmeal | exists 2%Q]; reflexivity |].
    apply Forall_cons; split; [| apply Forall_nil; exact I].
    split; [exists Sample.chickenBreast | exists 1%Q]; reflexivity. }
  pose proof (calculateMealNutrition_rounded_once Sample.foodDatabase
                [Sample.twoOatmeal; Sample.chickenNoServings] Hdb Hit)
    as (Hsum & _ & Hex).
  split; [exact Hdb |]. split; [exact Hit |]. split.
  - apply (Hsum "protein"). eexists; reflexivity.
  - exact (Hex Sample.oatmeal Sample.twoOatmeal (IdStr "1")
             eq_refl eq_refl eq_refl eq_refl).
Defined.

(** The cost of three servings of oatmeal is 1.05, half way between two
    tenths: the theorem leaves 1.0 and 1.1 open.  In binary64 arithmetic
    0.35 times 3 comes out just below 1.05 and the total is 1. *)
Example oatmeal_cost_at_a_tie :
  (Spec.exactTotal "cost" Sample.foodDatabase [Sample.threeOatmeal] == 21 # 20)%Q
  ∧ ¬ Reference.clearOfTies (Spec.exactTotal "cost" Sample.foodDatabase [Sample.threeOatmeal] * 10).
Proof.
  split; [reflexivity |]. unfold Reference.clearOfTies. intros H.
  vm_compute in H. discriminate H.
Qed.

End Aggregation.

(* ===================================================================== *)
(** ** The calendar                                                        *)
(* ===================================================================== *)

Section Calendar.

Lemma yoe_bounds (doe : Z) :
  (0 ≤ doe ≤ 146096)%Z →
  (0 ≤ (doe - doe `div` 1460 + doe `div` 36524 - doe `div` 146096) `div` 365 ≤ 399)%Z.
Proof. intros H. Z.div_mod_to_equations. lia. Qed.

Lemma doy_bounds (doe yoe : Z) :
  (0 ≤ doe ≤ 146096)%Z →
  yoe = ((doe - doe `div` 1460 + doe `div` 36524 - doe `div` 146096) `div` 365)%Z →
  (0 ≤ doe - (365 * yoe + yoe `div` 4 - yoe `div` 100) ≤ 365)%Z.
Proof. intros H ->. Z.div_mod_to_equations. lia. Qed.

(** The two conversions agree: the calendar date of a day number converts
    back to it, and is a month from 1 to 12 and a day from 1 to 31. *)
Lemma civil_roundtrip (z : Z) :
  let '(y, m, d) := JSDate.civilFromDays z in
  JSDate.daysFromCivil y m d = z ∧ (1 ≤ m ≤ 12)%Z ∧ (1 ≤ d ≤ 31)%Z.
Proof.
  unfold JSDate.civilFromDays.
  pose proof (Z.div_mod (z + 719468) 146097 ltac:(lia)) as Hz.
  pose proof (Z.mod_pos_bound (z + 719468) 146097 ltac:(lia)) as Hdoe.
  set (era := ((z + 719468) `div` 146097)%Z) in *.
  set (doe := ((z + 719468) `mod` 146097)%Z) in *.
  cbv zeta.
  pose proof (yoe_bounds doe ltac:(lia)) as Hyoe.
  set (yoe := ((doe - doe `div` 1460 + doe `div` 36524 - doe `div` 146096)
                 `div` 365)%Z) in *.
  pose proof (doy_bounds doe yoe ltac:(lia) eq_refl) as Hdoy.
  set (doy := (doe - (365 * yoe + yoe `div` 4 - yoe `div` 100))%Z) in *.
  assert (0 ≤ (5 * doy + 2) `div` 153 ≤ 11)%Z as Hmp
    by (Z.div_mod_to_equations; lia).
  set (mp := ((5 * doy + 2) `div` 153)%Z) in *.
  assert (1 ≤ doy - (153 * mp + 2) `div` 5 + 1 ≤ 31)%Z as Hd
    by (subst mp; Z.div_mod_to_equations; lia).
  set (d := (doy - (153 * mp + 2) `div` 5 + 1)%Z) in *.
  clearbody era doe yoe.
  unfold JSDate.daysFromCivil.
  destruct (Z.ltb_spec mp 10) as [Hlt | Hge].
  - replace (mp + 3 <=? 2)%Z with false by (symmetry; apply Z.leb_gt; lia).
    replace (2 <? mp + 3)%Z with true by (symmetry; apply Z.ltb_lt; lia).
    replace (mp + 3 - 3)%Z with mp by lia.
    split; [| lia].
    replace ((yoe + era * 400) `div` 400)%Z with era
      by (Z.div_mod_to_equations; lia).
    replace ((yoe + era * 400) `mod` 400)%Z with yoe
      by (Z.div_mod_to_equations; lia).
    subst d doy. lia.
  - replace (mp - 9 <=? 2)%Z with true by (symmetry; apply Z.leb_le; lia).
    replace (2 <? mp - 9)%Z with false by (symmetry; apply Z.ltb_ge; lia).
    replace (mp - 9 + 9)%Z with mp by lia.
    split; [| lia].
    replace (yoe + era * 400 + 1 - 1)%Z with (yoe + era * 400)%Z by lia.
    replace ((yoe + era * 400) `div` 400)%Z with era
      by (Z.div_mod_to_equations; lia).
    replace ((yoe + era * 400) `mod` 400)%Z with yoe
      by (Z.div_mod_to_equations; lia).
    subst d doy. lia.
Qed.

(** The day number is linear in the day of the month. *)
Lemma daysFromCivil_day (y m d : Z) :
  JSDate.daysFromCivil y m d = (JSDate.daysFromCivil y m 1 + d - 1)%Z.
Proof. unfold JSDate.daysFromCivil. cbv zeta. lia. Qed.

Lemma getDate_valid (tz time : Z) :
  ∃ d, JSDate.getDate tz (JSDate.Valid time) = Some d ∧ (1 ≤ d ≤ 31)%Z.
Proof.
  unfold JSDate.getDate, JSDate.localFields.
  pose proof (civil_roundtrip ((time + tz) `div` JSDate.msPerDay)) as H.
  destruct (JSDate.civilFromDays _) as [[y m] d]. destruct H as (_ & _ & Hd).
  exists d. split; [reflexivity | exact Hd].
Qed.

(** Setting the day of the month to the current one plus [i] moves the
    date by [i] days, across the ends of months and years. *)
Lemma setDate_getDate (tz time i : Z) :
  JSDate.setDate tz (JSDate.Valid time)
    ((λ day, (day + i)%Z) <$> JSDate.getDate tz (JSDate.Valid time))
  = JSDate.Valid (time + i * JSDate.msPerDay).
Proof.
  unfold JSDate.getDate, JSDate.localFields, JSDate.setDate.
  pose proof (civil_roundtrip ((time + tz) `div` JSDate.msPerDay)) as H.
  destruct (JSDate.civilFromDays _) as [[y m] d]. simpl.
  destruct H as (Hz & Hm & _). f_equal.
  unfold JSDate.makeDay.
  replace ((m - 1) `div` 12)%Z with 0%Z by (Z.div_mod_to_equations; lia).
  replace ((m - 1) `mod` 12 + 1)%Z with m by (Z.div_mod_to_equations; lia).
  rewrite Z.add_0_r. rewrite daysFromCivil_day in Hz.
  pose proof (Z.div_mod (time + tz) JSDate.msPerDay ltac:(done)) as Hdm.
  lia.
Qed.

(** Known dates, and the month lengths [new Date(year, month + 1, 0)
    .getDate()] gives for a common year, a leap year and the two kinds of
    century years. *)
Example calendar_dates :
  JSDate.isoDate <$> [0; 59; -1; 10957; 11016; 19782; 19783; -25509; -25508;
                      47481; 47482; 2932896; -719162]%Z
  = ["1970-01-01"; "1970-03-01"; "1969-12-31"; "2000-01-01"; "2000-02-29";
     "2024-02-29"; "2024-03-01"; "1900-02-28"; "1900-03-01"; "2099-12-31";
     "2100-01-01"; "9999-12-31"; "0001-01-01"].
Proof. vm_compute. reflexivity. Qed.

Example calendar_month_lengths :
  (λ year, (λ month, JSDate.getDate 0
                       (JSDate.make 0 (Some year) (Some (month + 1)%Z) (Some 0%Z)))
             <$> seqZ 0 12)
    <$> [2023; 2024; 1900; 2000]%Z
  = (fmap Some)
      <$> [ [31; 28; 31; 30; 31; 30; 31; 31; 30; 31; 30; 31];
            [31; 29; 31; 30; 31; 30; 31; 31; 30; 31; 30; 31];
            [31; 28; 31; 30; 31; 30; 31; 31; 30; 31; 30; 31];
            [31; 29; 31; 30; 31; 30; 31; 31; 30; 31; 30; 31] ]%Z.
Proof. vm_compute. reflexivity. Qed.

End Calendar.

(* ===================================================================== *)
(** ** Reports                                                             *)
(* ===================================================================== *)

Section Reports.

Import NutritionCalculator.

Implicit Types (env : Env) (foodDatabase : list FoodItem.t)
               (people members : list Person.t).

(** *** The date range of a weekly or monthly report *)

Lemma dayAfter_valid env (start i : Z) :
  dayAfter env (JSDate.Valid start) i = JSDate.Valid (start + i * JSDate.msPerDay).
Proof. apply setDate_getDate. Qed.

Lemma date_le_iff env (start now i : Z) :
  JSDate.le (dayAfter env (JSDate.Valid start) i) (JSDate.Valid now) = true
  ↔ (i + 1 ≤ (now - start) `div` JSDate.msPerDay + 1)%Z.
Proof.
  rewrite dayAfter_valid. simpl. rewrite Z.leb_le. unfold JSDate.msPerDay.
  split; intros H; Z.div_mod_to_equations; lia.
Qed.

(** Of consecutive dates, those not after now are the first few. *)
Lemma truncated_range env (start now : Z) (n : nat) :
  filter (λ date, JSDate.le date (JSDate.Valid now) = true)
    (dayAfter env (JSDate.Valid start) <$> seqZ 0 (Z.of_nat n))
  = dayAfter env (JSDate.Valid start)
      <$> seqZ 0 (Spec.datesUpTo (Z.of_nat n) start now).
Proof.
  unfold Spec.datesUpTo.
  induction n as [| n IH].
  - rewrite Z.max_l by lia. reflexivity.
  - rewrite seqZ_S, fmap_app, filter_app, IH. simpl. clear IH.
    destruct (decide (Z.of_nat n + 1 ≤ (now - start) `div` JSDate.msPerDay + 1)%Z)
      as [Hin | Hout].
    + rewrite filter_cons_True
        by (apply (date_le_iff env start now (0 + Z.of_nat n)); lia).
      rewrite filter_nil.
      replace (Z.max 0 (Z.min (Z.of_nat n) _)) with (Z.of_nat n) by lia.
      replace (Z.max 0 (Z.min (Z.of_nat (S n)) _)) with (Z.of_nat (S n)) by lia.
      by rewrite seqZ_S, fmap_app.
    + rewrite filter_cons_False
        by (intros H; apply (date_le_iff env start now (0 + Z.of_nat n)) in H; lia).
      rewrite filter_nil, app_nil_r. f_equal. f_equal. lia.
Qed.

Lemma reportDates_weekly env (start : Z) :
  reportDates env "weekly" (JSDate.Valid start)
  = (λ i, JSDate.Valid (start + i * JSDate.msPerDay))
      <$> seqZ 0 (Spec.datesUpTo 7 start (now env)).
Proof.
  unfold reportDates. simpl String.eqb. cbv iota.
  pose proof (truncated_range env start (now env) 7) as H.
  change (Z.of_nat 7) with 7%Z in H. rewrite H. clear H.
  apply list_fmap_ext. intros _ i _. apply dayAfter_valid.
Qed.

(** *** Processing the dates *)

Lemma processDate_valid env foodDatabase familyMemberId members
    (report : Report.t) (time : Z) :
  ∃ datasets,
    processDate env foodDatabase familyMemberId (Some members) report
      (JSDate.Valid time)
    = Some (Report.mk
              (Report.labels report ++ [JSDate.isoDate (JSDate.utcDay time)])
              datasets).
Proof.
  unfold processDate. simpl.
  destruct (String.eqb familyMemberId "all"); simpl.
  - destruct (foldl _ _ members). by eexists.
  - by eexists.
Qed.

Lemma forEachDate_cons env foodDatabase familyMemberId
    (familyMembers : option (list Person.t)) (date : JSDate.t)
    (dates : list JSDate.t) (report : Report.t) :
  forEachDate env foodDatabase familyMemberId familyMembers (date :: dates) report
  = processDate env foodDatabase familyMemberId familyMembers report date
      ≫= forEachDate env foodDatabase familyMemberId familyMembers dates.
Proof. reflexivity. Qed.

Lemma forEachDate_labels env foodDatabase familyMemberId members
    (times : list Z) (report : Report.t) :
  ∃ report',
    forEachDate env foodDatabase familyMemberId (Some members)
      (JSDate.Valid <$> times) report = Some report'
    ∧ Report.labels report'
      = Report.labels report ++ ((λ time, JSDate.isoDate (JSDate.utcDay time)) <$> times).
Proof.
  revert report. induction times as [| time times IH]; intros report.
  - exists report. split; [done |]. by rewrite app_nil_r.
  - rewrite !fmap_cons, forEachDate_cons.
    destruct (processDate_valid env foodDatabase familyMemberId members report time)
      as [datasets ->].
    destruct (IH (Report.mk
                    (Report.labels report ++ [JSDate.isoDate (JSDate.utcDay time)])
                    datasets)) as (report' & Heq & Hlabels).
    exists report'. split; [exact Heq |].
    rewrite Hlabels. simpl. by rewrite <- app_assoc.
Qed.

(** Under one fixed offset the dates of a weekly report are the first [k]
    of the seven consecutive dates that start at the anchor, [k] being the
    number of them that are not after now; its labels are the UTC calendar
    dates of those, none later than today's; when the seventh date is not
    after now there are exactly seven. *)
Lemma weekly_labels env (familyMemberId : string) members (start : Z) :
  let k := Spec.datesUpTo 7 start (now env) in
  reportDates env "weekly" (JSDate.Valid start)
  = (λ i, JSDate.Valid (start + i * JSDate.msPerDay)) <$> seqZ 0 k
  ∧ Report.labels
      (generateNutritionReport env "weekly" familyMemberId (JSDate.Valid start)
         (Some members))
    = (λ i, JSDate.isoDate (JSDate.utcDay start + i)) <$> seqZ 0 k
  ∧ (0 ≤ k ≤ 7)%Z
  ∧ (∀ i, (0 ≤ i < k)%Z →
          (start + i * JSDate.msPerDay ≤ now env)%Z
          ∧ (JSDate.utcDay start + i ≤ JSDate.utcDay (now env))%Z)
  ∧ ((k < 7)%Z → (now env < start + k * JSDate.msPerDay)%Z)
  ∧ ((start + 6 * JSDate.msPerDay ≤ now env)%Z → k = 7%Z).
Proof.
  intros k. split; [apply reportDates_weekly |]. split.
  - unfold generateNutritionReport, generateNutritionReport_try.
    rewrite reportDates_weekly. fold k.
    rewrite (list_fmap_compose (λ i, (start + i * JSDate.msPerDay)%Z) JSDate.Valid).
    edestruct forEachDate_labels as (report' & -> & Hlabels). simpl.
    rewrite Hlabels. simpl.
    rewrite <- list_fmap_compose. apply list_fmap_ext. intros _ i _. simpl.
    unfold JSDate.utcDay. by rewrite Z.div_add.
  - subst k. unfold Spec.datesUpTo, JSDate.utcDay, JSDate.msPerDay.
    repeat split; try lia.
    + Z.div_mod_to_equations; lia.
    + Z.div_mod_to_equations; lia.
    + intros H. Z.div_mod_to_equations; lia.
    + intros H. Z.div_mod_to_equations; lia.
Qed.

(** *** Reports for all members *)

Lemma add_zero_absorb (a x : number) :
  JS.add a (JS.add (Fin 0) x) = JS.add a x.
Proof.
  destruct a as [a | | |], x as [x | | |]; simpl; try reflexivity.
  f_equal. apply Qred_complete. rewrite Qred_correct. ring.
Qed.

Lemma foldl_add_absorb (y x : Person.t → number) people (a : number) :
  (∀ p, y p = x p ∨ y p = JS.add (Fin 0) (x p)) →
  foldl JS.add a (y <$> people) = foldl JS.add a (x <$> people).
Proof.
  intros Hy. revert a. induction people as [| p people IH]; intros a; simpl.
  - reflexivity.
  - rewrite IH. f_equal.
    destruct (Hy p) as [-> | ->]; [reflexivity | apply add_zero_absorb].
Qed.

Lemma sumArrays_singletons (y : Person.t → number) people :
  Spec.sumArrays ((λ p, [y p]) <$> people) = [foldl JS.add (Fin 0) (y <$> people)].
Proof.
  unfold Spec.sumArrays. generalize (Fin 0) as a.
  induction people as [| p people IH]; intros a; simpl; [reflexivity | apply IH].
Qed.

(** The two running totals of the loop over the members evolve
    independently of each other. *)
Lemma foldl_totals (consumed planned : Person.t → Metrics) people
    (totalConsumed totalPlanned : Metrics) :
  foldl (λ '(totalConsumed, totalPlanned) member,
           (addMetrics totalConsumed (consumed member),
            addMetrics totalPlanned (planned member)))
        (totalConsumed, totalPlanned) people
  = (foldl (λ total member, addMetrics total (consumed member)) totalConsumed people,
     foldl (λ total member, addMetrics total (planned member)) totalPlanned people).
Proof.
  revert totalConsumed totalPlanned.
  induction people as [| p people IH]; intros c q; simpl; [reflexivity | apply IH].
Qed.

(** Each of the five figures of a running total is the sum of that figure
    over the members. *)
Lemma foldl_metric (field : Metrics → number) (x : Person.t → Metrics) people
    (total : Metrics) :
  (∀ a b, field (addMetrics a b) = JS.add (field a) (field b)) →
  field (foldl (λ total member, addMetrics total (x member)) total people)
  = foldl JS.add (field total) ((λ p, field (x p)) <$> people).
Proof.
  intros Hfield. revert total.
  induction people as [| p people IH]; intros total; simpl; [reflexivity |].
  by rewrite IH, Hfield.
Qed.

(** One array of the report for all members against the same array of the
    members' own reports, which hold the member's figure, or zero plus it. *)
Lemma array_is_sum (field : Metrics → number) (x : Person.t → Metrics)
    (y : Person.t → list number) people :
  (∀ a b, field (addMetrics a b) = JS.add (field a) (field b)) →
  field zeroMetrics = Fin 0 →
  (∀ p, y p = [field (x p)] ∨ y p = [field (addMetrics zeroMetrics (x p))]) →
  [field (foldl (λ total member, addMetrics total (x member)) zeroMetrics people)]
  = Spec.sumArrays (y <$> people).
Proof.
  intros Hadd Hzero Hy.
  set (y' := λ p, default NaN (head (y p))).
  assert (∀ p, y p = [y' p]) as Hy'.
  { intros p. unfold y'. by destruct (Hy p) as [-> | ->]. }
  rewrite (list_fmap_ext y (λ p, [y' p]) people) by (intros; apply Hy').
  rewrite sumArrays_singletons, foldl_metric, Hzero by done.
  f_equal. symmetry. apply foldl_add_absorb.
  intros p. unfold y'.
  destruct (Hy p) as [-> | ->]; simpl; [by left | right].
  by rewrite Hadd, Hzero.
Qed.

(** C7.  For one date and any list of people, every planned and consumed
    array of the daily report for "all" is the sum, element by element, of
    the corresponding arrays of the daily reports generated for each
    person alone; the labels agree. *)
Theorem daily_all_is_sum_of_members env (time : Z) people :
  let all :=
    generateNutritionReport env "daily" "all" (JSDate.Valid time) (Some people) in
  let alone (p : Person.t) :=
    generateNutritionReport env "daily" (Person.id p) (JSDate.Valid time) (Some [p]) in
  Forall (λ array : Report.t → list number,
            array all = Spec.sumArrays ((λ p, array (alone p)) <$> people))
         Spec.metricArrays
  ∧ Report.labels all = [JSDate.isoDate (JSDate.utcDay time)]
  ∧ Forall (λ p, Report.labels (alone p) = Report.labels all) people.
Proof.
  intros all alone.
  set (foodDatabase := DataStore.getFoodDatabase (storage env)).
  set (dateString := JSDate.isoDate (JSDate.utcDay time)).
  set (consumed := λ p, consumedOf env foodDatabase dateString (Person.id p)).
  set (planned := λ p, plannedOf env foodDatabase dateString (Person.id p)).
  assert (all = Report.mk [dateString]
                  (pushMetrics (Report.datasets emptyReport)
                     (foldl (λ total member, addMetrics total (consumed member))
                        zeroMetrics people)
                     (foldl (λ total member, addMetrics total (planned member))
                        zeroMetrics people))) as Hall.
  { unfold all, generateNutritionReport, generateNutritionReport_try.
    simpl. unfold processDate. simpl.
    fold foodDatabase dateString.
    by rewrite (foldl_totals consumed planned). }
  assert (∀ p, alone p
               = Report.mk [dateString]
                   (pushMetrics (Report.datasets emptyReport) (consumed p) (planned p))
             ∨ alone p
               = Report.mk [dateString]
                   (pushMetrics (Report.datasets emptyReport)
                      (addMetrics zeroMetrics (consumed p))
                      (addMetrics zeroMetrics (planned p)))) as Halone.
  { intros p. unfold alone, generateNutritionReport, generateNutritionReport_try.
    simpl. unfold processDate. simpl.
    destruct (String.eqb (Person.id p) "all"); [right | left]; reflexivity. }
  clearbody all alone. subst all.
  split; [| split].
  - unfold Spec.metricArrays.
    repeat (apply Forall_cons; split); [.. | by apply Forall_nil]; simpl.
    + apply (array_is_sum mCalories planned); [done | done |].
      intros p. destruct (Halone p) as [-> | ->]; [left | right]; reflexivity.
    + apply (array_is_sum mCalories consumed); [done | done |].
      intros p. destruct (Halone p) as [-> | ->]; [left | right]; reflexivity.
    + apply (array_is_sum mProtein planned); [done | done |].
      intros p. destruct (Halone p) as [-> | ->]; [left | right]; reflexivity.
    + apply (array_is_sum mProtein consumed); [done | done |].
      intros p. destruct (Halone p) as [-> | ->]; [left | right]; reflexivity.
    + apply (array_is_sum mCarbs planned); [done | done |].
      intros p. destruct (Halone p) as [-> | ->]; [left | right]; reflexivity.
    + apply (array_is_sum mCarbs consumed); [done | done |].
      intros p. destruct (Halone p) as [-> | ->]; [left | right]; reflexivity.
    + apply (array_is_sum mFat planned); [done | done |].
      intros p. destruct (Halone p) as [-> | ->]; [left | right]; reflexivity.
    + apply (array_is_sum mFat consumed); [done | done |].
      intros p. destruct (Halone p) as [-> | ->]; [left | right]; reflexivity.
    + apply (array_is_sum mCost planned); [done | done |].
      intros p. destruct (Halone p) as [-> | ->]; [left | right]; reflexivity.
    + apply (array_is_sum mCost consumed); [done | done |].
      intros p. destruct (Halone p) as [-> | ->]; [left | right]; reflexivity.
  - reflexivity.
  - apply Forall_forall. intros p _.
    destruct (Halone p) as [-> | ->]; reflexivity.
Qed.

(** On 29 February 2024 at noon, a week anchored at 25 February has five
    labels and one anchored at 18 February has seven. *)
Example weekly_labels_truncated :
  Report.labels
    (generateNutritionReport Sample.env "weekly" "all"
       (JSDate.Valid (19778 * 86400000)) (Some [Sample.member1; Sample.member2]))
  = ["2024-02-25"; "2024-02-26"; "2024-02-27"; "2024-02-28"; "2024-02-29"].
Proof. vm_compute. reflexivity. Qed.

Example weekly_labels_full :
  Report.labels
    (generateNutritionReport Sample.env "weekly" "1700000000001"
       (JSDate.Valid (19771 * 86400000)) (Some [Sample.member1; Sample.member2]))
  = ["2024-02-18"; "2024-02-19"; "2024-02-20"; "2024-02-21"; "2024-02-22";
     "2024-02-23"; "2024-02-24"].
Proof. vm_compute. reflexivity. Qed.

(** The daily report for all members on the sample storage. *)
Example daily_all_sample :
  generateNutritionReport Sample.env "daily" "all" (JSDate.Valid Sample.noon)
    (Some [Sample.member1; Sample.member2])
  = Report.mk ["2024-02-29"]
      (Report.mkDatasets
         (Report.mkSeries [Fin 165] [Fin 300])
         (Report.mkSeries [Fin 31] [Fin 10])
         (Report.mkSeries [Fin 0] [Fin 54])
         (Report.mkSeries [Fin (7 # 2)] [Fin 6])
         (Report.mkSeries [Fin (6 # 5)] [Fin (7 # 10)])).
Proof. vm_compute. reflexivity. Qed.

End Reports.

(* ===================================================================== *)
(** ** Budget projection                                                   *)
(* ===================================================================== *)

Section Budget.

Import BudgetTracker.

Implicit Types (env : Env) (currentMonth : string).

Lemma daysInMonth_valid env (year month : Z) :
  ∃ n, daysInMonth env (Some year) (Some month) = Some n ∧ (1 ≤ n ≤ 31)%Z.
Proof. unfold daysInMonth. simpl. apply getDate_valid. Qed.

Lemma strictEq_Some (a b : option Z) :
  JS.strictEq a b = true → ∃ z, a = Some z ∧ b = Some z.
Proof.
  destruct a as [x |], b as [y |]; simpl; try done.
  intros H%Z.eqb_eq. subst. by exists y.
Qed.

Lemma div_by_days (q : Q) (d : Z) :
  (1 ≤ d)%Z → JS.div (Fin q) (JS.ofInt (Some d)) = Fin (Qred (q / inject_Z d)).
Proof.
  intros Hd. simpl.
  assert (JS.signQ (inject_Z d) = Gt) as ->; [| reflexivity].
  unfold JS.signQ. simpl. apply Z.compare_gt_iff. lia.
Qed.

(** The month-end estimate of a finite amount is finite once the month
    and the year have been read. *)
Lemma calculateEstimatedTotal_finite env currentMonth (q : Q) :
  is_Some (selectedYear currentMonth) → is_Some (selectedMonth currentMonth) →
  JS.isFinite (calculateEstimatedTotal env currentMonth (Fin q)) = true.
Proof.
  intros [year Hy] [month Hm].
  destruct (getDate_valid (tz env) (now env)) as (d & Hd & Hd1 & _).
  destruct (daysInMonth_valid env year month) as (n & Hn & _).
  unfold calculateEstimatedTotal. rewrite Hy, Hm, Hn, Hd.
  destruct (isCurrentMonth env (Some year) (Some month)); simpl negb; cbv iota;
    [| reflexivity].
  by rewrite (div_by_days q d Hd1).
Qed.

(** *** Reading a well-formed month selector *)

(** A digit is no white space, no sign, no dash and no [x], and has a
    decimal value. *)
Lemma isDigit_facts (c : ascii) :
  Spec.isDigit c = true →
  JS.isWhiteSpace c = false
  ∧ Ascii.eqb c "-" = false ∧ Ascii.eqb c "+" = false
  ∧ Ascii.eqb c "x" = false ∧ Ascii.eqb c "X" = false
  ∧ is_Some (JS.digitValue 10 c).
Proof.
  destruct c as [[] [] [] [] [] [] [] []]; vm_compute; intros H;
    first [ discriminate H
          | repeat (split; [reflexivity |]); eexists; reflexivity ].
Qed.

Lemma readDigits_is_Some (radix : Z) (s : string) (acc : Z) :
  is_Some (JS.readDigits radix s (Some acc)).
Proof.
  revert acc. induction s as [| c rest IH]; intros acc; simpl; [done |].
  destruct (JS.digitValue radix c); [apply IH | done].
Qed.

(** A text of at least two characters, the first two being digits, reads
    as an integer. *)
Lemma parseInt_digits (c0 c1 : ascii) (rest : string) :
  Spec.isDigit c0 = true → Spec.isDigit c1 = true →
  is_Some (JS.parseInt (Some (String c0 (String c1 rest)))).
Proof.
  intros H0 H1.
  destruct (isDigit_facts c0 H0) as (Hw & Hd & Hp & _ & _ & [v Hv]).
  destruct (isDigit_facts c1 H1) as (_ & _ & _ & Hx & HX & _).
  unfold JS.parseInt. simpl. rewrite Hw, Hd, Hp, Hx, HX. simpl.
  rewrite andb_false_r. simpl. rewrite Hv.
  destruct (readDigits_is_Some 10 (String c1 rest) (0 * 10 + v)) as [z Hz].
  simpl in Hz. rewrite Hz. done.
Qed.

Lemma wellFormedMonth_parsed currentMonth :
  Spec.wellFormedMonth currentMonth = true →
  ∃ year month,
    selectedYear currentMonth = Some year ∧ selectedMonth currentMonth = Some month.
Proof.
  destruct currentMonth as [| y1 [| y2 [| y3 [| y4 [| dash [| m1 [| m2 [| ? ?]]]]]]]];
    try discriminate.
  unfold Spec.wellFormedMonth. rewrite !andb_true_iff.
  intros ((((((((H1 & H2) & H3) & H4) & Hdash) & H5) & H6) & _) & _).
  apply Ascii.eqb_eq in Hdash. subst dash.
  destruct (isDigit_facts y1 H1) as (_ & E1 & _).
  destruct (isDigit_facts y2 H2) as (_ & E2 & _).
  destruct (isDigit_facts y3 H3) as (_ & E3 & _).
  destruct (isDigit_facts y4 H4) as (_ & E4 & _).
  destruct (isDigit_facts m1 H5) as (_ & E5 & _).
  destruct (isDigit_facts m2 H6) as (_ & E6 & _).
  unfold selectedYear, selectedMonth. cbn [JS.split].
  rewrite E1, E2, E3, E4, E5, E6. cbn [Ascii.eqb Bool.eqb]. cbn [lookup list_lookup].
  destruct (parseInt_digits y1 y2 (String y3 (String y4 "")) H1 H2) as [year ->].
  destruct (parseInt_digits m1 m2 "" H5 H6) as [month ->].
  by eexists _, _.
Qed.

(** C10.  For a well-formed month selector the divisor of the daily
    average is today's day of the month when the selector is the current
    month and the selected month's number of days otherwise; either way it
    is at least 1 (and at most 31), and for a finite amount both the daily
    average and the month-end estimate are finite. *)
Theorem budget_divisor_positive env currentMonth (q : Q) :
  Spec.wellFormedMonth currentMonth = true →
  ∃ d, daysPassed env currentMonth = Some d ∧ (1 ≤ d ≤ 31)%Z
       ∧ daysPassed env currentMonth
         = (if isCurrentMonth env (selectedYear currentMonth)
                 (selectedMonth currentMonth)
            then JSDate.getDate (tz env) (JSDate.Valid (now env))
            else daysInMonth env (selectedYear currentMonth)
                   (selectedMonth currentMonth))
       ∧ calculateDailyAverage env currentMonth (Fin q) = Fin (Qred (q / inject_Z d))
       ∧ JS.isFinite (calculateDailyAverage env currentMonth (Fin q)) = true
       ∧ JS.isFinite (calculateEstimatedTotal env currentMonth (Fin q)) = true.
Proof.
  intros Hwf.
  destruct (wellFormedMonth_parsed currentMonth Hwf) as (year & month & Hy & Hm).
  destruct (getDate_valid (tz env) (now env)) as (today & Htoday & Htoday1).
  destruct (daysInMonth_valid env year month) as (n & Hn & Hn1).
  assert (∃ d, daysPassed env currentMonth = Some d ∧ (1 ≤ d ≤ 31)%Z)
    as (d & Hd & Hd1).
  { unfold daysPassed. rewrite Hy, Hm.
    destruct (isCurrentMonth env (Some year) (Some month)); eauto. }
  exists d. split; [done |]. split; [done |]. split; [reflexivity |].
  assert (calculateDailyAverage env currentMonth (Fin q) = Fin (Qred (q / inject_Z d)))
    as Havg.
  { unfold calculateDailyAverage. rewrite Hd. apply div_by_days. lia. }
  split; [done |]. split; [by rewrite Havg |].
  apply calculateEstimatedTotal_finite; [by rewrite Hy | by rewrite Hm].
Qed.

Lemma budget_divisor_positive_witness :
  Spec.wellFormedMonth "2024-03" = true
  ∧ ∃ d, daysPassed Sample.tenthOfMarch "2024-03" = Some d ∧ (1 ≤ d ≤ 31)%Z
         ∧ daysPassed Sample.tenthOfMarch "2024-03"
           = (if isCurrentMonth Sample.tenthOfMarch (selectedYear "2024-03")
                   (selectedMonth "2024-03")
              then JSDate.getDate (tz Sample.tenthOfMarch)
                     (JSDate.Valid (now Sample.tenthOfMarch))
              else daysInMonth Sample.tenthOfMarch (selectedYear "2024-03")
                     (selectedMonth "2024-03"))
         ∧ calculateDailyAverage Sample.tenthOfMarch "2024-03" (Fin 100)
           = Fin (Qred (100 / inject_Z d))
         ∧ JS.isFinite (calculateDailyAverage Sample.tenthOfMarch "2024-03" (Fin 100))
           = true
         ∧ JS.isFinite (calculateEstimatedTotal Sample.tenthOfMarch "2024-03" (Fin 100))
           = true.
Proof.
  split; [reflexivity |].
  exact (budget_divisor_positive Sample.tenthOfMarch "2024-03" 100 eq_refl).
Defined.

(** On 10 March 2024, 100 spent so far project to 310 for March and stay
    100 for February; the daily averages are 10 and 100/29. *)
Example budget_sample :
  calculateEstimatedTotal Sample.tenthOfMarch "2024-03" (Fin 100) = Fin 310
  ∧ calculateEstimatedTotal Sample.tenthOfMarch "2024-02" (Fin 100) = Fin 100
  ∧ calculateDailyAverage Sample.tenthOfMarch "2024-03" (Fin 100) = Fin 10
  ∧ calculateDailyAverage Sample.tenthOfMarch "2024-02" (Fin 100) = Fin (100 # 29)
  ∧ calculateDailyAverage Sample.tenthOfMarch "2024" (Fin 100) = NaN.
Proof. repeat split; vm_compute; reflexivity. Qed.

End Budget.

(* ===================================================================== *)
(** ** Months of the civil calendar                                      *)
(* ===================================================================== *)

Section CalendarMonths.

Import Gregorian.

Lemma makeDay_index (y month d : Z) :
  JSDate.makeDay y month d = (firstOfMonth (12 * y + month) + d - 1)%Z.
Proof.
  unfold firstOfMonth, JSDate.makeDay.
  replace ((12 * y + month) `div` 12)%Z with (y + month `div` 12)%Z
    by (Z.div_mod_to_equations; lia).
  replace ((12 * y + month) `mod` 12)%Z with (month `mod` 12)%Z
    by (Z.div_mod_to_equations; lia).
  rewrite Z.add_0_l. lia.
Qed.

Lemma month_length (y m : Z) :
  (1 ≤ m ≤ 12)%Z →
  (firstOfMonth (12 * y + m) - firstOfMonth (12 * y + m - 1) = daysIn y m)%Z.
Proof.
  intros Hm.
  pose proof (makeDay_index y m 1) as H1.
  pose proof (makeDay_index y (m - 1) 1) as H0.
  replace (12 * y + (m - 1))%Z with (12 * y + m - 1)%Z in H0 by lia.
  assert (JSDate.makeDay y m 1 - JSDate.makeDay y (m - 1) 1 = daysIn y m)%Z; [| lia].
  clear H0 H1. unfold JSDate.makeDay.
  assert (m = 1 ∨ m = 2 ∨ m = 3 ∨ m = 4 ∨ m = 5 ∨ m = 6 ∨ m = 7 ∨ m = 8
          ∨ m = 9 ∨ m = 10 ∨ m = 11 ∨ m = 12)%Z as H by lia.
  repeat (destruct H as [-> | H]); try subst m;
    unfold daysIn, isLeapYear, JSDate.daysFromCivil; simpl; rewrite ?Z.add_0_r.
  all: try (Z.div_mod_to_equations; lia).
  all: destruct (Z.eqb_spec (y `mod` 4) 0), (Z.eqb_spec (y `mod` 100) 0),
         (Z.eqb_spec (y `mod` 400) 0); simpl; Z.div_mod_to_equations; lia.
Qed.

Lemma daysIn_bounds (y m : Z) : (28 ≤ daysIn y m ≤ 31)%Z.
Proof.
  unfold daysIn. destruct (m =? 2)%Z; [destruct (isLeapYear y); lia |].
  destruct (_ || _); lia.
Qed.

(** The length of the month with index [k]. *)
Lemma firstOfMonth_succ (k : Z) :
  (firstOfMonth (k + 1) - firstOfMonth k = daysIn (k `div` 12) (k `mod` 12 + 1))%Z.
Proof.
  pose proof (month_length (k `div` 12) (k `mod` 12 + 1)) as H.
  pose proof (Z.div_mod k 12 ltac:(lia)) as Hk.
  pose proof (Z.mod_pos_bound k 12 ltac:(lia)) as Hb.
  replace (12 * (k `div` 12) + (k `mod` 12 + 1))%Z with (k + 1)%Z in H by lia.
  replace (k + 1 - 1)%Z with k in H by lia.
  apply H. lia.
Qed.

Lemma firstOfMonth_mono (k : Z) (n : nat) :
  (firstOfMonth k + 28 * Z.of_nat n ≤ firstOfMonth (k + Z.of_nat n))%Z.
Proof.
  induction n as [| n IH].
  - replace (k + Z.of_nat 0)%Z with k by lia. lia.
  - pose proof (firstOfMonth_succ (k + Z.of_nat n)) as H.
    pose proof (daysIn_bounds ((k + Z.of_nat n) `div` 12) ((k + Z.of_nat n) `mod` 12 + 1)).
    replace (k + Z.of_nat (S n))%Z with (k + Z.of_nat n + 1)%Z by lia. lia.
Qed.

Lemma firstOfMonth_lt (k k' : Z) :
  (k < k')%Z → (firstOfMonth (k + 1) ≤ firstOfMonth k')%Z.
Proof.
  intros H. pose proof (firstOfMonth_mono (k + 1) (Z.to_nat (k' - k - 1))) as Hm.
  replace (k + 1 + Z.of_nat (Z.to_nat (k' - k - 1)))%Z with k' in Hm by lia. lia.
Qed.

(** A day lies in one month only. *)
Lemma month_unique (k k' z : Z) :
  (firstOfMonth k ≤ z < firstOfMonth (k + 1))%Z →
  (firstOfMonth k' ≤ z < firstOfMonth (k' + 1))%Z →
  k = k'.
Proof.
  intros H H'.
  destruct (Z.lt_trichotomy k k') as [Hlt | [-> | Hgt]]; [| done |].
  - pose proof (firstOfMonth_lt k k' Hlt). lia.
  - pose proof (firstOfMonth_lt k' k ltac:(lia)). lia.
Qed.

Lemma yoe_next (doe : Z) :
  (0 ≤ doe ≤ 146096)%Z →
  ((doe - doe `div` 1460 + doe `div` 36524 - doe `div` 146096) `div` 365 < 399)%Z →
  (doe < 365 * ((doe - doe `div` 1460 + doe `div` 36524 - doe `div` 146096) `div` 365 + 1)
         + ((doe - doe `div` 1460 + doe `div` 36524 - doe `div` 146096) `div` 365 + 1) `div` 4
         - ((doe - doe `div` 1460 + doe `div` 36524 - doe `div` 146096) `div` 365 + 1) `div` 100)%Z.
Proof. intros H Hy. Z.div_mod_to_equations. lia. Qed.

(** The calendar date of a day number names the month the day lies in. *)
Lemma civil_in_month (z : Z) :
  let '(y, m, d) := JSDate.civilFromDays z in
  (1 ≤ m ≤ 12)%Z
  ∧ (firstOfMonth (12 * y + m - 1) ≤ z < firstOfMonth (12 * y + m))%Z
  ∧ d = (z - firstOfMonth (12 * y + m - 1) + 1)%Z.
Proof.
  pose proof (civil_roundtrip z) as Hrt.
  destruct (JSDate.civilFromDays z) as [[y m] d] eqn:Hciv.
  destruct Hrt as (Hz & Hm & Hd).
  split; [done |].
  pose proof (makeDay_index y (m - 1) d) as Hidx.
  assert (JSDate.makeDay y (m - 1) d = z) as Hmk.
  { unfold JSDate.makeDay.
    replace ((m - 1) `div` 12)%Z with 0%Z by (Z.div_mod_to_equations; lia).
    replace ((m - 1) `mod` 12 + 1)%Z with m by (Z.div_mod_to_equations; lia).
    rewrite Z.add_0_r. rewrite daysFromCivil_day in Hz. lia. }
  replace (12 * y + (m - 1))%Z with (12 * y + m - 1)%Z in Hidx by lia.
  split; [| lia]. split; [lia |].
  (* the upper bound *)
  clear Hidx Hmk.
  pose proof (makeDay_index y m 1) as Hnext.
  assert (z < JSDate.makeDay y m 1)%Z; [| lia]. clear Hnext.
  revert Hciv. unfold JSDate.civilFromDays.
  pose proof (Z.div_mod (z + 719468) 146097 ltac:(lia)) as Hzz.
  pose proof (Z.mod_pos_bound (z + 719468) 146097 ltac:(lia)) as Hdoe.
  set (era := ((z + 719468) `div` 146097)%Z) in *.
  set (doe := ((z + 719468) `mod` 146097)%Z) in *.
  cbv zeta.
  pose proof (yoe_bounds doe ltac:(lia)) as Hyoe.
  pose proof (yoe_next doe ltac:(lia)) as Hyn.
  set (yoe := ((doe - doe `div` 1460 + doe `div` 36524 - doe `div` 146096)
                 `div` 365)%Z) in *.
  pose proof (doy_bounds doe yoe ltac:(lia) eq_refl) as Hdoy.
  set (doy := (doe - (365 * yoe + yoe `div` 4 - yoe `div` 100))%Z) in *.
  assert (0 ≤ (5 * doy + 2) `div` 153 ≤ 11)%Z as Hmp
    by (Z.div_mod_to_equations; lia).
  assert (doy < (153 * ((5 * doy + 2) `div` 153 + 1) + 2) `div` 5)%Z as Hin
    by (Z.div_mod_to_equations; lia).
  set (mp := ((5 * doy + 2) `div` 153)%Z) in *.
  intros [= Hy Hm' Hd']. clear Hd' Hz Hd.
  unfold JSDate.makeDay, JSDate.daysFromCivil.
  assert (doe = 365 * yoe + yoe `div` 4 - yoe `div` 100 + doy)%Z as Hdoe' by (subst doy; lia).
  clearbody era doe yoe doy mp.
  destruct (Z.ltb_spec mp 10) as [Hlt | Hge].
  - (* March to December *)
    subst m. replace (mp + 3 <=? 2)%Z with false in Hy by (symmetry; apply Z.leb_gt; lia).
    subst y.
    destruct (Z.eq_dec mp 9%Z) as [-> | Hne].
    + change ((9 + 3) `div` 12)%Z with 1%Z. change ((9 + 3) `mod` 12 + 1)%Z with 1%Z.
      change (1 <=? 2)%Z with true. change (2 <? 1)%Z with false. cbv iota.
      replace (yoe + era * 400 + 1 - 1)%Z with (yoe + era * 400)%Z by lia.
      replace ((yoe + era * 400) `div` 400)%Z with era by (Z.div_mod_to_equations; lia).
      replace ((yoe + era * 400) `mod` 400)%Z with yoe by (Z.div_mod_to_equations; lia).
      change ((153 * (9 + 1) + 2) `div` 5)%Z with 306%Z in Hin.
      change ((153 * (1 + 9) + 2) `div` 5)%Z with 306%Z. lia.
    + replace ((mp + 3) `div` 12)%Z with 0%Z by (Z.div_mod_to_equations; lia).
      replace ((mp + 3) `mod` 12 + 1)%Z with (mp + 4)%Z by (Z.div_mod_to_equations; lia).
      replace (mp + 4 <=? 2)%Z with false by (symmetry; apply Z.leb_gt; lia).
      replace (2 <? mp + 4)%Z with true by (symmetry; apply Z.ltb_lt; lia).
      rewrite Z.add_0_r.
      replace ((yoe + era * 400) `div` 400)%Z with era by (Z.div_mod_to_equations; lia).
      replace ((yoe + era * 400) `mod` 400)%Z with yoe by (Z.div_mod_to_equations; lia).
      replace (mp + 4 - 3)%Z with (mp + 1)%Z by lia. lia.
  - subst m. replace (mp - 9 <=? 2)%Z with true in Hy by (symmetry; apply Z.leb_le; lia).
    subst y.
    replace ((mp - 9) `div` 12)%Z with 0%Z by (Z.div_mod_to_equations; lia).
    replace ((mp - 9) `mod` 12 + 1)%Z with (mp - 8)%Z by (Z.div_mod_to_equations; lia).
    rewrite Z.add_0_r.
    destruct (Z.eq_dec mp 10%Z) as [-> | Hne].
    + (* January *)
      change (10 - 8 <=? 2)%Z with true. change (2 <? 10 - 8)%Z with false. cbv iota.
      replace (yoe + era * 400 + 1 - 1)%Z with (yoe + era * 400)%Z by lia.
      replace ((yoe + era * 400) `div` 400)%Z with era by (Z.div_mod_to_equations; lia).
      replace ((yoe + era * 400) `mod` 400)%Z with yoe by (Z.div_mod_to_equations; lia).
      change ((153 * (10 + 1) + 2) `div` 5)%Z with 337%Z in Hin.
      change ((153 * (10 - 8 + 9) + 2) `div` 5)%Z with 337%Z. lia.
    + (* February *)
      assert (mp = 11%Z) as -> by lia.
      change (11 - 8 <=? 2)%Z with false. change (2 <? 11 - 8)%Z with true. cbv iota.
      change ((153 * (11 - 8 - 3) + 2) `div` 5)%Z with 0%Z.
      destruct (Z.eq_dec yoe 399%Z) as [-> | Hy399].
      * replace ((399 + era * 400 + 1) `div` 400)%Z with (era + 1)%Z
          by (Z.div_mod_to_equations; lia).
        replace ((399 + era * 400 + 1) `mod` 400)%Z with 0%Z
          by (Z.div_mod_to_equations; lia).
        Z.div_mod_to_equations. lia.
      * replace ((yoe + era * 400 + 1) `div` 400)%Z with era
          by (Z.div_mod_to_equations; lia).
        replace ((yoe + era * 400 + 1) `mod` 400)%Z with (yoe + 1)%Z
          by (Z.div_mod_to_equations; lia).
        specialize (Hyn ltac:(lia)). Z.div_mod_to_equations. lia.
Qed.

(** The other round trip: a day number in the month with index [k]
    converts to that month. *)
Lemma civilFromDays_in_month (k z : Z) :
  (firstOfMonth k ≤ z < firstOfMonth (k + 1))%Z →
  JSDate.civilFromDays z = (k `div` 12, k `mod` 12 + 1, z - firstOfMonth k + 1)%Z.
Proof.
  intros Hk. pose proof (civil_in_month z) as H.
  destruct (JSDate.civilFromDays z) as [[y m] d].
  destruct H as (Hm & Hin & ->).
  assert (k = 12 * y + m - 1)%Z as ->.
  { apply (month_unique _ _ z Hk).
    by replace (12 * y + m - 1 + 1)%Z with (12 * y + m)%Z by lia. }
  replace ((12 * y + m - 1) `div` 12)%Z with y by (Z.div_mod_to_equations; lia).
  by replace ((12 * y + m - 1) `mod` 12 + 1)%Z with m by (Z.div_mod_to_equations; lia).
Qed.

End CalendarMonths.

(* ===================================================================== *)
(** ** Lengths of the months                                             *)
(* ===================================================================== *)

Section MonthLengths.

Import Gregorian BudgetTracker.

Implicit Types (env : Env).

(** The local day number of a time value. *)
Lemma local_day_make (tz day : Z) :
  ((day * JSDate.msPerDay - tz + tz) `div` JSDate.msPerDay = day)%Z.
Proof. replace (day * JSDate.msPerDay - tz + tz)%Z with (day * JSDate.msPerDay)%Z by lia.
  by apply Z.div_mul. Qed.

(** [new Date(year, month, 1)] is the first of a month, in every zone. *)
Lemma localFields_first (tz k : Z) :
  JSDate.localFields tz (JSDate.Valid (firstOfMonth k * JSDate.msPerDay - tz))
  = Some (k `div` 12, k `mod` 12 + 1, 1)%Z.
Proof.
  unfold JSDate.localFields. rewrite local_day_make.
  pose proof (firstOfMonth_succ k) as Hs.
  pose proof (daysIn_bounds (k `div` 12) (k `mod` 12 + 1)) as Hb.
  rewrite (civilFromDays_in_month k) by lia. do 2 f_equal. lia.
Qed.

(** [new Date(year, month + 1, 0)] is the last day of the month. *)
Lemma localFields_last (tz k : Z) :
  JSDate.localFields tz
    (JSDate.Valid ((firstOfMonth (k + 1) - 1) * JSDate.msPerDay - tz))
  = Some (k `div` 12, k `mod` 12 + 1, daysIn (k `div` 12) (k `mod` 12 + 1))%Z.
Proof.
  unfold JSDate.localFields. rewrite local_day_make.
  pose proof (firstOfMonth_succ k) as Hs.
  pose proof (daysIn_bounds (k `div` 12) (k `mod` 12 + 1)) as Hb.
  rewrite (civilFromDays_in_month k) by lia. do 2 f_equal. lia.
Qed.

Lemma daysInMonth_index env (year month : Z) :
  ¬ (0 ≤ year ≤ 99)%Z →
  daysInMonth env (Some year) (Some month)
  = Some (daysIn ((12 * year + month) `div` 12) ((12 * year + month) `mod` 12 + 1)).
Proof.
  intros Hy. unfold daysInMonth, JSDate.make. cbn [fmap option_fmap option_map].
  replace ((0 <=? year)%Z && (year <=? 99)%Z) with false by (symmetry; lia).
  rewrite makeDay_index.
  replace (12 * year + Z.succ month)%Z with (12 * year + month + 1)%Z by lia.
  replace (firstOfMonth (12 * year + month + 1) + 0 - 1)%Z
    with (firstOfMonth (12 * year + month + 1) - 1)%Z by lia.
  unfold JSDate.getDate. by rewrite localFields_last.
Qed.

Lemma daysInMonth_two_digit env (year month : Z) :
  (0 ≤ year ≤ 99)%Z →
  daysInMonth env (Some year) (Some month)
  = daysInMonth env (Some (1900 + year)%Z) (Some month).
Proof.
  intros Hy. unfold daysInMonth, JSDate.make. cbn [fmap option_fmap option_map].
  replace ((0 <=? year)%Z && (year <=? 99)%Z) with true by (symmetry; lia).
  by replace ((0 <=? 1900 + year)%Z && (1900 + year <=? 99)%Z) with false
    by (symmetry; lia).
Qed.

(** X1.  [new Date(year, month + 1, 0).getDate()] is the length of the month
    in the Gregorian calendar, February of a leap year having 29 days; a
    year from 0 to 99 is read as 1900 + year. *)
Theorem daysInMonth_gregorian env (year month : Z) :
  (0 ≤ month ≤ 11)%Z →
  daysInMonth env (Some year) (Some month)
  = Some (daysIn (if (0 <=? year)%Z && (year <=? 99)%Z then 1900 + year else year)%Z
            (month + 1)).
Proof.
  intros Hm.
  destruct ((0 <=? year)%Z && (year <=? 99)%Z) eqn:E.
  - rewrite daysInMonth_two_digit by lia. rewrite daysInMonth_index by lia.
    replace ((12 * (1900 + year) + month) `div` 12)%Z with (1900 + year)%Z
      by (Z.div_mod_to_equations; lia).
    by replace ((12 * (1900 + year) + month) `mod` 12)%Z with month
      by (Z.div_mod_to_equations; lia).
  - rewrite daysInMonth_index by lia.
    replace ((12 * year + month) `div` 12)%Z with year
      by (Z.div_mod_to_equations; lia).
    by replace ((12 * year + month) `mod` 12)%Z with month
      by (Z.div_mod_to_equations; lia).
Qed.

Lemma daysInMonth_gregorian_witness :
  daysInMonth Sample.env (Some 2024%Z) (Some 1%Z) = Some 29%Z.
Proof.
  apply (daysInMonth_gregorian Sample.env 2024 1). lia.
Defined.

(** Today's day of the month is at most the length of today's month. *)
Lemma today_in_month (tz time : Z) :
  ∃ y m d,
    JSDate.localFields tz (JSDate.Valid time) = Some (y, m, d)
    ∧ (1 ≤ m ≤ 12)%Z ∧ (1 ≤ d ≤ daysIn y m)%Z
    ∧ ((time + tz) `div` JSDate.msPerDay = firstOfMonth (12 * y + m - 1) + d - 1)%Z.
Proof.
  unfold JSDate.localFields.
  pose proof (civil_in_month ((time + tz) `div` JSDate.msPerDay)) as H.
  destruct (JSDate.civilFromDays _) as [[y m] d].
  destruct H as (Hm & Hin & Hd).
  pose proof (month_length y m Hm).
  exists y, m, d. split; [done |]. split; [done |]. lia.
Qed.

Lemma daysInMonth_current env (y m : Z) :
  ¬ (0 ≤ y ≤ 99)%Z → (1 ≤ m ≤ 12)%Z →
  daysInMonth env (Some y) (Some (m - 1)%Z) = Some (daysIn y m).
Proof.
  intros Hy Hm. rewrite daysInMonth_index by done.
  replace ((12 * y + (m - 1)) `div` 12)%Z with y by (Z.div_mod_to_equations; lia).
  by replace ((12 * y + (m - 1)) `mod` 12 + 1)%Z with m by (Z.div_mod_to_equations; lia).
Qed.

End MonthLengths.

(* ===================================================================== *)
(** ** Budget: estimates, bars and expenses                              *)
(* ===================================================================== *)

Section BudgetMore.

Import Gregorian BudgetTracker Reference.

Implicit Types (env : Env) (currentMonth : string).

Lemma isCurrentMonth_now env (year month : option Z) :
  isCurrentMonth env year month = true →
  ∃ y m d,
    JSDate.localFields (tz env) (JSDate.Valid (now env)) = Some (y, m, d)
    ∧ year = Some y ∧ month = Some (m - 1)%Z
    ∧ (1 ≤ m ≤ 12)%Z ∧ (1 ≤ d ≤ daysIn y m)%Z.
Proof.
  unfold isCurrentMonth. intros [Hy Hm]%andb_true_iff.
  destruct (today_in_month (tz env) (now env)) as (y & m & d & Hf & Hm1 & Hd & _).
  exists y, m, d. unfold JSDate.getFullYear, JSDate.getMonth in *.
  rewrite Hf in Hy, Hm. simpl in Hy, Hm.
  apply strictEq_Some in Hy as (? & -> & [= <-]).
  apply strictEq_Some in Hm as (? & -> & [= <-]).
  done.
Qed.



(** X2.  The month-end estimate of an amount that is not negative is never
    below the amount, and on the last day of the month it is the amount. *)
Theorem calculateEstimatedTotal_not_below env currentMonth (y : Z) (q : Q) :
  JSDate.getFullYear (tz env) (JSDate.Valid (now env)) = Some y →
  ¬ (0 ≤ y ≤ 99)%Z →
  (0 <= q)%Q →
  ∃ r, calculateEstimatedTotal env currentMonth (Fin q) = Fin r
       ∧ (q <= r)%Q
       ∧ (JSDate.getDate (tz env) (JSDate.Valid (now env))
          = daysInMonth env (selectedYear currentMonth) (selectedMonth currentMonth) →
          (r == q)%Q).
Proof.
  intros Hyear Hy Hq. unfold calculateEstimatedTotal.
  destruct (isCurrentMonth _ _ _) eqn:Hcur; simpl negb; cbv iota.
  - apply isCurrentMonth_now in Hcur as (y' & m & d & Hf & -> & -> & Hm & Hd).
    unfold JSDate.getFullYear in Hyear. rewrite Hf in Hyear. injection Hyear as ->.
    rewrite daysInMonth_current by done.
    unfold JSDate.getDate. rewrite Hf. cbn [mbind option_bind].
    rewrite (div_by_days q d) by lia. simpl.
    eexists. split; [reflexivity |].
    assert (¬ (inject_Z d == 0)%Q) as Hd0.
    { change 0%Q with (inject_Z 0). rewrite inject_Z_injective. lia. }
    assert (0 < inject_Z d)%Q as Hdpos.
    { change 0%Q with (inject_Z 0). rewrite <- Zlt_Qlt. lia. }
    assert (0 <= inject_Z (daysIn y m) - inject_Z d)%Q as Hrest.
    { unfold Qminus. rewrite <- inject_Z_opp, <- inject_Z_plus.
      change 0%Q with (inject_Z 0). rewrite <- Zle_Qle. lia. }
    rewrite !Qred_correct. split.
    + rewrite <- (Qplus_0_r q) at 1. apply Qplus_le_r.
      apply Qmult_le_0_compat; [| done].
      apply Qle_shift_div_l; [done |]. by rewrite Qmult_0_l.
    + intros [= ->]. field. done.
  - exists q. split; [done |]. split; [apply Qle_refl | done].
Qed.

Lemma calculateEstimatedTotal_not_below_witness :
  ∃ r, calculateEstimatedTotal Sample.tenthOfMarch "2024-03" (Fin 100) = Fin r
       ∧ (100 <= r)%Q.
Proof.
  destruct (calculateEstimatedTotal_not_below Sample.tenthOfMarch "2024-03" 2024 100
              eq_refl ltac:(lia) ltac:(discriminate)) as (r & Hr & Hle & _).
  exists r. split; [exact Hr | exact Hle].
Defined.

(** X3.  The month-end estimate is the daily average times the number of days
    of the selected month. *)
Theorem estimate_is_average_times_days env currentMonth (q : Q) :
  Spec.wellFormedMonth currentMonth = true →
  ∃ a r n,
    calculateDailyAverage env currentMonth (Fin q) = Fin a
    ∧ calculateEstimatedTotal env currentMonth (Fin q) = Fin r
    ∧ daysInMonth env (selectedYear currentMonth) (selectedMonth currentMonth) = Some n
    ∧ (r == a * inject_Z n)%Q.
Proof.
  intros Hwf.
  destruct (wellFormedMonth_parsed currentMonth Hwf) as (year & month & Hy & Hm).
  destruct (getDate_valid (tz env) (now env)) as (d & Hd & Hd1 & _).
  destruct (daysInMonth_valid env year month) as (n & Hn & Hn1 & _).
  unfold calculateDailyAverage, calculateEstimatedTotal, daysPassed.
  rewrite Hy, Hm, Hn, Hd.
  assert (∀ z, (1 ≤ z)%Z → ¬ (inject_Z z == 0)%Q) as Hnz.
  { intros z Hz. change 0%Q with (inject_Z 0). rewrite inject_Z_injective. lia. }
  destruct (isCurrentMonth env (Some year) (Some month)); simpl negb; cbv iota.
  - rewrite (div_by_days q d) by done. simpl.
    eexists _, _, n. split; [reflexivity |]. split; [reflexivity |]. split; [done |].
    rewrite !Qred_correct. field. by apply Hnz.
  - rewrite (div_by_days q n) by done.
    eexists _, q, n. split; [reflexivity |]. split; [reflexivity |]. split; [done |].
    rewrite Qred_correct. field. by apply Hnz.
Qed.

Lemma estimate_is_average_times_days_witness :
  ∃ a r n,
    calculateDailyAverage Sample.tenthOfMarch "2024-03" (Fin 100) = Fin a
    ∧ calculateEstimatedTotal Sample.tenthOfMarch "2024-03" (Fin 100) = Fin r
    ∧ daysInMonth Sample.tenthOfMarch (selectedYear "2024-03") (selectedMonth "2024-03")
      = Some n
    ∧ (r == a * inject_Z n)%Q.
Proof.
  exact (estimate_is_average_times_days Sample.tenthOfMarch "2024-03" 100 eq_refl).
Defined.

(** *** The progress bars *)

Lemma percentage_capped (amount monthlyBudget : number) :
  JS.gtb (percentage amount monthlyBudget) (Fin 100) = false
  ∧ JS.isNaN (percentage amount monthlyBudget) = false.
Proof.
  unfold percentage.
  destruct (JS.mul (JS.div amount monthlyBudget) (Fin 100)) as [x | | |];
    [| by vm_compute .. ].
  unfold JS.min2, JS.or, JS.gtb, JS.ltb.
  destruct (Qle_bool x 100) eqn:E; simpl.
  - destruct (JS.signQ x); simpl; by rewrite ?E.
  - done.
Qed.

(** X4.  Both percentages of the budget summary are numbers that are at most
    100, whatever the amounts and the budget: neither bar is ever drawn in
    the [over-budget] style. *)
Theorem budget_bars_capped env currentMonth (monthlyBudget totalExpenses mealCosts : number) :
  let figures := summaryFigures env currentMonth monthlyBudget totalExpenses mealCosts in
  spentOverBudget figures = false
  ∧ projectedOverBudget figures = false
  ∧ JS.isNaN (spentPercentage figures) = false
  ∧ JS.isNaN (projectedPercentage figures) = false
  ∧ percentage (Fin 150) (Fin 100) = Fin 100
  ∧ percentage (Fin 0) (Fin 0) = Fin 0.
Proof.
  simpl. repeat split; try apply percentage_capped; reflexivity.
Qed.

(** *** Manual expenses *)

Lemma foldl_add_NaN {A : Type} (f : A → number) (l : list A) :
  foldl (λ total x, JS.add total (f x)) NaN l = NaN.
Proof. induction l as [| x l IH]; simpl; [done | apply IH]. Qed.

Lemma add_NaN_r (x : number) : JS.add x NaN = NaN.
Proof. by destruct x. Qed.

Lemma calculateMonthlyExpenses_app (l1 l2 : list Expense.t) currentMonth :
  calculateMonthlyExpenses (l1 ++ l2) currentMonth
  = foldl (λ total expense, JS.add total (JS.parseFloat (Expense.amount expense)))
      (calculateMonthlyExpenses l1 currentMonth)
      (filter (λ expense, JS.startsWith (Expense.date expense) currentMonth = true) l2).
Proof. unfold calculateMonthlyExpenses. by rewrite filter_app, foldl_app. Qed.

(** X5.  [calculateMonthlyExpenses]: an expense whose date does not start with
    the selected month changes nothing; when the amounts of the month's
    expenses are finite numbers the total is their sum; one expense of the
    month whose amount is missing or [NaN] makes the total [NaN]. *)
Theorem calculateMonthlyExpenses_sum (expenses : list Expense.t) currentMonth :
  (∀ before after expense,
     JS.startsWith (Expense.date expense) currentMonth = false →
     calculateMonthlyExpenses (before ++ expense :: after) currentMonth
     = calculateMonthlyExpenses (before ++ after) currentMonth)
  ∧ (Forall (λ expense,
               JS.startsWith (Expense.date expense) currentMonth = true →
               ∃ q, Expense.amount expense = Some (Fin q)) expenses →
     ∃ r, calculateMonthlyExpenses expenses currentMonth = Fin r
          ∧ (r == foldr (λ expense acc, share currentMonth expense + acc) 0 expenses)%Q)
  ∧ (∀ expense,
       expense ∈ expenses →
       JS.startsWith (Expense.date expense) currentMonth = true →
       JS.parseFloat (Expense.amount expense) = NaN →
       calculateMonthlyExpenses expenses currentMonth = NaN).
Proof.
  split; [| split].
  - intros before after expense Hother.
    rewrite !calculateMonthlyExpenses_app.
    rewrite filter_cons_False; [done |]. by rewrite Hother.
  - intros Hfin. unfold calculateMonthlyExpenses.
    assert (∀ t T, (t == T)%Q →
      ∃ r, foldl (λ total expense, JS.add total (JS.parseFloat (Expense.amount expense)))
             (Fin t)
             (filter (λ expense, JS.startsWith (Expense.date expense) currentMonth = true)
                     expenses) = Fin r
           ∧ (r == T + foldr (λ expense acc, share currentMonth expense + acc) 0 expenses)%Q)
      as H.
    { induction Hfin as [| e l He _ IH]; intros t T HT.
      - exists t. split; [done |]. simpl. rewrite HT. ring.
      - simpl foldr.
        destruct (JS.startsWith (Expense.date e) currentMonth) eqn:E.
        + rewrite filter_cons_True by done. destruct (He eq_refl) as [q Hq].
          simpl. unfold share at 1. rewrite E, Hq. simpl.
          destruct (IH (Qred (t + q)) (T + q)%Q) as (r & -> & Hr).
          { by rewrite Qred_correct, HT. }
          exists r. split; [done |]. rewrite Hr. ring.
        + rewrite filter_cons_False by (by rewrite E). unfold share at 1. rewrite E.
          destruct (IH t T HT) as (r & -> & Hr).
          exists r. split; [done |]. rewrite Hr. ring. }
    destruct (H 0%Q 0%Q (Qeq_refl 0)) as (r & Hr & HT).
    exists r. split; [done |]. rewrite HT. ring.
  - intros expense Hin Hmonth Hnan.
    apply list_elem_of_split in Hin as (l1 & l2 & ->).
    rewrite calculateMonthlyExpenses_app, filter_cons_True by done. simpl.
    by rewrite Hnan, add_NaN_r, foldl_add_NaN.
Qed.

(** X6.  An expense that [addExpense] stores counts for the month its date
    starts with and for no other: the month's total grows by the amount as
    storage keeps it, which is [NaN] when no finite amount was given.  When
    the write is refused the expenses are what they were. *)
Theorem addExpense_monthly_total (accepted : bool) (now : Z) (st : DataStore.State)
    (date description : string) (amount : option number) currentMonth :
  let added := DataStore.addExpense accepted now st date description amount in
  let before := calculateMonthlyExpenses (DataStore.getExpenses st) currentMonth in
  calculateMonthlyExpenses (DataStore.getExpenses added.2) currentMonth
  = if accepted && JS.startsWith date currentMonth
    then JS.add before (JS.parseFloat (JSON.roundTrip amount))
    else before.
Proof.
  intros added before. subst added before. destruct accepted; [| done].
  unfold DataStore.addExpense, DataStore.saveData. cbn [snd andb].
  unfold DataStore.getExpenses at 1. cbn [DataStore.EXPENSES default from_option id].
  rewrite calculateMonthlyExpenses_app. unfold JSON.expense. cbn [Expense.date Expense.id
    Expense.description Expense.amount].
  destruct (JS.startsWith date currentMonth) eqn:E.
  - rewrite filter_cons_True by done. by rewrite filter_nil.
  - rewrite filter_cons_False by (cbn [Expense.date]; by rewrite E). by rewrite filter_nil.
Qed.

End BudgetMore.

(* ===================================================================== *)
(** ** Reports: shape of the data sets                                   *)
(* ===================================================================== *)

Section ReportsMore.

Import Gregorian NutritionCalculator Shape.

Implicit Types (env : Env) (foodDatabase : list FoodItem.t)
               (people members : list Person.t) (report : Report.t).

(** *** The arrays of a report have the length of its labels *)

Lemma aligned_push report (consumed planned : Metrics) (label : string) :
  aligned report →
  aligned (Report.mk (push (Report.labels report) label)
             (pushMetrics (Report.datasets report) consumed planned)).
Proof.
  unfold aligned, Spec.metricArrays. intros H.
  repeat match goal with
         | H : Forall _ (_ :: _) |- _ => apply Forall_cons in H as [? H]
         end.
  repeat (apply Forall_cons; split); [.. | by apply Forall_nil];
    simpl; unfold push; rewrite !length_app; simpl; congruence.
Qed.

Lemma processDate_aligned env foodDatabase (familyMemberId : string)
    (familyMembers : option (list Person.t)) report report' (date : JSDate.t) :
  aligned report →
  processDate env foodDatabase familyMemberId familyMembers report date = Some report' →
  aligned report'.
Proof.
  intros Hal. unfold processDate.
  destruct (JSDate.toISODate date) as [dateString |]; simpl; [| done].
  destruct (String.eqb familyMemberId "all").
  - destruct familyMembers as [members |]; simpl; [| done].
    destruct (foldl _ _ members) as [totalConsumed totalPlanned].
    intros [= <-]. by apply aligned_push.
  - intros [= <-]. by apply aligned_push.
Qed.

Lemma forEachDate_aligned env foodDatabase (familyMemberId : string)
    (familyMembers : option (list Person.t)) (dates : list JSDate.t) report report' :
  aligned report →
  forEachDate env foodDatabase familyMemberId familyMembers dates report = Some report' →
  aligned report'.
Proof.
  revert report. induction dates as [| date dates IH]; intros report Hal; simpl.
  - by intros [= <-].
  - destruct (processDate _ _ _ _ report date) as [report1 |] eqn:E; simpl; [| done].
    apply IH. by eapply processDate_aligned.
Qed.

Lemma aligned_empty : aligned emptyReport.
Proof. unfold aligned, Spec.metricArrays. by repeat constructor. Qed.

(** X7.  Whatever the arguments, every planned and consumed array of the
    report [generateNutritionReport] returns has exactly one entry for
    each label. *)
Theorem report_arrays_aligned env (reportType familyMemberId : string)
    (startDate : JSDate.t) (familyMembers : option (list Person.t)) :
  Forall (λ array : Report.t → list number,
            length (array (generateNutritionReport env reportType familyMemberId
                             startDate familyMembers))
            = length (Report.labels
                        (generateNutritionReport env reportType familyMemberId
                           startDate familyMembers)))
         Spec.metricArrays.
Proof.
  unfold generateNutritionReport, generateNutritionReport_try.
  destruct (forEachDate _ _ _ _ _ emptyReport) as [report |] eqn:E; simpl.
  - by apply (forEachDate_aligned _ _ _ _ _ _ _ aligned_empty E).
  - apply aligned_empty.
Qed.


(** *** A member without stored meals *)

Lemma calculateDailyNutrition_emptyDay foodDatabase :
  calculateDailyNutrition (Some DataStore.emptyDay) foodDatabase = zeroTotals.
Proof. vm_compute. reflexivity. Qed.

Lemma metricsOf_zeroTotals : metricsOf zeroTotals = zeroMetrics.
Proof. reflexivity. Qed.

Lemma replicate_push (n : nat) (x : number) (l : list number) :
  l = replicate n x → push l x = replicate (n + 1) x.
Proof.
  intros ->. unfold push. rewrite Nat.add_comm. simpl.
  induction n as [| n IH]; simpl; [done | by rewrite IH].
Qed.

Lemma allZero_push report (label : string) :
  allZero report →
  allZero (Report.mk (push (Report.labels report) label)
             (pushMetrics (Report.datasets report) zeroMetrics zeroMetrics)).
Proof.
  unfold allZero, Spec.metricArrays. intros H.
  repeat match goal with
         | H : Forall _ (_ :: _) |- _ => apply Forall_cons in H as [? H]
         end.
  repeat (apply Forall_cons; split); [.. | by apply Forall_nil];
    simpl; unfold push at 2; rewrite length_app; simpl; by apply replicate_push.
Qed.

Lemma forEachDate_allZero env foodDatabase (familyMemberId : string)
    (familyMembers : option (list Person.t)) (dates : list JSDate.t) report report' :
  String.eqb familyMemberId "all" = false →
  (∀ date, DataStore.getMeals (storage env) date familyMemberId = DataStore.emptyDay) →
  (∀ date, DataStore.getMealPlans (storage env) date familyMemberId = DataStore.emptyDay) →
  allZero report →
  forEachDate env foodDatabase familyMemberId familyMembers dates report = Some report' →
  allZero report'.
Proof.
  intros Hid Hmeals Hplans. revert report.
  induction dates as [| date dates IH]; intros report Hz; simpl.
  - by intros [= <-].
  - unfold processDate at 1.
    destruct (JSDate.toISODate date) as [dateString |]; simpl; [| done].
    rewrite Hid. simpl. apply IH.
    unfold consumedOf, plannedOf. rewrite Hmeals, Hplans.
    rewrite calculateDailyNutrition_emptyDay, metricsOf_zeroTotals.
    by apply allZero_push.
Qed.

(** X8.  For a member who has neither meals nor plans in storage, on any date,
    every array of every report holds 0 for each label. *)
Theorem report_without_meals_is_zero env (reportType familyMemberId : string)
    (startDate : JSDate.t) (familyMembers : option (list Person.t)) :
  familyMemberId ≠ "all" →
  (∀ date, default ∅ (DataStore.MEALS (storage env))
             !! (date +:+ "_" +:+ familyMemberId) = None) →
  (∀ date, default ∅ (DataStore.MEAL_PLANS (storage env))
             !! (date +:+ "_" +:+ familyMemberId) = None) →
  Forall (λ array : Report.t → list number,
            array (generateNutritionReport env reportType familyMemberId
                     startDate familyMembers)
            = replicate
                (length (Report.labels
                           (generateNutritionReport env reportType familyMemberId
                              startDate familyMembers)))
                (Fin 0))
         Spec.metricArrays.
Proof.
  intros Hid Hmeals Hplans.
  assert (allZero emptyReport) as H0.
  { unfold allZero, Spec.metricArrays. by repeat constructor. }
  unfold generateNutritionReport, generateNutritionReport_try.
  destruct (forEachDate _ _ _ _ _ emptyReport) as [report |] eqn:E; simpl; [| done].
  apply (forEachDate_allZero _ _ _ _ _ _ _ ltac:(by apply String.eqb_neq)) in E; try done.
  - intros date. unfold DataStore.getMeals. by rewrite Hmeals.
  - intros date. unfold DataStore.getMealPlans. by rewrite Hplans.
Qed.

Lemma report_without_meals_is_zero_witness :
  Forall (λ array : Report.t → list number,
            array (generateNutritionReport Sample.fresh "weekly" "7"
                     (JSDate.Valid Sample.noon) None)
            = replicate
                (length (Report.labels
                           (generateNutritionReport Sample.fresh "weekly" "7"
                              (JSDate.Valid Sample.noon) None)))
                (Fin 0))
         Spec.metricArrays.
Proof.
  apply (report_without_meals_is_zero Sample.fresh "weekly" "7"
           (JSDate.Valid Sample.noon) None).
  - discriminate.
  - intros date. reflexivity.
  - intros date. reflexivity.
Defined.

End ReportsMore.

(* ===================================================================== *)
(** ** Reports: labels                                                   *)
(* ===================================================================== *)

Section MonthlyReports.

Import Gregorian NutritionCalculator.

Implicit Types (env : Env) (foodDatabase : list FoodItem.t)
               (people members : list Person.t) (report : Report.t).

Lemma firstOfMonth_civil (y m : Z) :
  (1 ≤ m ≤ 12)%Z → firstOfMonth (12 * y + m - 1) = JSDate.daysFromCivil y m 1.
Proof.
  intros Hm. unfold firstOfMonth, JSDate.makeDay.
  replace ((12 * y + m - 1) `div` 12)%Z with y by (Z.div_mod_to_equations; lia).
  replace ((12 * y + m - 1) `mod` 12 + 1)%Z with m by (Z.div_mod_to_equations; lia).
  rewrite Z.add_0_l. lia.
Qed.

(** The dates of a monthly report: the first days of the local month the
    start date lies in, from local midnight of the 1st, that are not after
    now. *)
Lemma reportDates_monthly env (start y m d : Z) :
  JSDate.localFields (tz env) (JSDate.Valid start) = Some (y, m, d) →
  ¬ (0 ≤ y ≤ 99)%Z →
  reportDates env "monthly" (JSDate.Valid start)
  = (λ i, JSDate.Valid (JSDate.daysFromCivil y m 1 * JSDate.msPerDay - tz env
                        + i * JSDate.msPerDay))
      <$> seqZ 0 (Spec.datesUpTo (daysIn y m)
                    (JSDate.daysFromCivil y m 1 * JSDate.msPerDay - tz env) (now env)).
Proof.
  intros Hf Hy.
  assert (1 ≤ m ≤ 12)%Z as Hm.
  { destruct (today_in_month (tz env) start) as (y' & m' & d' & Hf' & Hm & _).
    rewrite Hf in Hf'. by injection Hf' as <- <- <-. }
  unfold reportDates. simpl String.eqb. cbv iota.
  unfold JSDate.getFullYear, JSDate.getMonth. rewrite Hf. cbn [mbind option_bind].
  pose proof (daysInMonth_current env y m Hy Hm) as Hn.
  unfold BudgetTracker.daysInMonth in Hn.
  cbn [fmap option_fmap option_map] in Hn |- *.
  replace (Z.succ (m - 1)) with (m - 1 + 1)%Z by lia.
  replace (Z.succ (m - 1)) with (m - 1 + 1)%Z in Hn by lia.
  rewrite Hn. cbn [default from_option id].
  unfold JSDate.make.
  replace ((0 <=? y)%Z && (y <=? 99)%Z) with false by (symmetry; lia).
  rewrite makeDay_index.
  replace (12 * y + (m - 1))%Z with (12 * y + m - 1)%Z by lia.
  rewrite firstOfMonth_civil by done.
  replace (JSDate.daysFromCivil y m 1 + 1 - 1)%Z with (JSDate.daysFromCivil y m 1) by lia.
  pose proof (daysIn_bounds y m) as Hb.
  pose proof (truncated_range env
                (JSDate.daysFromCivil y m 1 * JSDate.msPerDay - tz env)
                (now env) (Z.to_nat (daysIn y m))) as H.
  rewrite Z2Nat.id in H by lia. rewrite H.
  apply list_fmap_ext. intros _ i _. apply dayAfter_valid.
Qed.

Lemma labels_monthly env (familyMemberId : string) members (start y m d : Z) :
  JSDate.localFields (tz env) (JSDate.Valid start) = Some (y, m, d) →
  ¬ (0 ≤ y ≤ 99)%Z →
  Report.labels
    (generateNutritionReport env "monthly" familyMemberId (JSDate.Valid start)
       (Some members))
  = (λ i, JSDate.isoDate (JSDate.daysFromCivil y m 1
                          + (- tz env) `div` JSDate.msPerDay + i))
      <$> seqZ 0 (Spec.datesUpTo (daysIn y m)
                    (JSDate.daysFromCivil y m 1 * JSDate.msPerDay - tz env) (now env)).
Proof.
  intros Hf Hy.
  unfold generateNutritionReport, generateNutritionReport_try.
  rewrite (reportDates_monthly env start y m d Hf Hy).
  rewrite (list_fmap_compose
             (λ i, (JSDate.daysFromCivil y m 1 * JSDate.msPerDay - tz env
                    + i * JSDate.msPerDay)%Z) JSDate.Valid).
  edestruct forEachDate_labels as (report' & -> & Hlabels). simpl.
  rewrite Hlabels. simpl.
  rewrite <- list_fmap_compose. apply list_fmap_ext. intros _ i _. simpl.
  f_equal. unfold JSDate.utcDay.
  replace (JSDate.daysFromCivil y m 1 * JSDate.msPerDay - tz env + i * JSDate.msPerDay)%Z
    with (- tz env + (JSDate.daysFromCivil y m 1 + i) * JSDate.msPerDay)%Z by lia.
  rewrite Z.div_add by done. lia.
Qed.

(** Under one fixed offset the dates of a monthly report are the local
    midnights of the days of the start date's month, from the 1st to the
    last one that is not after now, and the labels are the UTC dates of
    those midnights. *)
Lemma monthly_labels env (familyMemberId : string) members (start y m d : Z) :
  JSDate.localFields (tz env) (JSDate.Valid start) = Some (y, m, d) →
  ¬ (0 ≤ y ≤ 99)%Z →
  let first := JSDate.daysFromCivil y m 1 in
  let midnight := (first * JSDate.msPerDay - tz env)%Z in
  let n := daysIn y m in
  let k := Spec.datesUpTo n midnight (now env) in
  reportDates env "monthly" (JSDate.Valid start)
  = (λ i, JSDate.Valid (midnight + i * JSDate.msPerDay)) <$> seqZ 0 k
  ∧ Report.labels
      (generateNutritionReport env "monthly" familyMemberId (JSDate.Valid start)
         (Some members))
    = (λ i, JSDate.isoDate (first + (- tz env) `div` JSDate.msPerDay + i)) <$> seqZ 0 k
  ∧ (0 ≤ k ≤ n)%Z ∧ (28 ≤ n ≤ 31)%Z
  ∧ ((midnight + (n - 1) * JSDate.msPerDay ≤ now env)%Z → k = n)
  ∧ ((0 < tz env ≤ JSDate.msPerDay)%Z →
     ((- tz env) `div` JSDate.msPerDay = -1)%Z).
Proof.
  intros Hf Hy first midnight n k.
  pose proof (daysIn_bounds y m) as Hb. fold n in Hb.
  split; [by apply (reportDates_monthly env start y m d) |].
  split; [| split; [| split; [| split]]].
  - by apply (labels_monthly env familyMemberId members start y m d).
  - subst k. unfold Spec.datesUpTo. lia.
  - done.
  - subst k. unfold Spec.datesUpTo, JSDate.msPerDay. intros H.
    Z.div_mod_to_equations. lia.
  - unfold JSDate.msPerDay. intros H. Z.div_mod_to_equations. lia.
Qed.

Example labels_ahead_of_utc :
  Report.labels
    (generateNutritionReport Sample.tenthOfMarch "monthly" "7"
       (JSDate.Valid (now Sample.tenthOfMarch)) (Some []))
  = ["2024-03-01"; "2024-03-02"; "2024-03-03"; "2024-03-04"; "2024-03-05";
     "2024-03-06"; "2024-03-07"; "2024-03-08"; "2024-03-09"; "2024-03-10"]
  ∧ Report.labels
      (generateNutritionReport
         (mkEnv Sample.storage (now Sample.tenthOfMarch) 7200000) "monthly" "7"
         (JSDate.Valid (now Sample.tenthOfMarch)) (Some []))
    = ["2024-02-29"; "2024-03-01"; "2024-03-02"; "2024-03-03"; "2024-03-04";
       "2024-03-05"; "2024-03-06"; "2024-03-07"; "2024-03-08"; "2024-03-09"].
Proof. split; vm_compute; reflexivity. Qed.

(** *** The reports the application asks for *)

Lemma getDay_valid (tz time : Z) :
  ∃ w, JSDate.getDay tz (JSDate.Valid time) = Some w ∧ (0 ≤ w ≤ 6)%Z.
Proof.
  eexists. split; [reflexivity |]. Z.div_mod_to_equations. lia.
Qed.

Lemma reportStart_weekly (tz started w : Z) :
  JSDate.getDay tz (JSDate.Valid started) = Some w →
  App.reportStart tz started "weekly"
  = JSDate.Valid (started - w * JSDate.msPerDay).
Proof.
  intros Hw. unfold App.reportStart. simpl String.eqb. cbv iota. cbv zeta.
  rewrite Hw.
  pose proof (setDate_getDate tz started (- w)) as H.
  destruct (JSDate.getDate tz (JSDate.Valid started)) as [day |] eqn:Hd.
  - cbn [mbind option_bind fmap option_fmap option_map] in H |- *.
    replace (day - w)%Z with (day + - w)%Z by lia. rewrite H. f_equal. lia.
  - destruct (getDate_valid tz started) as (? & ? & _). congruence.
Qed.

Lemma reportStart_monthly (tz started y m d : Z) :
  JSDate.localFields tz (JSDate.Valid started) = Some (y, m, d) →
  ∃ time,
    App.reportStart tz started "monthly" = JSDate.Valid time
    ∧ JSDate.localFields tz (JSDate.Valid time) = Some (y, m, 1%Z).
Proof.
  intros Hf. unfold App.reportStart. simpl String.eqb. cbv iota. cbv zeta.
  pose proof (today_in_month tz started) as (y' & m' & d' & Hf' & Hm & Hd & Hday).
  rewrite Hf in Hf'. injection Hf' as <- <- <-.
  unfold JSDate.setDate. unfold JSDate.localFields in Hf. apply (inj Some) in Hf.
  rewrite Hf. eexists. split; [reflexivity |].
  unfold JSDate.localFields. f_equal.
  rewrite makeDay_index.
  replace (12 * y + (m - 1))%Z with (12 * y + m - 1)%Z by lia.
  pose proof (Z.mod_pos_bound (started + tz) JSDate.msPerDay ltac:(done)) as Hmod.
  set (local := (started + tz)%Z) in *.
  set (F := firstOfMonth (12 * y + m - 1)) in *.
  replace ((F + 1 - 1) * JSDate.msPerDay + local `mod` JSDate.msPerDay - tz + tz)%Z
    with (local `mod` JSDate.msPerDay + F * JSDate.msPerDay)%Z by lia.
  rewrite Z.div_add by done. rewrite Z.mod_div by done. rewrite Z.add_0_l.
  pose proof (firstOfMonth_succ (12 * y + m - 1)) as Hs.
  pose proof (daysIn_bounds ((12 * y + m - 1) `div` 12) ((12 * y + m - 1) `mod` 12 + 1)).
  subst F. rewrite (civilFromDays_in_month (12 * y + m - 1)) by lia.
  replace ((12 * y + m - 1) `div` 12)%Z with y by (Z.div_mod_to_equations; lia).
  replace ((12 * y + m - 1) `mod` 12 + 1)%Z with m by (Z.div_mod_to_equations; lia).
  do 2 f_equal. lia.
Qed.

(** Under one fixed offset, the labels of the reports [generateReport]
    produces when the two readings of the clock fall on the same local
    day. *)
Lemma generateReport_labels env (started y m d : Z) members (familyMemberId : string) :
  JSDate.localFields (tz env) (JSDate.Valid started) = Some (y, m, d) →
  ¬ (0 ≤ y ≤ 99)%Z →
  (started ≤ now env)%Z →
  ((now env + tz env) `div` JSDate.msPerDay
   = (started + tz env) `div` JSDate.msPerDay)%Z →
  ∃ w,
    JSDate.getDay (tz env) (JSDate.Valid started) = Some w ∧ (0 ≤ w ≤ 6)%Z
    ∧ Report.labels (App.generateReport env started members "daily" familyMemberId)
      = [JSDate.isoDate (JSDate.utcDay started)]
    ∧ Report.labels (App.generateReport env started members "weekly" familyMemberId)
      = (λ i, JSDate.isoDate (JSDate.utcDay started - w + i)) <$> seqZ 0 (w + 1)
    ∧ Report.labels (App.generateReport env started members "monthly" familyMemberId)
      = (λ i, JSDate.isoDate (JSDate.daysFromCivil y m 1
                              + (- tz env) `div` JSDate.msPerDay + i))
          <$> seqZ 0 d.
Proof.
  intros Hf Hy Hle Hday.
  destruct (getDay_valid (tz env) started) as (w & Hw & Hw6).
  exists w. split; [done |]. split; [done |]. split; [| split].
  - unfold App.generateReport, App.reportStart. simpl String.eqb. cbv iota. cbv zeta.
    unfold generateNutritionReport, generateNutritionReport_try, reportDates.
    simpl String.eqb. cbv iota.
    destruct (forEachDate_labels env (DataStore.getFoodDatabase (storage env))
                familyMemberId members [started] emptyReport) as (r & Hr & Hl).
    simpl fmap in Hr. rewrite Hr. simpl. by rewrite Hl.
  - unfold App.generateReport. rewrite (reportStart_weekly _ _ w Hw).
    unfold generateNutritionReport, generateNutritionReport_try.
    rewrite reportDates_weekly.
    assert (Spec.datesUpTo 7 (started - w * JSDate.msPerDay) (now env) = w + 1)%Z as ->.
    { unfold Spec.datesUpTo.
      assert ((now env - (started - w * JSDate.msPerDay)) `div` JSDate.msPerDay = w)%Z
        as ->; [| lia].
      revert Hday Hle. unfold JSDate.msPerDay. intros.
      Z.div_mod_to_equations. lia. }
    rewrite (list_fmap_compose
               (λ i, (started - w * JSDate.msPerDay + i * JSDate.msPerDay)%Z)
               JSDate.Valid).
    edestruct forEachDate_labels as (report' & -> & Hlabels). simpl.
    rewrite Hlabels. simpl.
    rewrite <- list_fmap_compose. apply list_fmap_ext. intros _ i _. simpl.
    f_equal. unfold JSDate.utcDay.
    replace (started - w * JSDate.msPerDay + i * JSDate.msPerDay)%Z
      with (started + (- w + i) * JSDate.msPerDay)%Z by lia.
    rewrite Z.div_add by done. lia.
  - unfold App.generateReport.
    destruct (reportStart_monthly (tz env) started y m d Hf) as (time & -> & Hf1).
    rewrite (labels_monthly env familyMemberId members time y m 1 Hf1 Hy).
    assert (Spec.datesUpTo (daysIn y m)
              (JSDate.daysFromCivil y m 1 * JSDate.msPerDay - tz env) (now env) = d) as ->;
      [| done].
    pose proof (today_in_month (tz env) started) as (y' & m' & d' & Hf' & Hm & Hd & Hloc).
    rewrite Hf in Hf'. injection Hf' as <- <- <-.
    rewrite firstOfMonth_civil in Hloc by done.
    unfold Spec.datesUpTo.
    assert ((now env - (JSDate.daysFromCivil y m 1 * JSDate.msPerDay - tz env))
              `div` JSDate.msPerDay = d - 1)%Z as ->; [| lia].
    replace (now env - (JSDate.daysFromCivil y m 1 * JSDate.msPerDay - tz env))%Z
      with (now env + tz env + - JSDate.daysFromCivil y m 1 * JSDate.msPerDay)%Z by lia.
    rewrite Z.div_add by done. lia.
Qed.

End MonthlyReports.

(* ===================================================================== *)
(** ** Energy needs and percentages                                      *)
(* ===================================================================== *)

Section EnergyMore.

Import NutritionCalculator.

Lemma inject_Z_nonzero (z : Z) : (z ≠ 0)%Z → ¬ (inject_Z z == 0)%Q.
Proof. intros Hz. change 0%Q with (inject_Z 0). by rewrite inject_Z_injective. Qed.

(** Rounding a number that is at least an integer gives at least that
    integer; rounding one that is at most an integer gives at most it. *)
Lemma nearestInteger_ge (z : Z) (q : Q) :
  (inject_Z z <= q)%Q → (z ≤ Spec.nearestInteger q)%Z.
Proof.
  intros H. unfold Spec.nearestInteger.
  rewrite <- (Qfloor_Z z). apply Qfloor_resp_le. lra.
Qed.

Lemma nearestInteger_le (z : Z) (q : Q) :
  (q <= inject_Z z)%Q → (Spec.nearestInteger q ≤ z)%Z.
Proof.
  intros H. unfold Spec.nearestInteger.
  pose proof (Qfloor_le (q + (1 # 2))) as Hf.
  destruct (Z_le_gt_dec (Qfloor (q + (1 # 2))) z) as [Hle | Hgt]; [done |].
  assert (inject_Z (z + 1) <= inject_Z (Qfloor (q + (1 # 2))))%Q as H1
    by (rewrite <- Zle_Qle; lia).
  rewrite inject_Z_plus in H1. change (inject_Z 1) with 1%Q in H1. lra.
Qed.

Lemma Math_round_mul (b m : Q) :
  JS.Math_round (JS.mul (Fin b) (Fin m)) = JS.ofZ (Spec.nearestInteger (b * m)).
Proof.
  unfold JS.Math_round, JS.mul, JS.ofZ, Spec.nearestInteger. do 2 f_equal.
  apply Qfloor_comp. by rewrite Qred_correct.
Qed.

(** X11.  The total daily energy expenditure of a basal rate that is not
    negative is at least the basal rate and at most twice it, for each
    activity level of the table and for a missing one. *)
Theorem calculateDailyCalorieNeeds_bounds (p : Person.t) (b : Z) :
  calculateBMR (Some p) = JS.ofZ b →
  (0 ≤ b)%Z →
  Person.activityLevel p = None
  ∨ (∃ level, Person.activityLevel p = Some level
              ∧ level ∈ ["SEDENTARY"; "LIGHT"; "MODERATE"; "ACTIVE"; "VERY_ACTIVE"]) →
  ∃ t, calculateDailyCalorieNeeds (Some p) = JS.ofZ t ∧ (b ≤ t ≤ 2 * b)%Z.
Proof.
  intros Hb Hb0 Hlevel.
  unfold calculateDailyCalorieNeeds, calculateDailyCalorieNeeds_try.
  rewrite Hb. cbn [mbind option_bind default from_option id].
  assert (0 <= inject_Z b)%Q as Hq
    by (change 0%Q with (inject_Z 0); rewrite <- Zle_Qle; lia).
  assert (∀ m : Q, (1 <= m)%Q → (m <= 2)%Q →
            ∃ t, JS.Math_round (JS.mul (JS.ofZ b) (Fin m)) = JS.ofZ t
                 ∧ (b ≤ t ≤ 2 * b)%Z) as Hm.
  { intros m H1 H2. unfold JS.ofZ at 1. rewrite Math_round_mul.
    eexists. split; [reflexivity |]. split.
    - apply nearestInteger_ge. nra.
    - apply nearestInteger_le. rewrite inject_Z_mult. change (inject_Z 2) with 2%Q. nra. }
  unfold calculateTDEE.
  destruct Hlevel as [-> | (level & -> & Hin)].
  - apply (Hm 1.55%Q); lra.
  - repeat (apply elem_of_cons in Hin as [-> | Hin]);
      [.. | by apply elem_of_nil in Hin].
    + apply (Hm 1.2%Q); lra.
    + apply (Hm 1.375%Q); lra.
    + apply (Hm 1.55%Q); lra.
    + apply (Hm 1.725%Q); lra.
    + apply (Hm 1.9%Q); lra.
Qed.

Lemma calculateDailyCalorieNeeds_bounds_witness :
  ∃ t, calculateDailyCalorieNeeds (Some Sample.selman) = JS.ofZ t
       ∧ (1775 ≤ t ≤ 2 * 1775)%Z.
Proof.
  apply (calculateDailyCalorieNeeds_bounds Sample.selman 1775).
  - reflexivity.
  - lia.
  - right. exists "MODERATE". split; [reflexivity |]. set_solver.
Defined.

(** *** Percentages *)

Lemma percentOf_exact (a b : Q) :
  ¬ (b == 0)%Q →
  percentOf (Fin a) (Fin b) = JS.ofZ (Spec.nearestInteger (a / b * 100)).
Proof.
  intros Hb. unfold percentOf, JS.div.
  destruct (JS.signQ b) eqn:E; [by apply signQ_Eq in E | |];
    unfold JS.Math_round, JS.mul, JS.ofZ, Spec.nearestInteger; do 2 f_equal;
    apply Qfloor_comp; by rewrite !Qred_correct.
Qed.

Lemma percentages_lookup (nutrition : Totals) (calorieNeeds : option number)
    (key : string) :
  key ∈ Reference.percentageKeys →
  ∃ recommended,
    calculateNutritionPercentages nutrition calorieNeeds !! key
    = Some (percentOf (JS.toNumber (nutrition !! key)) recommended)
    ∧ ∀ c, JS.toNumber (JS.orProp calorieNeeds (Some (Fin 2000))) = Fin c →
           ∃ r, recommended = Fin r ∧ (r == Reference.recommended key c)%Q.
Proof.
  unfold Reference.percentageKeys. intros Hkey.
  repeat (apply elem_of_cons in Hkey as [-> | Hkey]);
    [.. | by apply elem_of_nil in Hkey];
    (eexists; split; [reflexivity |]); intros c Hc; try rewrite Hc;
    (eexists; split; [reflexivity |]); simpl; rewrite ?Qred_correct; reflexivity.
Qed.


(** In the exact arithmetic of the model the percentage under each of
    the ten keys is the amount over the recommended amount, times 100,
    rounded to the nearest integer. *)
Lemma calculateNutritionPercentages_exact (nutrition : Totals) (c a : Q)
    (key : string) :
  ¬ (c == 0)%Q →
  key ∈ Reference.percentageKeys →
  nutrition !! key = Some (Fin a) →
  ∃ z, calculateNutritionPercentages nutrition (Some (Fin c)) !! key = Some (JS.ofZ z)
       ∧ z = Spec.nearestInteger (a / Reference.recommended key c * 100)
       ∧ ((0 < c)%Q → (0 <= a)%Q → (0 ≤ z)%Z)
       ∧ ((a == Reference.recommended key c)%Q → z = 100%Z).
Proof.
  intros Hc Hkey Ha.
  destruct (percentages_lookup nutrition (Some (Fin c)) key Hkey) as (rec & Hl & Hrec).
  destruct (Hrec c) as (r & -> & Hr).
  { unfold JS.orProp. simpl. destruct (JS.signQ c) eqn:E; try done.
    by apply signQ_Eq in E. }
  assert (¬ (Reference.recommended key c == 0)%Q) as Hnz.
  { unfold Reference.percentageKeys in Hkey.
    repeat (apply elem_of_cons in Hkey as [-> | Hkey]);
      [.. | by apply elem_of_nil in Hkey];
      unfold Reference.recommended; repeat (case_decide; try done);
      intros Hzero; unfold Qdiv in Hzero;
      try change (/ 4)%Q with (1 # 4)%Q in Hzero;
      try change (/ 9)%Q with (1 # 9)%Q in Hzero; try lra; apply Hc; lra. }
  assert (¬ (r == 0)%Q) as Hrnz by (by rewrite Hr).
  eexists. split; [| split; [reflexivity | split]].
  - rewrite Hl, Ha. simpl JS.toNumber. rewrite (percentOf_exact a r Hrnz).
    do 2 f_equal. unfold Spec.nearestInteger. apply Qfloor_comp. by rewrite Hr.
  - intros Hpos Hnn. apply nearestInteger_ge. change (inject_Z 0) with 0%Q.
    assert (0 < Reference.recommended key c)%Q as Hrpos.
    { unfold Reference.percentageKeys in Hkey.
      repeat (apply elem_of_cons in Hkey as [-> | Hkey]);
        [.. | by apply elem_of_nil in Hkey];
        unfold Reference.recommended; repeat (case_decide; try done);
        unfold Qdiv; try change (/ 4)%Q with (1 # 4)%Q;
        try change (/ 9)%Q with (1 # 9)%Q; lra. }
    apply Qmult_le_0_compat; [| done].
    apply Qle_shift_div_l; [done |]. by rewrite Qmult_0_l.
  - intros Heq. unfold Spec.nearestInteger.
    rewrite (Qfloor_comp _ (201 # 2)); [reflexivity |].
    rewrite Heq. field. done.
Qed.

(** X12.  The percentage under each of the ten keys is an integer less
    than 1 away from the amount over the recommended amount, times 100,
    and the nearest integer to it whenever that value is clear of the
    points half way between two integers, where the rounding of binary64
    arithmetic decides; it is not negative for an amount that is not
    negative, and 100 when the amount is the recommended one. *)
Theorem calculateNutritionPercentages_rounded (nutrition : Totals) (c a : Q)
    (key : string) :
  ¬ (c == 0)%Q →
  key ∈ Reference.percentageKeys →
  nutrition !! key = Some (Fin a) →
  let exact := (a / Reference.recommended key c * 100)%Q in
  ∃ z, calculateNutritionPercentages nutrition (Some (Fin c)) !! key = Some (JS.ofZ z)
       ∧ (inject_Z z - 1 < exact < inject_Z z + 1)%Q
       ∧ (Reference.clearOfTies exact → z = Spec.nearestInteger exact)
       ∧ ((0 < c)%Q → (0 <= a)%Q → (0 ≤ z)%Z)
       ∧ ((a == Reference.recommended key c)%Q → z = 100%Z).
Proof.
  intros Hc Hkey Ha exact.
  destruct (calculateNutritionPercentages_exact nutrition c a key Hc Hkey Ha)
    as (z & Hz & -> & Hnn & H100).
  exists (Spec.nearestInteger exact). split; [done |].
  split; [apply nearestInteger_within |]. by split.
Qed.

Lemma calculateNutritionPercentages_rounded_witness :
  ∃ z, calculateNutritionPercentages
         (calculateMealNutrition (Some [Sample.twoOatmeal]) Sample.foodDatabase)
         (Some (Fin 2000)) !! "protein" = Some (JS.ofZ z)
       ∧ (inject_Z z - 1 < 10 / Reference.recommended "protein" 2000 * 100
          < inject_Z z + 1)%Q
       ∧ (Reference.clearOfTies (10 / Reference.recommended "protein" 2000 * 100) →
          z = Spec.nearestInteger (10 / Reference.recommended "protein" 2000 * 100)).
Proof.
  destruct (calculateNutritionPercentages_rounded
              (calculateMealNutrition (Some [Sample.twoOatmeal]) Sample.foodDatabase)
              2000 10 "protein") as (z & Hz & Hnear & Hclear & _).
  - discriminate.
  - apply list_elem_of_further, list_elem_of_here.
  - reflexivity.
  - exists z. split; [exact Hz |]. split; [exact Hnear | exact Hclear].
Defined.

(** 290 of 2000 calories are 14.5 per cent, half way between two
    integers: the theorem leaves 14 and 15 open.  In binary64 arithmetic
    the quotient times 100 comes out just below 14.5 and the percentage
    is 14. *)
Example calories_percentage_at_a_tie :
  (290 / Reference.recommended "calories" 2000 * 100 == 29 # 2)%Q
  ∧ ¬ Reference.clearOfTies (290 / Reference.recommended "calories" 2000 * 100).
Proof.
  split; [reflexivity |]. unfold Reference.clearOfTies. intros H.
  vm_compute in H. discriminate H.
Qed.

(** X13.  Calorie needs that are missing, zero or [NaN] are replaced by 2000;
    so are the needs [calculateDailyCalorieNeeds] returns for a person
    record that lacks a field, which are 0. *)
Theorem calculateNutritionPercentages_default (nutrition : Totals) :
  (∀ calorieNeeds,
     JS.truthy calorieNeeds = false →
     calculateNutritionPercentages nutrition calorieNeeds
     = calculateNutritionPercentages nutrition (Some (Fin 2000)))
  ∧ (∀ p : Person.t,
       Person.gender p = None ∨ Person.weight p = None
       ∨ Person.height p = None ∨ Person.age p = None →
       calculateNutritionPercentages nutrition
         (Some (calculateDailyCalorieNeeds (Some p)))
       = calculateNutritionPercentages nutrition (Some (Fin 2000))).
Proof.
  assert (∀ calorieNeeds,
            JS.truthy calorieNeeds = false →
            calculateNutritionPercentages nutrition calorieNeeds
            = calculateNutritionPercentages nutrition (Some (Fin 2000))) as H.
  { intros calorieNeeds Hf. unfold calculateNutritionPercentages, JS.orProp.
    rewrite Hf. reflexivity. }
  split; [exact H |].
  intros p Hp. apply H.
  unfold calculateDailyCalorieNeeds, calculateDailyCalorieNeeds_try, calculateBMR.
  rewrite (calculateBMR_try_missing p Hp). simpl.
  by rewrite calculateTDEE_zero.
Qed.

End EnergyMore.

(* ===================================================================== *)
(** ** Daily totals                                                      *)
(* ===================================================================== *)

Section DailyMore.

Import NutritionCalculator Shape Reference.

Implicit Types (foodDatabase : list FoodItem.t) (totals : Totals)
               (item : MealItem.t) (items : list MealItem.t) (meals : DayMeals).

Lemma add_canonical (x y : number) : canonical (JS.add x y).
Proof.
  destruct x, y; simpl; try done. apply Qred_complete, Qred_correct.
Qed.

Lemma add_zero_r (x : number) : canonical x → JS.add x (Fin 0) = x.
Proof.
  destruct x as [q | | |]; simpl; try done. intros Hq. f_equal.
  rewrite <- Hq at 2. apply Qred_complete. ring.
Qed.

Lemma add_zero_l (x : number) : canonical x → JS.add (Fin 0) x = x.
Proof.
  destruct x as [q | | |]; simpl; try done. intros Hq. f_equal.
  rewrite <- Hq at 2. apply Qred_complete. ring.
Qed.

Lemma lookup_addMeal (mealNutrition dailyTotals : Totals) (key : string) :
  addMeal mealNutrition dailyTotals !! key
  = (λ v, JS.add v (JS.toNumber (JS.orProp (mealNutrition !! key) (Some (Fin 0)))))
      <$> dailyTotals !! key.
Proof. unfold addMeal. rewrite map_lookup_imap. by destruct (dailyTotals !! key). Qed.

Lemma addMeal_canonical (mealNutrition dailyTotals : Totals) :
  map_Forall (λ _ v, canonical v) (addMeal mealNutrition dailyTotals).
Proof.
  intros k v. rewrite lookup_addMeal.
  destruct (dailyTotals !! k); simpl; [| done]. intros [= <-]. apply add_canonical.
Qed.

Lemma dom_addMeal (mealNutrition dailyTotals : Totals) :
  dom (addMeal mealNutrition dailyTotals) = dom dailyTotals.
Proof.
  apply set_eq. intros k. rewrite !elem_of_dom, lookup_addMeal.
  destruct (dailyTotals !! k); simpl; split; intros [? ?]; by eexists.
Qed.

Lemma errorTotals_zero (key : string) :
  JS.toNumber (JS.orProp (errorTotals !! key) (Some (Fin 0))) = Fin 0.
Proof.
  assert (map_Forall (λ _ v, v = Fin 0) errorTotals) as H.
  { unfold errorTotals.
    repeat (apply map_Forall_insert_2; [reflexivity |]). apply map_Forall_empty. }
  destruct (errorTotals !! key) as [v |] eqn:E; [| reflexivity].
  by rewrite (H key v E).
Qed.

(** Adding the totals returned after an error changes nothing. *)
Lemma addMeal_errorTotals (dailyTotals : Totals) :
  map_Forall (λ _ v, canonical v) dailyTotals →
  addMeal errorTotals dailyTotals = dailyTotals.
Proof.
  intros Hc. apply map_eq. intros k. rewrite lookup_addMeal, errorTotals_zero.
  destruct (dailyTotals !! k) as [v |] eqn:E; simpl; [| done].
  f_equal. apply add_zero_r. by apply (Hc k).
Qed.

Lemma zeroTotals_canonical : map_Forall (λ _ v, canonical v) zeroTotals.
Proof.
  unfold zeroTotals.
  repeat (apply map_Forall_insert_2; [reflexivity |]). apply map_Forall_empty.
Qed.

(** The loop of [calculateDailyNutrition] over the meal types. *)
Lemma daily_fold_dom meals foodDatabase (types : list string) (dailyTotals : Totals) :
  dom (foldl (λ dailyTotals mealType,
                match meals !! mealType with
                | Some items =>
                    addMeal (calculateMealNutrition (Some items) foodDatabase) dailyTotals
                | None => dailyTotals
                end) dailyTotals types)
  = dom dailyTotals.
Proof.
  revert dailyTotals. induction types as [| mealType types IH]; intros d; simpl; [done |].
  rewrite IH. destruct (meals !! mealType); [apply dom_addMeal | done].
Qed.

Lemma daily_fold_dropped meals foodDatabase (failing : string) (types : list string)
    (dailyTotals : Totals) :
  (∀ items, meals !! failing = Some items →
            calculateMealNutrition_try (Some items) foodDatabase = None) →
  map_Forall (λ _ v, canonical v) dailyTotals →
  foldl (λ dailyTotals mealType,
           match meals !! mealType with
           | Some items =>
               addMeal (calculateMealNutrition (Some items) foodDatabase) dailyTotals
           | None => dailyTotals
           end) dailyTotals types
  = foldl (λ dailyTotals mealType,
             match delete failing meals !! mealType with
             | Some items =>
                 addMeal (calculateMealNutrition (Some items) foodDatabase) dailyTotals
             | None => dailyTotals
             end) dailyTotals types.
Proof.
  intros Hfail. revert dailyTotals.
  induction types as [| mealType types IH]; intros d Hd; cbn [foldl]; [done |].
  destruct (decide (mealType = failing)) as [-> | Hne].
  - rewrite lookup_delete_eq.
    destruct (meals !! failing) as [items |] eqn:E; [| by apply IH].
    replace (calculateMealNutrition (Some items) foodDatabase) with errorTotals
      by (unfold calculateMealNutrition; by rewrite (Hfail items eq_refl)).
    rewrite addMeal_errorTotals by done. by apply IH.
  - rewrite lookup_delete_ne by done.
    destruct (meals !! mealType) as [items |]; [| by apply IH].
    apply IH. apply addMeal_canonical.
Qed.

(** X14.  [calculateDailyNutrition] on a meal set always returns all eleven
    keys; a meal whose calculation fails, for an entry without a food id,
    counts for nothing, as if the meal were not there. *)
Theorem calculateDailyNutrition_absorbs_errors meals foodDatabase :
  dom (calculateDailyNutrition (Some meals) foodDatabase) = dom zeroTotals
  ∧ (∀ mealType items,
       meals !! mealType = Some items →
       calculateMealNutrition_try (Some items) foodDatabase = None →
       calculateDailyNutrition (Some meals) foodDatabase
       = calculateDailyNutrition (Some (delete mealType meals)) foodDatabase)
  ∧ (∀ before item after,
       MealItem.foodId item = None →
       foodDatabase ≠ [] →
       calculateMealNutrition_try (Some (before ++ item :: after)) foodDatabase = None).
Proof.
  split; [| split].
  - unfold calculateDailyNutrition, calculateDailyNutrition_try.
    cbn [default from_option id]. by rewrite dom_fmap_L, daily_fold_dom.
  - intros mealType items Hitems Hfail.
    unfold calculateDailyNutrition, calculateDailyNutrition_try.
    cbn [default from_option id]. f_equal.
    apply daily_fold_dropped; [| apply zeroTotals_canonical].
    intros items' Heq. rewrite Hitems in Heq. by injection Heq as <-.
  - intros before item after Hid Hdb.
    rewrite calculateMealNutrition_try_eq, forEachItem_app.
    destruct (forEachItem foodDatabase before zeroTotals) as [totals |]; [| done].
    simpl. unfold addItem. rewrite Hid.
    destruct foodDatabase as [| f rest]; [done |]. reflexivity.
Qed.


(** *** The daily figures are the sums of the meals' figures *)

Lemma Finite_add (x y : number) :
  WellFormed.Finite x → WellFormed.Finite y → WellFormed.Finite (JS.add x y).
Proof. intros [a ->] [b ->]. by eexists. Qed.

Lemma Finite_mul (x y : number) :
  WellFormed.Finite x → WellFormed.Finite y → WellFormed.Finite (JS.mul x y).
Proof. intros [a ->] [b ->]. by eexists. Qed.

Lemma addTo_Finite key (x : number) totals :
  WellFormed.Finite x →
  map_Forall (λ _ v, WellFormed.Finite v) totals →
  map_Forall (λ _ v, WellFormed.Finite v) (addTo key x totals).
Proof.
  intros Hx Ht k v. unfold addTo. rewrite lookup_alter.
  case_decide as E; [subst k |]; [| apply Ht].
  destruct (totals !! key) as [t |] eqn:Hk; simpl; [| done].
  intros [= <-]. apply Finite_add; [by apply (Ht key) | done].
Qed.

Lemma addOptional_Finite key (field : option number) (servings : number) totals :
  (∀ x, field = Some x → WellFormed.Finite x) →
  WellFormed.Finite servings →
  map_Forall (λ _ v, WellFormed.Finite v) totals →
  map_Forall (λ _ v, WellFormed.Finite v) (addOptional key field servings totals).
Proof.
  intros Hf Hs Ht. unfold addOptional.
  destruct (JS.truthy field) eqn:E; [| done].
  destruct field as [x |]; [| done].
  apply addTo_Finite; [| done]. apply Finite_mul; [by apply Hf | done].
Qed.

Lemma find_present foodDatabase (i : ident) :
  is_Some (find foodDatabase (Some i)).
Proof.
  induction foodDatabase as [| f rest IH]; simpl; [done |].
  by destruct (String.eqb _ _).
Qed.

Lemma addItem_Finite foodDatabase totals item :
  Forall WellFormed.finiteFood foodDatabase →
  entry item →
  map_Forall (λ _ v, WellFormed.Finite v) totals →
  ∃ totals', addItem foodDatabase totals item = Some totals'
             ∧ map_Forall (λ _ v, WellFormed.Finite v) totals'
             ∧ dom totals' = dom totals.
Proof.
  intros Hdb [[i Hid] Hs] Ht. unfold addItem. rewrite Hid.
  destruct (find_present foodDatabase i) as [[f |] Hfind]; rewrite Hfind; simpl.
  - eexists. split; [reflexivity |].
    apply find_elem_of in Hfind.
    rewrite Forall_forall in Hdb. destruct (Hdb f Hfind) as [Hmacro Hmicro].
    repeat match goal with
           | H : Forall _ (_ :: _) |- _ => apply Forall_cons in H as [? H]
           end.
    split.
    + repeat first [ apply addOptional_Finite; [done | done |]
                   | apply addTo_Finite; [by apply Finite_mul |] ].
      done.
    + unfold addOptional, addTo.
      repeat (destruct (JS.truthy _)); by rewrite ?dom_alter_L.
  - by exists totals.
Qed.

Lemma forEachItem_Finite foodDatabase items totals :
  Forall WellFormed.finiteFood foodDatabase →
  Forall entry items →
  map_Forall (λ _ v, WellFormed.Finite v) totals →
  ∃ totals', forEachItem foodDatabase items totals = Some totals'
             ∧ map_Forall (λ _ v, WellFormed.Finite v) totals'
             ∧ dom totals' = dom totals.
Proof.
  intros Hdb Hitems. revert totals.
  induction Hitems as [| item items Hitem _ IH]; intros totals Ht; simpl.
  - by exists totals.
  - destruct (addItem_Finite foodDatabase totals item Hdb Hitem Ht)
      as (totals1 & -> & H1 & Hd1). simpl.
    destruct (IH totals1 H1) as (totals' & -> & H' & Hd').
    exists totals'. split; [done |]. split; [done |]. by rewrite Hd'.
Qed.

Lemma zeroTotals_Finite : map_Forall (λ _ v, WellFormed.Finite v) zeroTotals.
Proof.
  unfold zeroTotals.
  repeat (apply map_Forall_insert_2; [by eexists |]). apply map_Forall_empty.
Qed.

Lemma round1_Tenth (x : number) : WellFormed.Finite x → Tenth (round1 x).
Proof. intros [q ->]. rewrite round1_Fin. by eexists. Qed.

Lemma Tenth_zero : Tenth (Fin 0).
Proof. by exists 0%Z. Qed.

Lemma Tenth_add (x y : number) : Tenth x → Tenth y → Tenth (JS.add x y).
Proof.
  intros [a ->] [b ->]. exists (a + b)%Z. simpl. f_equal.
  apply Qred_complete. rewrite !Qred_correct, inject_Z_plus. field.
Qed.

Lemma Qfloor_half (z : Z) : Qfloor (inject_Z z + (1 # 2)) = z.
Proof.
  pose proof (Qfloor_le (inject_Z z + (1 # 2))) as Hle.
  pose proof (Qlt_floor (inject_Z z + (1 # 2))) as Hlt.
  set (f := Qfloor (inject_Z z + (1 # 2))) in *.
  destruct (Z.lt_trichotomy f z) as [H | [H | H]]; [| done |].
  - assert (inject_Z (f + 1) <= inject_Z z)%Q by (rewrite <- Zle_Qle; lia). lra.
  - assert (inject_Z (z + 1) <= inject_Z f)%Q as H1 by (rewrite <- Zle_Qle; lia).
    rewrite inject_Z_plus in H1. change (inject_Z 1) with 1%Q in H1. lra.
Qed.

(** Rounding to a tenth changes no number of tenths. *)
Lemma round1_of_Tenth (x : number) : Tenth x → round1 x = x.
Proof.
  intros [z ->]. rewrite round1_Fin. f_equal. apply Qred_complete.
  rewrite (Qfloor_comp _ (inject_Z z + (1 # 2))); [by rewrite Qfloor_half |].
  rewrite !Qred_correct. field.
Qed.

Lemma Tenth_canonical (x : number) : Tenth x → canonical x.
Proof. intros [z ->]. simpl. apply Qred_complete, Qred_correct. Qed.

(** [x || 0] is [x] on a number of tenths. *)
Lemma Tenth_or_zero (x : number) :
  Tenth x → JS.toNumber (JS.orProp (Some x) (Some (Fin 0))) = x.
Proof.
  intros Hx. pose proof (Tenth_canonical x Hx) as Hc. destruct Hx as [z ->].
  unfold JS.orProp, JS.truthy, JS.toBoolean.
  destruct (JS.signQ (Qred (inject_Z z / 10))) eqn:Es; try done.
  apply signQ_Eq in Es. unfold canonical in Hc. simpl. f_equal. rewrite <- Hc.
  change 0%Q with (Qred 0). by apply Qred_complete.
Qed.

(** The totals of a meal on well-formed data: all eleven keys, each a
    number of tenths. *)
Lemma calculateMealNutrition_Tenth foodDatabase items :
  Forall WellFormed.finiteFood foodDatabase →
  Forall entry items →
  dom (calculateMealNutrition (Some items) foodDatabase) = dom zeroTotals
  ∧ map_Forall (λ _ v, Tenth v) (calculateMealNutrition (Some items) foodDatabase).
Proof.
  intros Hdb Hitems. unfold calculateMealNutrition.
  rewrite calculateMealNutrition_try_eq.
  destruct (forEachItem_Finite foodDatabase items zeroTotals Hdb Hitems
              zeroTotals_Finite) as (totals & -> & Hfin & Hdom).
  simpl. split; [by rewrite dom_fmap_L |].
  intros k v. rewrite lookup_fmap.
  destruct (totals !! k) as [t |] eqn:E; simpl; [| done].
  intros [= <-]. apply round1_Tenth. by apply (Hfin k).
Qed.

Lemma daily_fold_sum meals foodDatabase (key : string) (types : list string)
    (dailyTotals : Totals) (t : number) :
  Forall WellFormed.finiteFood foodDatabase →
  map_Forall (λ _ items, Forall entry items) meals →
  is_Some (zeroTotals !! key) →
  dailyTotals !! key = Some t → Tenth t →
  ∃ t', foldl (λ dailyTotals mealType,
                 match meals !! mealType with
                 | Some items =>
                     addMeal (calculateMealNutrition (Some items) foodDatabase)
                       dailyTotals
                 | None => dailyTotals
                 end) dailyTotals types !! key = Some t'
        ∧ t' = foldl JS.add t (mealFigure meals foodDatabase key <$> types)
        ∧ Tenth t'.
Proof.
  intros Hdb Hmeals Hkey. revert dailyTotals t.
  induction types as [| mealType types IH]; intros d t Ht HT; cbn [foldl fmap list_fmap].
  - by exists t.
  - unfold mealFigure at 1.
    destruct (meals !! mealType) as [items |] eqn:E.
    + destruct (calculateMealNutrition_Tenth foodDatabase items Hdb (Hmeals _ _ E))
        as [Hdom HTen].
      assert (is_Some (calculateMealNutrition (Some items) foodDatabase !! key))
        as [v Hv] by (by rewrite <- elem_of_dom, Hdom, elem_of_dom).
      pose proof (HTen key v Hv) as HvT.
      rewrite Hv. cbn [default from_option id].
      apply IH.
      * rewrite lookup_addMeal, Ht, Hv. simpl. by rewrite (Tenth_or_zero v HvT).
      * by apply Tenth_add.
    + rewrite add_zero_r by (by apply Tenth_canonical). by apply IH.
Qed.

Lemma daily_lookup meals foodDatabase (key : string) :
  Forall WellFormed.finiteFood foodDatabase →
  map_Forall (λ _ items, Forall entry items) meals →
  is_Some (zeroTotals !! key) →
  calculateDailyNutrition (Some meals) foodDatabase !! key
  = Some (foldl JS.add (Fin 0) (mealFigure meals foodDatabase key <$> mealTypes)).
Proof.
  intros Hdb Hmeals Hkey.
  assert (zeroTotals !! key = Some (Fin 0)) as H0.
  { apply totals_key in Hkey.
    repeat (apply elem_of_cons in Hkey as [-> | Hkey]);
      [reflexivity .. | by apply elem_of_nil in Hkey]. }
  destruct (daily_fold_sum meals foodDatabase key mealTypes zeroTotals (Fin 0)
              Hdb Hmeals Hkey H0 Tenth_zero) as (t' & Hl & -> & HT).
  unfold calculateDailyNutrition, calculateDailyNutrition_try.
  cbn [default from_option id]. rewrite lookup_fmap, Hl. simpl.
  by rewrite round1_of_Tenth.
Qed.

(** X15.  On well-formed data each figure of the daily totals is the sum of the
    figures of the four meals, which were rounded one by one; the final
    rounding changes nothing. *)
Theorem calculateDailyNutrition_sum meals foodDatabase (key : string) :
  Forall WellFormed.finiteFood foodDatabase →
  map_Forall (λ _ items, Forall entry items) meals →
  is_Some (zeroTotals !! key) →
  calculateDailyNutrition (Some meals) foodDatabase !! key
  = Some (foldl JS.add (Fin 0) (mealFigure meals foodDatabase key <$> mealTypes)).
Proof. apply daily_lookup. Qed.

Lemma sample_finiteFood : Forall WellFormed.finiteFood Sample.foodDatabase.
Proof.
  repeat (apply Forall_cons; split); try apply Forall_nil;
    (split; repeat (apply Forall_cons; split); try apply Forall_nil;
     first [ exact I | eexists; reflexivity | by intros x [=]
           | intros x [= <-]; eexists; reflexivity ]).
Defined.

Lemma calculateDailyNutrition_sum_witness :
  calculateDailyNutrition (Some {[ "breakfast" := [Sample.twoOatmeal] ]})
    Sample.foodDatabase !! "calories"
  = Some (foldl JS.add (Fin 0)
            (mealFigure {[ "breakfast" := [Sample.twoOatmeal] ]} Sample.foodDatabase
               "calories" <$> mealTypes)).
Proof.
  apply (calculateDailyNutrition_sum {[ "breakfast" := [Sample.twoOatmeal] ]}
           Sample.foodDatabase "calories").
  - exact sample_finiteFood.
  - apply map_Forall_singleton. apply Forall_cons. split; [| apply Forall_nil; exact I].
    split; [eexists; reflexivity | exists 2%Q; reflexivity].
  - by eexists.
Defined.

(** The rounding is done meal by meal: one serving of oatmeal at
    breakfast and one at lunch cost 0.8 for the day, two servings in one
    meal cost 0.7. *)
Example daily_cost_rounded_per_meal :
  calculateDailyNutrition
    (Some {[ "breakfast" := [MealItem.mk (Some (IdNum 1)) (Some (Fin 1)) ""];
             "lunch" := [MealItem.mk (Some (IdNum 1)) (Some (Fin 1)) ""] ]})
    Sample.foodDatabase !! "cost" = Some (Fin (4 # 5))
  ∧ calculateDailyNutrition
      (Some {[ "breakfast" := [MealItem.mk (Some (IdNum 1)) (Some (Fin 1)) "";
                               MealItem.mk (Some (IdNum 1)) (Some (Fin 1)) ""] ]})
      Sample.foodDatabase !! "cost" = Some (Fin (7 # 10)).
Proof. split; vm_compute; reflexivity. Qed.

Lemma mealFigure_singleton_eq foodDatabase (mealType key : string) items :
  mealFigure {[ mealType := items ]} foodDatabase key mealType
  = default (Fin 0) (calculateMealNutrition (Some items) foodDatabase !! key).
Proof. unfold mealFigure. by rewrite lookup_singleton_eq. Qed.

Lemma mealFigure_singleton_ne foodDatabase (mealType other key : string) items :
  mealType ≠ other →
  mealFigure {[ mealType := items ]} foodDatabase key other = Fin 0.
Proof. intros Hne. unfold mealFigure. by rewrite lookup_singleton_ne. Qed.

Lemma add_zero_zero : JS.add (Fin 0) (Fin 0) = Fin 0.
Proof. reflexivity. Qed.

(** X16.  A day with one meal only has the totals of that meal. *)
Theorem calculateDailyNutrition_single_meal foodDatabase (mealType : string) items :
  Forall WellFormed.finiteFood foodDatabase →
  Forall entry items →
  mealType ∈ mealTypes →
  calculateDailyNutrition (Some {[ mealType := items ]}) foodDatabase
  = calculateMealNutrition (Some items) foodDatabase.
Proof.
  intros Hdb Hitems Htype.
  destruct (calculateMealNutrition_Tenth foodDatabase items Hdb Hitems) as [Hdom HTen].
  assert (dom (calculateDailyNutrition (Some {[ mealType := items ]}) foodDatabase)
          = dom zeroTotals) as Hdom'.
  { unfold calculateDailyNutrition, calculateDailyNutrition_try.
    cbn [default from_option id]. by rewrite dom_fmap_L, daily_fold_dom. }
  apply map_eq. intros key.
  destruct (zeroTotals !! key) as [z |] eqn:Hkey.
  - rewrite daily_lookup; [| done | by apply map_Forall_singleton | by exists z].
    assert (is_Some (calculateMealNutrition (Some items) foodDatabase !! key))
      as [v Hv] by (rewrite <- elem_of_dom, Hdom, elem_of_dom; by exists z).
    pose proof (Tenth_canonical v (HTen key v Hv)) as Hc.
    rewrite Hv. f_equal. unfold mealTypes in *.
    cbn [fmap list_fmap foldl].
    apply elem_of_cons in Htype as [-> | Htype].
    { rewrite mealFigure_singleton_eq, !mealFigure_singleton_ne, Hv by discriminate.
      cbn [default from_option id].
      by rewrite (add_zero_l v Hc), !(add_zero_r v Hc). }
    apply elem_of_cons in Htype as [-> | Htype].
    { rewrite mealFigure_singleton_eq, !mealFigure_singleton_ne, Hv by discriminate.
      cbn [default from_option id].
      by rewrite add_zero_zero, (add_zero_l v Hc), !(add_zero_r v Hc). }
    apply elem_of_cons in Htype as [-> | Htype].
    { rewrite mealFigure_singleton_eq, !mealFigure_singleton_ne, Hv by discriminate.
      cbn [default from_option id].
      by rewrite !add_zero_zero, (add_zero_l v Hc), !(add_zero_r v Hc). }
    apply elem_of_cons in Htype as [-> | Htype]; [| by apply elem_of_nil in Htype].
    rewrite mealFigure_singleton_eq, !mealFigure_singleton_ne, Hv by discriminate.
    cbn [default from_option id].
    by rewrite !add_zero_zero, (add_zero_l v Hc).
  - assert (calculateDailyNutrition (Some {[ mealType := items ]}) foodDatabase !! key
            = None) as ->.
    { apply not_elem_of_dom. rewrite Hdom'. by apply not_elem_of_dom. }
    symmetry. apply not_elem_of_dom. rewrite Hdom. by apply not_elem_of_dom.
Qed.

Lemma calculateDailyNutrition_single_meal_witness :
  calculateDailyNutrition (Some {[ "lunch" := [Sample.twoOatmeal] ]}) Sample.foodDatabase
  = calculateMealNutrition (Some [Sample.twoOatmeal]) Sample.foodDatabase.
Proof.
  apply (calculateDailyNutrition_single_meal Sample.foodDatabase "lunch"
           [Sample.twoOatmeal]).
  - exact sample_finiteFood.
  - apply Forall_cons. split; [| apply Forall_nil; exact I].
    split; [eexists; reflexivity | exists 2%Q; reflexivity].
  - set_solver.
Defined.

End DailyMore.

(* ===================================================================== *)
(** ** Storage                                                           *)
(* ===================================================================== *)

Section Storage.

Import DataStore Shape Reference.

Implicit Types (st : State) (date familyMemberId mealType : string)
               (meals mealPlans : DayMeals).

(** *** Expenses *)

Lemma getExpenses_addExpense (now : Z) st (date description : string)
    (amount : option number) :
  getExpenses (addExpense true now st date description amount).2
  = getExpenses st
    ++ [Expense.mk (JSDate.digits now) date description (JSON.roundTrip amount)].
Proof. reflexivity. Qed.

Lemma getExpenses_deleteExpense st (expenseId : string) :
  getExpenses (deleteExpense true st expenseId).2
  = filter (λ expense, Expense.id expense ≠ expenseId) (getExpenses st).
Proof. reflexivity. Qed.

Lemma filter_all {A : Type} (P : A → Prop) `{!∀ x, Decision (P x)} (l : list A) :
  Forall P l ↔ filter P l = l.
Proof.
  split.
  - intros Hall. induction Hall as [| x l Hx _ IH]; [done |].
    rewrite filter_cons_True by done. by rewrite IH.
  - intros Heq. rewrite <- Heq. apply Forall_forall. intros x Hx.
    by apply list_elem_of_filter in Hx as [? _].
Qed.

(** X17.  An expense that has been added with a fresh id is gone after
    [deleteExpense] of that id, and the list is what it was; the id is the
    clock's reading, so an older expense made in the same millisecond goes
    with it.  A write that storage refuses changes nothing. *)
Theorem addExpense_deleteExpense (now : Z) st (date description : string)
    (amount : option number) :
  let added := addExpense true now st date description amount in
  let deleted := deleteExpense true added.2 (JSDate.digits now) in
  added.1 = Some (Expense.mk (JSDate.digits now) date description amount)
  ∧ getExpenses added.2
    = getExpenses st
      ++ [Expense.mk (JSDate.digits now) date description (JSON.roundTrip amount)]
  ∧ deleted.1 = true
  ∧ getExpenses deleted.2
    = filter (λ expense, Expense.id expense ≠ JSDate.digits now) (getExpenses st)
  ∧ (Forall (λ expense, Expense.id expense ≠ JSDate.digits now) (getExpenses st) ↔
     getExpenses deleted.2 = getExpenses st)
  ∧ addExpense false now st date description amount = (None, st)
  ∧ deleteExpense false st (JSDate.digits now) = (false, st).
Proof.
  intros added deleted.
  assert (getExpenses deleted.2
          = filter (λ expense, Expense.id expense ≠ JSDate.digits now) (getExpenses st))
    as Hdel.
  { subst deleted added.
    rewrite getExpenses_deleteExpense, getExpenses_addExpense.
    rewrite filter_app, filter_cons_False by (simpl; intros Hne; by apply Hne).
    by rewrite filter_nil, app_nil_r. }
  split; [done |]. split; [apply getExpenses_addExpense |]. split; [done |].
  split; [exact Hdel |]. split; [| done].
  rewrite Hdel. apply filter_all.
Qed.


(** *** Meals *)

Lemma getMeals_saveMeals st date familyMemberId meals (date' familyMemberId' : string) :
  getMeals (stored (saveMeals true st date familyMemberId meals).2) date' familyMemberId'
  = if decide (date' +:+ "_" +:+ familyMemberId' = date +:+ "_" +:+ familyMemberId)
    then JSON.dayMeals meals
    else getMeals (stored st) date' familyMemberId'.
Proof.
  unfold saveMeals, saveData, getMeals. cbn [snd stored MEALS default from_option id].
  rewrite lookup_insert. case_decide as E; [by rewrite decide_True |].
  by rewrite decide_False by congruence.
Qed.

Lemma getMealPlans_saveMealPlans st date familyMemberId mealPlans
    (date' familyMemberId' : string) :
  getMealPlans (stored (saveMealPlans true st date familyMemberId mealPlans).2)
    date' familyMemberId'
  = if decide (date' +:+ "_" +:+ familyMemberId' = date +:+ "_" +:+ familyMemberId)
    then JSON.dayMeals mealPlans
    else getMealPlans (stored st) date' familyMemberId'.
Proof.
  unfold saveMealPlans, saveData, getMealPlans.
  cbn [snd stored MEAL_PLANS default from_option id].
  rewrite lookup_insert. case_decide as E; [by rewrite decide_True |].
  by rewrite decide_False by congruence.
Qed.

Lemma getMeals_saveMealPlans (accepted : bool) st date familyMemberId mealPlans
    (date' familyMemberId' : string) :
  getMeals (stored (saveMealPlans accepted st date familyMemberId mealPlans).2)
    date' familyMemberId'
  = getMeals (stored st) date' familyMemberId'.
Proof. by destruct accepted. Qed.

Lemma getMealPlans_saveMeals (accepted : bool) st date familyMemberId meals
    (date' familyMemberId' : string) :
  getMealPlans (stored (saveMeals accepted st date familyMemberId meals).2)
    date' familyMemberId'
  = getMealPlans (stored st) date' familyMemberId'.
Proof. by destruct accepted. Qed.

Lemma mealItem_storable (item : MealItem.t) : storable item → JSON.mealItem item = item.
Proof.
  destruct item as [i servings n]. unfold storable, JSON.mealItem. simpl.
  by intros ->.
Qed.

Lemma dayMeals_storable meals :
  map_Forall (λ _ items, Forall storable items) meals → JSON.dayMeals meals = meals.
Proof.
  intros H. unfold JSON.dayMeals. apply map_eq. intros k. rewrite lookup_fmap.
  destruct (meals !! k) as [items |] eqn:E; simpl; [| done]. f_equal.
  specialize (H k items E). clear E.
  induction H as [| item items Hitem _ IH]; [done |].
  rewrite fmap_cons, mealItem_storable by done. by f_equal.
Qed.

(** X18.  After [saveMeals], [getMeals] of the same date and member returns what
    was saved, as JSON keeps it: exactly that when all servings are finite
    numbers or missing.  The key is the date, an underscore and the member
    id, so any pair that spells the same key reads the same meals.  The
    meals under any other key, the meal plans and the catalog are what
    they were, and a write that storage refuses changes nothing. *)
Theorem saveMeals_getMeals st date familyMemberId meals :
  let saved := saveMeals true st date familyMemberId meals in
  saved.1 = true
  ∧ getMeals (stored saved.2) date familyMemberId = JSON.dayMeals meals
  ∧ (map_Forall (λ _ items, Forall storable items) meals →
     getMeals (stored saved.2) date familyMemberId = meals)
  ∧ (∀ date' familyMemberId',
       date' +:+ "_" +:+ familyMemberId' = date +:+ "_" +:+ familyMemberId →
       getMeals (stored saved.2) date' familyMemberId' = JSON.dayMeals meals)
  ∧ (∀ date' familyMemberId',
       date' +:+ "_" +:+ familyMemberId' ≠ date +:+ "_" +:+ familyMemberId →
       getMeals (stored saved.2) date' familyMemberId'
       = getMeals (stored st) date' familyMemberId')
  ∧ (∀ date' familyMemberId',
       getMealPlans (stored saved.2) date' familyMemberId'
       = getMealPlans (stored st) date' familyMemberId')
  ∧ getFoodDatabase (stored saved.2) = getFoodDatabase (stored st)
  ∧ saveMeals false st date familyMemberId meals = (false, st).
Proof.
  intros saved. subst saved.
  split; [done |]. split; [| split; [| split; [| split]]].
  - rewrite getMeals_saveMeals. by rewrite decide_True.
  - intros Hs. rewrite getMeals_saveMeals, decide_True by done.
    by apply dayMeals_storable.
  - intros date' id' Heq. by rewrite getMeals_saveMeals, decide_True.
  - intros date' id' Hne. by rewrite getMeals_saveMeals, decide_False.
  - done.
Qed.

(** Servings that storage replaces by [null] count as 1 afterwards. *)
Lemma resolveServings_mealItem (item : MealItem.t) :
  MealItem.servings item ≠ Some PosInf → MealItem.servings item ≠ Some NegInf →
  NutritionCalculator.resolveServings (JSON.mealItem item)
  = NutritionCalculator.resolveServings item.
Proof.
  destruct item as [i [[q | | |] |] n]; unfold NutritionCalculator.resolveServings;
    simpl; done.
Qed.

Lemma forEachItem_mealItem (foodDatabase : list FoodItem.t) (items : list MealItem.t)
    (totals : Totals) :
  Forall (λ item, MealItem.servings item ≠ Some PosInf
                  ∧ MealItem.servings item ≠ Some NegInf) items →
  NutritionCalculator.forEachItem foodDatabase (JSON.mealItem <$> items) totals
  = NutritionCalculator.forEachItem foodDatabase items totals.
Proof.
  intros H. revert totals. induction H as [| item items [Hp Hn] _ IH]; intros totals.
  - done.
  - rewrite fmap_cons. cbn [NutritionCalculator.forEachItem].
    assert (NutritionCalculator.addItem foodDatabase totals (JSON.mealItem item)
            = NutritionCalculator.addItem foodDatabase totals item) as ->.
    { unfold NutritionCalculator.addItem.
      by rewrite (resolveServings_mealItem item Hp Hn). }
    destruct (NutritionCalculator.addItem foodDatabase totals item); simpl; [apply IH | done].
Qed.

(** X19.  The meals read back after [saveMeals] give the same daily nutrition
    as the meals that were saved, unless some servings were infinite:
    those come back as [null] and count as 1. *)
Theorem stored_meals_same_nutrition st date familyMemberId meals
    (foodDatabase : list FoodItem.t) :
  map_Forall (λ _ items,
                Forall (λ item, MealItem.servings item ≠ Some PosInf
                                ∧ MealItem.servings item ≠ Some NegInf) items) meals →
  NutritionCalculator.calculateDailyNutrition
    (Some (getMeals (stored (saveMeals true st date familyMemberId meals).2)
             date familyMemberId)) foodDatabase
  = NutritionCalculator.calculateDailyNutrition (Some meals) foodDatabase.
Proof.
  intros H. rewrite getMeals_saveMeals, decide_True by done.
  unfold NutritionCalculator.calculateDailyNutrition,
    NutritionCalculator.calculateDailyNutrition_try.
  cbn [default from_option id]. f_equal.
  generalize NutritionCalculator.zeroTotals as dailyTotals.
  induction NutritionCalculator.mealTypes as [| mealType types IH];
    intros dailyTotals; cbn [foldl]; [done |].
  rewrite IH. f_equal. unfold JSON.dayMeals. rewrite lookup_fmap.
  destruct (meals !! mealType) as [items |] eqn:E; simpl; [| done].
  f_equal. unfold NutritionCalculator.calculateMealNutrition.
  rewrite !calculateMealNutrition_try_eq.
  by rewrite (forEachItem_mealItem _ _ _ (H _ _ E)).
Qed.

Lemma stored_meals_same_nutrition_witness :
  NutritionCalculator.calculateDailyNutrition
    (Some (getMeals
             (stored (saveMeals true Sample.state "2024-03-01" "1700000000001"
                        {[ "lunch" := [Sample.oneChicken] ]}).2)
             "2024-03-01" "1700000000001")) Sample.foodDatabase
  = NutritionCalculator.calculateDailyNutrition
      (Some {[ "lunch" := [Sample.oneChicken] ]}) Sample.foodDatabase.
Proof.
  apply (stored_meals_same_nutrition Sample.state "2024-03-01" "1700000000001"
           {[ "lunch" := [Sample.oneChicken] ]} Sample.foodDatabase).
  apply map_Forall_singleton. apply Forall_cons. split; [| apply Forall_nil; exact I].
  split; discriminate.
Defined.


(** *** Converting a plan into a meal *)

Lemma count_dayMeals meals mealType :
  itemCount (JSON.dayMeals meals) mealType = itemCount meals mealType.
Proof.
  unfold itemCount, JSON.dayMeals. rewrite lookup_fmap.
  destruct (meals !! mealType); simpl; [by rewrite length_fmap | done].
Qed.

Lemma convertPlanToMeal_found (accepted1 accepted2 : bool) st date familyMemberId
    mealType (planIndex : Z) (planItem : MealItem.t) :
  planItemAt st date familyMemberId mealType planIndex = Some planItem →
  convertPlanToMeal accepted1 accepted2 st date familyMemberId mealType planIndex
  = (true,
     (saveMealPlans accepted2
        (saveMeals accepted1 st date familyMemberId
           (<[mealType :=
                default [] (getMeals (stored st) date familyMemberId !! mealType)
                ++ [MealItem.mk (MealItem.foodId planItem) (MealItem.servings planItem)
                      (MealItem.notes planItem)]]>
              (getMeals (stored st) date familyMemberId))).2
        date familyMemberId
        (alter (delete (Z.to_nat planIndex)) mealType
           (getMealPlans (stored st) date familyMemberId))).2).
Proof.
  unfold planItemAt, convertPlanToMeal. intros ->. reflexivity.
Qed.

Lemma at_index_Some {A : Type} (l : list A) (index : Z) (x : A) :
  at_index l index = Some x → (Z.to_nat index < length l)%nat.
Proof.
  unfold at_index. destruct (0 <=? index)%Z; [| done].
  apply lookup_lt_Some.
Qed.

(** X20.  When both writes are accepted, [convertPlanToMeal] moves one item:
    the plans of the meal type lose one item, the meals of the meal type
    gain one, which is the plan's item as JSON keeps it, at the end; every
    other meal type keeps its number of items in both. *)
Theorem convertPlanToMeal_moves st date familyMemberId mealType (planIndex : Z)
    (planItem : MealItem.t) :
  planItemAt st date familyMemberId mealType planIndex = Some planItem →
  let converted :=
    convertPlanToMeal true true st date familyMemberId mealType planIndex in
  let plans := getMealPlans (stored st) date familyMemberId in
  let meals := getMeals (stored st) date familyMemberId in
  let plans' := getMealPlans (stored converted.2) date familyMemberId in
  let meals' := getMeals (stored converted.2) date familyMemberId in
  converted.1 = true
  ∧ S (itemCount plans' mealType) = itemCount plans mealType
  ∧ itemCount meals' mealType = S (itemCount meals mealType)
  ∧ last (default [] (meals' !! mealType)) = Some (JSON.mealItem planItem)
  ∧ (∀ other, other ≠ mealType →
       itemCount plans' other = itemCount plans other
       ∧ itemCount meals' other = itemCount meals other).
Proof.
  intros Hitem converted plans meals plans' meals'.
  subst converted plans' meals'.
  rewrite (convertPlanToMeal_found true true _ _ _ _ _ _ Hitem). cbn [fst snd].
  rewrite getMealPlans_saveMealPlans, decide_True by done.
  rewrite getMeals_saveMealPlans, getMeals_saveMeals, decide_True by done.
  fold plans meals.
  unfold planItemAt in Hitem. fold plans in Hitem.
  destruct (plans !! mealType) as [items |] eqn:Hplans; [| done]. simpl in Hitem.
  pose proof (at_index_Some _ _ _ Hitem) as Hlt.
  split; [done |]. rewrite !count_dayMeals. split; [| split; [| split]].
  - unfold itemCount. rewrite lookup_alter_eq, Hplans. simpl. rewrite length_delete; [lia |].
    unfold at_index in Hitem. destruct (0 <=? planIndex)%Z; [| done]. by eexists.
  - unfold itemCount. rewrite lookup_insert_eq. simpl. rewrite length_app. simpl. lia.
  - unfold JSON.dayMeals. rewrite lookup_fmap, lookup_insert_eq. simpl.
    rewrite fmap_app. cbn [fmap list_fmap]. by rewrite last_snoc.
  - intros other Hne. rewrite !count_dayMeals. unfold itemCount.
    by rewrite lookup_alter_ne, lookup_insert_ne by done.
Qed.

Lemma convertPlanToMeal_moves_witness :
  let converted :=
    convertPlanToMeal true true Sample.state "2024-02-29" "1700000000002" "dinner" 0 in
  let plans := getMealPlans (stored Sample.state) "2024-02-29" "1700000000002" in
  let meals := getMeals (stored Sample.state) "2024-02-29" "1700000000002" in
  let plans' := getMealPlans (stored converted.2) "2024-02-29" "1700000000002" in
  let meals' := getMeals (stored converted.2) "2024-02-29" "1700000000002" in
  converted.1 = true
  ∧ S (itemCount plans' "dinner") = itemCount plans "dinner"
  ∧ itemCount meals' "dinner" = S (itemCount meals "dinner")
  ∧ last (default [] (meals' !! "dinner")) = Some (JSON.mealItem Sample.oneChicken)
  ∧ (∀ other, other ≠ "dinner" →
       itemCount plans' other = itemCount plans other
       ∧ itemCount meals' other = itemCount meals other).
Proof.
  apply (convertPlanToMeal_moves Sample.state "2024-02-29" "1700000000002" "dinner" 0
           Sample.oneChicken).
  reflexivity.
Defined.


(** X21.  [convertPlanToMeal] answers [true] whenever the plan item exists,
    whatever became of its two writes: when only the second is refused the
    item stays in the plans and is in the meals as well, when only the
    first is refused it leaves the plans and reaches no meal.  Without a
    plan item at the index it answers [false] and writes nothing. *)
Theorem convertPlanToMeal_ignores_refused_writes (accepted1 accepted2 : bool)
    st date familyMemberId mealType (planIndex : Z) :
  let converted :=
    convertPlanToMeal accepted1 accepted2 st date familyMemberId mealType planIndex in
  let plans := getMealPlans (stored st) date familyMemberId in
  let meals := getMeals (stored st) date familyMemberId in
  let plans' := getMealPlans (stored converted.2) date familyMemberId in
  let meals' := getMeals (stored converted.2) date familyMemberId in
  match planItemAt st date familyMemberId mealType planIndex with
  | None => converted = (false, st)
  | Some planItem =>
      converted.1 = true
      ∧ (accepted1 = false → meals' = meals)
      ∧ (accepted2 = false → plans' = plans)
      ∧ (accepted1 = true →
         itemCount meals' mealType = S (itemCount meals mealType))
      ∧ (accepted2 = true →
         S (itemCount plans' mealType) = itemCount plans mealType)
  end.
Proof.
  intros converted plans meals plans' meals'.
  destruct (planItemAt st date familyMemberId mealType planIndex) as [planItem |]
    eqn:Hitem.
  - subst converted plans' meals'.
    rewrite (convertPlanToMeal_found accepted1 accepted2 _ _ _ _ _ _ Hitem).
    cbn [fst snd]. rewrite getMeals_saveMealPlans.
    split; [done |]. split; [| split; [| split]].
    + by intros ->.
    + intros ->. cbn [saveMealPlans saveData snd]. apply getMealPlans_saveMeals.
    + intros ->. rewrite getMeals_saveMeals, decide_True by done.
      rewrite count_dayMeals. fold meals. unfold itemCount.
      rewrite lookup_insert_eq. simpl. rewrite length_app. simpl. lia.
    + intros ->. rewrite getMealPlans_saveMealPlans, decide_True by done.
      rewrite count_dayMeals. fold plans.
      unfold planItemAt in Hitem. fold plans in Hitem.
      destruct (plans !! mealType) as [items |] eqn:Hplans; [| done]. simpl in Hitem.
      pose proof (at_index_Some _ _ _ Hitem) as Hlt.
      unfold itemCount. rewrite lookup_alter_eq, Hplans. simpl.
      rewrite length_delete; [lia |].
      unfold at_index in Hitem. destruct (0 <=? planIndex)%Z; [| done]. by eexists.
  - subst converted. unfold convertPlanToMeal. unfold planItemAt in Hitem.
    by rewrite Hitem.
Qed.

(** *** The catalog *)

Lemma find_app_found (foodDatabase more : list FoodItem.t) (foodId : option ident)
    (f : FoodItem.t) :
  NutritionCalculator.find foodDatabase foodId = Some (Some f) →
  NutritionCalculator.find (foodDatabase ++ more) foodId = Some (Some f).
Proof.
  induction foodDatabase as [| g rest IH]; simpl; [done |].
  destruct foodId as [i |]; simpl; [| done].
  destruct (String.eqb _ _); [done | apply IH].
Qed.

Lemma find_app_other (foodDatabase : list FoodItem.t) (new : FoodItem.t) (i : ident) :
  JS.toString (FoodItem.id new) ≠ JS.toString i →
  NutritionCalculator.find (foodDatabase ++ [new]) (Some i)
  = NutritionCalculator.find foodDatabase (Some i).
Proof.
  intros Hne. induction foodDatabase as [| g rest IH]; simpl.
  - apply String.eqb_neq in Hne. by rewrite Hne.
  - destruct (String.eqb _ _); [done | apply IH].
Qed.

Lemma forEachItem_app_settled (foodDatabase : list FoodItem.t) (new : FoodItem.t)
    (items : list MealItem.t) (totals : Totals) :
  Forall (settled foodDatabase new) items →
  NutritionCalculator.forEachItem (foodDatabase ++ [new]) items totals
  = NutritionCalculator.forEachItem foodDatabase items totals.
Proof.
  intros H. revert totals. induction H as [| item items Hitem _ IH]; intros totals.
  - done.
  - cbn [NutritionCalculator.forEachItem].
    assert (NutritionCalculator.addItem (foodDatabase ++ [new]) totals item
            = NutritionCalculator.addItem foodDatabase totals item) as ->.
    { unfold NutritionCalculator.addItem.
      destruct Hitem as [[f Hf] | (i & Hi & Hne)].
      - by rewrite (find_app_found _ _ _ _ Hf), Hf.
      - by rewrite Hi, find_app_other. }
    destruct (NutritionCalculator.addItem foodDatabase totals item); simpl;
      [apply IH | done].
Qed.

(** X22.  [addFoodToDatabase] returns the object it built, the argument
    with its id set, and puts that item, as JSON keeps it, at the end of
    the catalog.  The id is the argument's own id when it has one and the
    printed reading of the clock otherwise.  Every id that found a food
    still finds the same one, so an item whose id prints like an older one
    is never found, and the totals of a meal are what they were when each
    entry found its food before or names a food the new item does not
    answer to. *)
Theorem addFoodToDatabase_keeps_foods (now : Z) st (food : NewFood.t) :
  let added := addFoodToDatabase true now st food in
  let foodDatabase := getFoodDatabase (stored st) in
  let id := default (IdStr (JSDate.digits now)) (NewFood.id food) in
  added.1 = Some (NewFood.withId id food)
  ∧ getFoodDatabase (stored added.2) = foodDatabase ++ [JSON.food id food]
  ∧ (∀ foodId f,
       NutritionCalculator.find foodDatabase foodId = Some (Some f) →
       NutritionCalculator.find (getFoodDatabase (stored added.2)) foodId
       = Some (Some f))
  ∧ (∀ items,
       Forall (settled foodDatabase (JSON.food id food)) items →
       NutritionCalculator.calculateMealNutrition (Some items)
         (getFoodDatabase (stored added.2))
       = NutritionCalculator.calculateMealNutrition (Some items) foodDatabase)
  ∧ (∀ date familyMemberId,
       getMeals (stored added.2) date familyMemberId
       = getMeals (stored st) date familyMemberId)
  ∧ addFoodToDatabase false now st food = (None, st).
Proof.
  intros added foodDatabase id.
  assert (getFoodDatabase (stored added.2) = foodDatabase ++ [JSON.food id food])
    as Hdb by reflexivity.
  split; [done |]. split; [done |]. split; [| split; [| done]].
  - intros foodId f Hf. rewrite Hdb. by apply find_app_found.
  - intros items Hitems. rewrite Hdb.
    unfold NutritionCalculator.calculateMealNutrition.
    rewrite !calculateMealNutrition_try_eq.
    by rewrite forEachItem_app_settled.
Qed.

Lemma getFoodById_numbers st (text : string) :
  Forall (λ f, ∃ n, FoodItem.id f = IdNum n) (getFoodDatabase (stored st)) →
  getFoodById st (IdStr text) = None.
Proof.
  unfold getFoodById. generalize (getFoodDatabase (stored st)) as foodDatabase.
  intros foodDatabase H. induction H as [| f rest [n Hn] _ IH]; [done |].
  simpl. by rewrite Hn.
Qed.

(** X23.  [getFoodById] compares with [===]: the food it returns has exactly
    the id asked for, and [calculateMealNutrition], which compares the
    printed ids, finds a food for that id too.  The converse fails: in a
    catalog whose ids are numbers, as the one that ships, no string finds
    a food. *)
Theorem getFoodById_strict st (foodId : ident) (food : FoodItem.t) :
  getFoodById st foodId = Some food →
  FoodItem.id food = foodId
  ∧ food ∈ getFoodDatabase (stored st)
  ∧ (∃ found,
       NutritionCalculator.find (getFoodDatabase (stored st)) (Some foodId)
       = Some (Some found)
       ∧ JS.toString (FoodItem.id found) = JS.toString foodId)
  ∧ (Forall (λ f, ∃ n, FoodItem.id f = IdNum n) (getFoodDatabase (stored st)) →
     ∀ text, getFoodById st (IdStr text) = None).
Proof.
  intros Hfind.
  assert (∀ A B C D : Prop, (A ∧ B ∧ C) → D → A ∧ B ∧ C ∧ D) as Hsplit by tauto.
  apply Hsplit; [| intros Hn text; by apply getFoodById_numbers]. clear Hsplit.
  revert Hfind.
  unfold getFoodById. generalize (getFoodDatabase (stored st)) as foodDatabase.
  intros foodDatabase Hfind.
  assert (FoodItem.id food = foodId ∧ food ∈ foodDatabase) as [Hid Hin].
  { induction foodDatabase as [| f rest IH]; simpl in Hfind; [done |].
    destruct (JS.identEq (FoodItem.id f) foodId) eqn:E.
    - injection Hfind as ->. split; [| apply list_elem_of_here].
      destruct (FoodItem.id food) as [x | x], foodId as [y | y]; simpl in E; try done.
      + apply Z.eqb_eq in E. by subst.
      + apply String.eqb_eq in E. by subst.
    - destruct (IH Hfind) as [? ?]. split; [done | by apply list_elem_of_further]. }
  split; [done |]. split; [done |].
  clear Hfind. induction foodDatabase as [| f rest IH]; [by apply elem_of_nil in Hin |].
  simpl. destruct (String.eqb (JS.toString (FoodItem.id f)) (JS.toString foodId)) eqn:E.
  - exists f. split; [done |]. by apply String.eqb_eq.
  - apply IH. apply elem_of_cons in Hin as [-> | Hin]; [| done].
    rewrite Hid, String.eqb_refl in E. done.
Qed.

Lemma getFoodById_strict_witness :
  FoodItem.id Sample.chickenBreast = IdNum 2
  ∧ Sample.chickenBreast ∈ getFoodDatabase (stored Sample.state)
  ∧ (∃ found,
       NutritionCalculator.find (getFoodDatabase (stored Sample.state)) (Some (IdNum 2))
       = Some (Some found)
       ∧ JS.toString (FoodItem.id found) = JS.toString (IdNum 2))
  ∧ (Forall (λ f, ∃ n, FoodItem.id f = IdNum n) (getFoodDatabase (stored Sample.state)) →
     ∀ text, getFoodById Sample.state (IdStr text) = None).
Proof.
  apply (getFoodById_strict Sample.state (IdNum 2) Sample.chickenBreast). reflexivity.
Defined.

End Storage.

(* ===================================================================== *)
(** ** Statistics                                                        *)
(* ===================================================================== *)

Section Statistics.

Import Visualizer Reference.

Lemma validValues_not_NaN (values : list (option number)) (x : number) :
  x ∈ validValues values → JS.isNaN x = false ∧ Some x ∈ values.
Proof.
  unfold validValues. rewrite list_elem_of_omap. intros (val & Hin & Hval).
  destruct val as [y |]; simpl in Hval; [| done].
  destruct (JS.isNaN y) eqn:E; [done |]. injection Hval as ->. done.
Qed.

Lemma ltb_irrefl (x : number) : JS.ltb x x = false.
Proof.
  destruct x as [q | | |]; simpl; try done.
  apply negb_false_iff. apply Qle_bool_iff. apply Qle_refl.
Qed.

Lemma ltb_trans_false (x y z : number) :
  JS.isNaN y = false →
  JS.ltb y x = false → JS.ltb z y = false → JS.ltb z x = false.
Proof.
  destruct x as [a | | |], y as [b | | |], z as [c | | |]; simpl; try done.
  rewrite !negb_false_iff, !Qle_bool_iff. intros _ H1 H2. by apply Qle_trans with b.
Qed.

Lemma min2_cases (a b : number) :
  JS.isNaN a = false → JS.isNaN b = false →
  (JS.min2 a b = a ∨ JS.min2 a b = b)
  ∧ JS.isNaN (JS.min2 a b) = false
  ∧ JS.ltb a (JS.min2 a b) = false ∧ JS.ltb b (JS.min2 a b) = false.
Proof.
  intros Ha Hb. unfold JS.min2.
  destruct a as [x | | |], b as [y | | |]; try done; simpl;
    try (repeat split; (by left) || (by right) || done ||
         (apply negb_false_iff, Qle_bool_iff, Qle_refl)).
  destruct (Qle_bool x y) eqn:E; simpl.
  - split; [by left |]. split; [done |]. split.
    + apply negb_false_iff, Qle_bool_iff, Qle_refl.
    + by rewrite E.
  - split; [by right |]. split; [done |]. split.
    + apply negb_false_iff, Qle_bool_iff.
      destruct (Qlt_le_dec y x) as [H | H]; [by apply Qlt_le_weak |].
      apply Qle_bool_iff in H. congruence.
    + apply negb_false_iff, Qle_bool_iff, Qle_refl.
Qed.

Lemma max2_cases (a b : number) :
  JS.isNaN a = false → JS.isNaN b = false →
  (JS.max2 a b = a ∨ JS.max2 a b = b)
  ∧ JS.isNaN (JS.max2 a b) = false
  ∧ JS.ltb (JS.max2 a b) a = false ∧ JS.ltb (JS.max2 a b) b = false.
Proof.
  intros Ha Hb. unfold JS.max2.
  destruct a as [x | | |], b as [y | | |]; try done; simpl;
    try (repeat split; (by left) || (by right) || done ||
         (apply negb_false_iff, Qle_bool_iff, Qle_refl)).
  destruct (Qle_bool y x) eqn:E; simpl.
  - split; [by left |]. split; [done |]. split.
    + apply negb_false_iff, Qle_bool_iff, Qle_refl.
    + by rewrite E.
  - split; [by right |]. split; [done |]. split.
    + apply negb_false_iff, Qle_bool_iff.
      destruct (Qlt_le_dec x y) as [H | H]; [by apply Qlt_le_weak |].
      apply Qle_bool_iff in H. congruence.
    + apply negb_false_iff, Qle_bool_iff, Qle_refl.
Qed.

Lemma Math_min_bound (l : list number) :
  Forall (λ x, JS.isNaN x = false) l →
  JS.isNaN (JS.Math_min l) = false
  ∧ Forall (λ x, JS.ltb x (JS.Math_min l) = false) l
  ∧ (l ≠ [] → JS.Math_min l ∈ l).
Proof.
  induction 1 as [| x l Hx Hl IH]; [by repeat split |].
  destruct IH as (Hn & Hb & Hin). unfold JS.Math_min in *. cbn [foldr].
  destruct (min2_cases x (foldr JS.min2 PosInf l) Hx Hn) as (Hc & Hn' & H1 & H2).
  split; [done |]. split.
  - apply Forall_cons. split; [done |].
    eapply Forall_impl; [exact Hb |]. intros y Hy. simpl in Hy.
    by apply (ltb_trans_false _ (foldr JS.min2 PosInf l)).
  - intros _. destruct l as [| y l'].
    + simpl. replace (JS.min2 x PosInf) with x by (by destruct x).
      apply list_elem_of_here.
    + destruct Hc as [-> | ->]; [apply list_elem_of_here |].
      by apply list_elem_of_further, Hin.
Qed.


Lemma Math_max_bound (l : list number) :
  Forall (λ x, JS.isNaN x = false) l →
  JS.isNaN (JS.Math_max l) = false
  ∧ Forall (λ x, JS.ltb (JS.Math_max l) x = false) l
  ∧ (l ≠ [] → JS.Math_max l ∈ l).
Proof.
  induction 1 as [| x l Hx Hl IH]; [by repeat split |].
  destruct IH as (Hn & Hb & Hin). unfold JS.Math_max in *. cbn [foldr].
  destruct (max2_cases x (foldr JS.max2 NegInf l) Hx Hn) as (Hc & Hn' & H1 & H2).
  split; [done |]. split.
  - apply Forall_cons. split; [done |].
    eapply Forall_impl; [exact Hb |]. intros y Hy. simpl in Hy.
    by apply (ltb_trans_false _ (foldr JS.max2 NegInf l)).
  - intros _. destruct l as [| y l'].
    + simpl. replace (JS.max2 x NegInf) with x by (by destruct x).
      apply list_elem_of_here.
    + destruct Hc as [-> | ->]; [apply list_elem_of_here |].
      by apply list_elem_of_further, Hin.
Qed.

Lemma validValues_all (values : list (option number)) :
  Forall (λ x, JS.isNaN x = false) (validValues values).
Proof.
  apply Forall_forall. intros x Hx. by apply validValues_not_NaN in Hx as [? _].
Qed.

Lemma sum_without_valid (values : list (option number)) (total : number) :
  validValues values = [] →
  total = Fin 0 ∨ total = NaN →
  foldl (λ total val, JS.add total (default (Fin 0) val)) total values = Fin 0
  ∨ foldl (λ total val, JS.add total (default (Fin 0) val)) total values = NaN.
Proof.
  revert total. induction values as [| val values IH]; intros total Hv Ht; [done |].
  unfold validValues in Hv. cbn [omap list_omap] in Hv.
  destruct val as [x |]; cbn [mbind option_bind] in Hv.
  - destruct x as [q | | |]; try done. cbn [foldl]. apply IH; [done |].
    right. by destruct Ht as [-> | ->].
  - cbn [foldl]. apply IH; [done |]. destruct Ht as [-> | ->]; [by left | by right].
Qed.

(** X24.  [calculateStats] on a non-empty array: [count] is the number of
    entries that are neither [null] nor [NaN]; [min] and [max] are two of
    them, no one of them is below [min] or above [max]; and [avg] is [sum]
    over [count].  When no entry counts, [min] is [Infinity], [max] is
    [-Infinity] and [avg] is [NaN].  A [NaN] entry is left out of [count],
    [min] and [max] but makes [sum] and [avg] [NaN].  An empty array, or
    none, gives zeros. *)
Theorem calculateStats_bounds (first : option number) (rest : list (option number)) :
  let values := first :: rest in
  let stats := calculateStats (Some values) in
  count stats = length (validValues values)
  ∧ avg stats = JS.div (sum stats) (JS.ofZ (Z.of_nat (count stats)))
  ∧ Forall (λ x, JS.ltb x (min stats) = false ∧ JS.ltb (max stats) x = false)
      (validValues values)
  ∧ (validValues values ≠ [] →
     min stats ∈ validValues values ∧ max stats ∈ validValues values)
  ∧ (validValues values = [] →
     min stats = PosInf ∧ max stats = NegInf ∧ avg stats = NaN)
  ∧ (Some NaN ∈ values → sum stats = NaN ∧ avg stats = NaN)
  ∧ calculateStats (Some []) = mkStats (Fin 0) (Fin 0) (Fin 0) (Fin 0) 0
  ∧ calculateStats None = mkStats (Fin 0) (Fin 0) (Fin 0) (Fin 0) 0.
Proof.
  intros values stats.
  assert (stats = mkStats (JS.Math_min (validValues values))
                    (JS.Math_max (validValues values))
                    (JS.div (foldl (λ total val, JS.add total (default (Fin 0) val))
                               (Fin 0) values)
                       (JS.ofZ (Z.of_nat (length (validValues values)))))
                    (foldl (λ total val, JS.add total (default (Fin 0) val))
                       (Fin 0) values)
                    (length (validValues values))) as -> by reflexivity.
  cbn [count avg sum min max].
  destruct (Math_min_bound _ (validValues_all values)) as (_ & Hmin & Hmin_in).
  destruct (Math_max_bound _ (validValues_all values)) as (_ & Hmax & Hmax_in).
  split; [done |]. split; [done |]. split; [| split; [| split; [| split; [| done]]]].
  - rewrite Forall_forall in Hmin, Hmax. apply Forall_forall. intros x Hx.
    split; [by apply Hmin | by apply Hmax].
  - intros Hne. split; [by apply Hmin_in | by apply Hmax_in].
  - intros Hnone. rewrite Hnone. split; [done |]. split; [done |].
    destruct (sum_without_valid values (Fin 0) Hnone (or_introl eq_refl)) as [-> | ->];
      reflexivity.
  - intros Hnan. apply list_elem_of_split in Hnan as (l1 & l2 & ->).
    rewrite foldl_app. cbn [foldl default from_option id].
    by rewrite add_NaN_r, foldl_add_NaN.
Qed.

End Statistics.

(* ===================================================================== *)
(** ** Color gradients                                                   *)
(* ===================================================================== *)

Section Colors.

Import Visualizer Reference.

Lemma hexDigit_cases (c : ascii) (h : Z) :
  hexDigit c = Some h →
  In (JS.lowerAscii c, h)
     [("0"%char, 0%Z); ("1"%char, 1%Z); ("2"%char, 2%Z); ("3"%char, 3%Z);
      ("4"%char, 4%Z); ("5"%char, 5%Z); ("6"%char, 6%Z); ("7"%char, 7%Z);
      ("8"%char, 8%Z); ("9"%char, 9%Z); ("a"%char, 10%Z); ("b"%char, 11%Z);
      ("c"%char, 12%Z); ("d"%char, 13%Z); ("e"%char, 14%Z); ("f"%char, 15%Z)].
Proof.
  intros H.
  destruct c as [[] [] [] [] [] [] [] []]; try discriminate H;
    injection H as <-; vm_compute; tauto.
Qed.

Lemma hexDigit_range (c : ascii) (h : Z) : hexDigit c = Some h → (0 ≤ h ≤ 15)%Z.
Proof.
  intros H. apply hexDigit_cases in H. simpl in H.
  repeat (destruct H as [H | H]; [injection H as _ <-; lia |]). done.
Qed.

Lemma parseHexPair_range (c1 c2 : ascii) (n : Z) :
  parseHexPair c1 c2 = Some n → (0 ≤ n ≤ 255)%Z.
Proof.
  unfold parseHexPair. intros H.
  destruct (hexDigit c1) as [h1 |] eqn:E1; [| done].
  destruct (hexDigit c2) as [h2 |] eqn:E2; [| done].
  apply hexDigit_range in E1, E2. injection H as <-. lia.
Qed.

(** Writing a channel that was read gives its two digits, in lower case. *)
Lemma hexOf_lower (c1 c2 : ascii) (n : Z) :
  parseHexPair c1 c2 = Some n →
  hexOf (JS.ofZ n) = String (JS.lowerAscii c1) (String (JS.lowerAscii c2) "").
Proof.
  unfold parseHexPair. intros H.
  destruct (hexDigit c1) as [h1 |] eqn:E1; [| done].
  destruct (hexDigit c2) as [h2 |] eqn:E2; [| done].
  injection H as <-.
  apply hexDigit_cases in E1, E2.
  generalize dependent (JS.lowerAscii c1). generalize dependent (JS.lowerAscii c2).
  intros a2 E2 a1 E1. simpl in E1, E2.
  repeat (destruct E1 as [E1 | E1]; [injection E1 as <- <- |]); [.. | done];
    repeat (destruct E2 as [E2 | E2]; [injection E2 as <- <- |]); try done;
    vm_compute; reflexivity.
Qed.

(** Reading a channel from 0 to 255 that was written gives it back. *)
Lemma hexOf_parse (z : Z) :
  (0 ≤ z ≤ 255)%Z →
  ∃ c1 c2, hexOf (JS.ofZ z) = String c1 (String c2 "") ∧ parseHexPair c1 c2 = Some z.
Proof.
  intros Hz.
  assert (forallb (λ z, match hexOf (JS.ofZ z) with
                        | String c1 (String c2 EmptyString) =>
                            match parseHexPair c1 c2 with
                            | Some n => (n =? z)%Z
                            | None => false
                            end
                        | _ => false
                        end) (seqZ 0 256) = true) as H by (vm_compute; reflexivity).
  rewrite forallb_forall in H. specialize (H z).
  assert (In z (seqZ 0 256)) as Hin by (apply list_elem_of_In, elem_of_seqZ; lia).
  specialize (H Hin).
  destruct (hexOf (JS.ofZ z)) as [| c1 [| c2 [| ? ?]]]; try discriminate H.
  exists c1, c2. split; [done |].
  destruct (parseHexPair c1 c2) as [n |]; [| discriminate H].
  apply Z.eqb_eq in H. by subst.
Qed.

Lemma hexOf_rounded (x : number) (z : Z) :
  JS.Math_round x = JS.ofZ z → hexOf x = hexOf (JS.ofZ z).
Proof.
  intros H. unfold hexOf. rewrite H.
  replace (JS.Math_round (JS.ofZ z)) with (JS.ofZ z); [done |].
  unfold JS.Math_round, JS.ofZ. by rewrite Qfloor_half.
Qed.

(** The value of a channel in round [i] of [steps], rounded. *)
Lemma channel_rounded (start end_ i steps : Z) :
  (2 ≤ steps)%Z → (0 ≤ i < steps)%Z →
  ∃ z, JS.Math_round (channel start end_ i steps) = JS.ofZ z
       ∧ between start end_ z
       ∧ (i = 0%Z → z = start)
       ∧ (i = (steps - 1)%Z → z = end_).
Proof.
  intros Hsteps Hi. unfold channel, JS.ofZ, JS.sub, JS.mul.
  set (n := Qred (inject_Z steps - 1)).
  assert (n == inject_Z (steps - 1))%Q as Hn.
  { unfold n. rewrite Qred_correct. unfold Z.sub. rewrite inject_Z_plus. reflexivity. }
  assert (0 < n)%Q as Hpos.
  { rewrite Hn. change 0%Q with (inject_Z 0). rewrite <- Zlt_Qlt. lia. }
  unfold JS.div. rewrite (proj2 (signQ_Gt n) Hpos). unfold JS.add, JS.Math_round.
  set (d := Qred (inject_Z end_ - inject_Z start)).
  assert (d == inject_Z end_ - inject_Z start)%Q as Hd by (unfold d; apply Qred_correct).
  set (t := (inject_Z i / n)%Q).
  assert (0 <= t <= 1)%Q as Ht.
  { unfold t. split.
    - apply Qle_shift_div_l; [done |]. rewrite Qmult_0_l.
      change 0%Q with (inject_Z 0). rewrite <- Zle_Qle. lia.
    - apply Qle_shift_div_r; [done |]. rewrite Qmult_1_l, Hn. rewrite <- Zle_Qle. lia. }
  set (q := Qred (inject_Z start + Qred (Qred (d * inject_Z i) / n))).
  assert (q == inject_Z start + (inject_Z end_ - inject_Z start) * t)%Q as Hq.
  { unfold q, t. rewrite !Qred_correct, Hd. field. lra. }
  exists (Spec.nearestInteger q). split; [reflexivity |].
  split; [| split].
  - unfold between. split.
    + apply nearestInteger_ge. rewrite Hq.
      destruct (Z.le_ge_cases start end_) as [Hle | Hge].
      * rewrite Z.min_l by done. rewrite Zle_Qle in Hle. nra.
      * rewrite Z.min_r by lia. rewrite Zle_Qle in Hge. nra.
    + apply nearestInteger_le. rewrite Hq.
      destruct (Z.le_ge_cases start end_) as [Hle | Hge].
      * rewrite Z.max_r by done. rewrite Zle_Qle in Hle. nra.
      * rewrite Z.max_l by lia. rewrite Zle_Qle in Hge. nra.
  - intros ->. unfold Spec.nearestInteger.
    rewrite <- (Qfloor_half start). apply Qfloor_comp. rewrite Hq. unfold t.
    change (inject_Z 0) with 0%Q. field. lra.
  - intros ->. unfold Spec.nearestInteger.
    rewrite <- (Qfloor_half end_). apply Qfloor_comp. rewrite Hq. unfold t.
    rewrite <- Hn. field. lra.
Qed.

Lemma mapM_total {A B : Type} (f : A → B) (l : list A) :
  mapM (λ x, Some (f x)) l = Some (f <$> l).
Proof. induction l as [| x l IH]; [done |]. simpl. by rewrite IH. Qed.

Lemma generateColorGradient_colors (startColor endColor : string) (steps : Z)
    (s e : Rgb) :
  hexToRgb startColor = Some s → hexToRgb endColor = Some e →
  generateColorGradient startColor endColor steps
  = Some ((λ i, rgbToHex (channel (r s) (r e) i steps) (channel (g s) (g e) i steps)
                  (channel (b s) (b e) i steps)) <$> seqZ 0 steps).
Proof.
  intros Hs He. unfold generateColorGradient. rewrite Hs, He. simpl.
  apply mapM_total.
Qed.

Lemma hexToRgb_channels (hex : string) (c : Rgb) :
  hexToRgb hex = Some c →
  (0 ≤ r c ≤ 255)%Z ∧ (0 ≤ g c ≤ 255)%Z ∧ (0 ≤ b c ≤ 255)%Z
  ∧ rgbToHex (JS.ofZ (r c)) (JS.ofZ (g c)) (JS.ofZ (b c)) = normalColor hex.
Proof.
  unfold hexToRgb, normalColor.
  set (digits := match hex with String "#" rest => rest | _ => hex end).
  destruct digits as [| c1 [| c2 [| c3 [| c4 [| c5 [| c6 [| ? ?]]]]]]]; try done.
  intros H.
  destruct (parseHexPair c1 c2) as [x |] eqn:E1; [| done].
  destruct (parseHexPair c3 c4) as [y |] eqn:E2; [| done].
  destruct (parseHexPair c5 c6) as [z |] eqn:E3; [| done].
  injection H as <-. cbn [r g b].
  split; [by eapply parseHexPair_range |].
  split; [by eapply parseHexPair_range |].
  split; [by eapply parseHexPair_range |].
  unfold rgbToHex.
  rewrite (hexOf_lower _ _ _ E1), (hexOf_lower _ _ _ E2), (hexOf_lower _ _ _ E3).
  reflexivity.
Qed.

Lemma rgbToHex_parse (x y z : number) (zx zy zz : Z) :
  JS.Math_round x = JS.ofZ zx → JS.Math_round y = JS.ofZ zy →
  JS.Math_round z = JS.ofZ zz →
  (0 ≤ zx ≤ 255)%Z → (0 ≤ zy ≤ 255)%Z → (0 ≤ zz ≤ 255)%Z →
  hexToRgb (rgbToHex x y z) = Some (mkRgb zx zy zz).
Proof.
  intros Hx Hy Hz Rx Ry Rz. unfold rgbToHex.
  rewrite (hexOf_rounded _ _ Hx), (hexOf_rounded _ _ Hy), (hexOf_rounded _ _ Hz).
  destruct (hexOf_parse zx Rx) as (a1 & a2 & -> & Ea).
  destruct (hexOf_parse zy Ry) as (b1 & b2 & -> & Eb).
  destruct (hexOf_parse zz Rz) as (c1 & c2 & -> & Ec).
  unfold hexToRgb. cbv beta iota zeta fix delta [String.append]. by rewrite Ea, Eb, Ec.
Qed.

(** X25.  Between two colors the pattern accepts, a gradient of two
    steps or more has [steps] colors; the first is the start color and the
    last is the end color, each written with [#] and in lower case; and
    every color is one the pattern accepts, each of its channels lying
    between the channels of the two ends. *)
Theorem generateColorGradient_ends (startColor endColor : string) (steps : Z)
    (s e : Rgb) :
  hexToRgb startColor = Some s → hexToRgb endColor = Some e → (2 ≤ steps)%Z →
  ∃ colors,
    generateColorGradient startColor endColor steps = Some colors
    ∧ length colors = Z.to_nat steps
    ∧ head colors = Some (normalColor startColor)
    ∧ last colors = Some (normalColor endColor)
    ∧ Forall (λ color, ∃ c, hexToRgb color = Some c
                            ∧ between (r s) (r e) (r c)
                            ∧ between (g s) (g e) (g c)
                            ∧ between (b s) (b e) (b c)) colors.
Proof.
  intros Hs He Hsteps. eexists. split; [by apply generateColorGradient_colors |].
  destruct (hexToRgb_channels _ _ Hs) as (Rs & Gs & Bs & Hstart).
  destruct (hexToRgb_channels _ _ He) as (Re & Ge & Be & Hend).
  set (color := λ i, rgbToHex (channel (r s) (r e) i steps)
                       (channel (g s) (g e) i steps) (channel (b s) (b e) i steps)).
  assert (∀ i, (0 ≤ i < steps)%Z →
            ∃ zr zg zb,
              JS.Math_round (channel (r s) (r e) i steps) = JS.ofZ zr
              ∧ JS.Math_round (channel (g s) (g e) i steps) = JS.ofZ zg
              ∧ JS.Math_round (channel (b s) (b e) i steps) = JS.ofZ zb
              ∧ between (r s) (r e) zr ∧ between (g s) (g e) zg
              ∧ between (b s) (b e) zb
              ∧ (i = 0%Z → zr = r s ∧ zg = g s ∧ zb = b s)
              ∧ (i = (steps - 1)%Z → zr = r e ∧ zg = g e ∧ zb = b e)) as Hround.
  { intros i Hi.
    destruct (channel_rounded (r s) (r e) i steps Hsteps Hi) as (zr & Hr & Br & Sr & Er).
    destruct (channel_rounded (g s) (g e) i steps Hsteps Hi) as (zg & Hg & Bg & Sg & Eg).
    destruct (channel_rounded (b s) (b e) i steps Hsteps Hi) as (zb & Hb & Bb & Sb & Eb).
    exists zr, zg, zb.
    split; [done |]. split; [done |]. split; [done |].
    split; [done |]. split; [done |]. split; [done |]. split.
    - intros H0. by rewrite (Sr H0), (Sg H0), (Sb H0).
    - intros H1. by rewrite (Er H1), (Eg H1), (Eb H1). }
  split; [by rewrite length_fmap, length_seqZ |]. split; [| split].
  - rewrite seqZ_cons by lia. cbn [fmap list_fmap head]. f_equal.
    destruct (Hround 0%Z ltac:(lia)) as (zr & zg & zb & Hr & Hg & Hb & _ & _ & _ & H0 & _).
    destruct (H0 eq_refl) as (-> & -> & ->). rewrite <- Hstart. unfold color, rgbToHex.
    by rewrite (hexOf_rounded _ _ Hr), (hexOf_rounded _ _ Hg), (hexOf_rounded _ _ Hb).
  - rewrite last_lookup, length_fmap, length_seqZ, list_lookup_fmap.
    rewrite (lookup_seqZ_lt _ _ _) by lia. cbn [fmap option_fmap option_map]. f_equal.
    replace (0 + Z.of_nat (Nat.pred (Z.to_nat steps)))%Z with (steps - 1)%Z by lia.
    destruct (Hround (steps - 1)%Z ltac:(lia))
      as (zr & zg & zb & Hr & Hg & Hb & _ & _ & _ & _ & H1).
    destruct (H1 eq_refl) as (-> & -> & ->). rewrite <- Hend. unfold color, rgbToHex.
    by rewrite (hexOf_rounded _ _ Hr), (hexOf_rounded _ _ Hg), (hexOf_rounded _ _ Hb).
  - apply Forall_fmap, Forall_forall. intros i Hin. apply elem_of_seqZ in Hin.
    destruct (Hround i ltac:(lia)) as (zr & zg & zb & Hr & Hg & Hb & Br & Bg & Bb & _).
    exists (mkRgb zr zg zb). cbn [r g b]. split; [| done].
    unfold between in *. unfold color. apply rgbToHex_parse; try done; lia.
Qed.

Lemma generateColorGradient_ends_witness :
  ∃ colors,
    generateColorGradient "#FF0000" "00ff80" 5 = Some colors
    ∧ length colors = Z.to_nat 5
    ∧ head colors = Some (normalColor "#FF0000")
    ∧ last colors = Some (normalColor "00ff80")
    ∧ Forall (λ color, ∃ c, hexToRgb color = Some c
                            ∧ between 255 0 (r c)
                            ∧ between 0 255 (g c)
                            ∧ between 0 128 (b c)) colors.
Proof.
  apply (generateColorGradient_ends "#FF0000" "00ff80" 5 (mkRgb 255 0 0) (mkRgb 0 255 128));
    [reflexivity | reflexivity | lia].
Defined.

(** X26.  A gradient of no step, or of a negative number of steps, is
    empty, whatever the two strings.  A gradient of one step between two
    colors divides zero by zero: its only entry is ["#NaNNaNNaN"].  With
    one step or more, a string the pattern does not accept makes the
    function throw. *)
Theorem generateColorGradient_degenerate (startColor endColor : string) (steps : Z) :
  ((steps ≤ 0)%Z → generateColorGradient startColor endColor steps = Some [])
  ∧ (is_Some (hexToRgb startColor) → is_Some (hexToRgb endColor) →
     generateColorGradient startColor endColor 1 = Some ["#NaNNaNNaN"])
  ∧ ((1 ≤ steps)%Z → hexToRgb startColor = None ∨ hexToRgb endColor = None →
     generateColorGradient startColor endColor steps = None).
Proof.
  split; [| split].
  - intros Hsteps. unfold generateColorGradient. unfold seqZ.
    replace (Z.to_nat steps) with 0%nat by lia. reflexivity.
  - intros [s Hs] [e He]. rewrite (generateColorGradient_colors _ _ _ s e Hs He).
    assert (∀ x y : Z, JS.Math_round (channel x y 0 1) = NaN) as Hnan.
    { intros x y. unfold channel, JS.ofZ, JS.sub, JS.mul.
      assert (Qred (Qred (inject_Z y - inject_Z x) * inject_Z 0) = 0%Q) as ->.
      { apply (Qred_complete _ 0). rewrite Qred_correct. change (inject_Z 0) with 0%Q. ring. }
      reflexivity. }
    change (seqZ 0 1) with [0%Z]. cbn [fmap list_fmap].
    unfold rgbToHex, hexOf. by rewrite !Hnan.
  - intros Hsteps Hnone. unfold generateColorGradient.
    rewrite seqZ_cons by lia. cbn [mapM].
    destruct Hnone as [-> | ->]; [done |]. by destruct (hexToRgb startColor).
Qed.

End Colors.

(* ===================================================================== *)
(** ** Averages of a report                                              *)
(* ===================================================================== *)

Section Averages.

Lemma foldl_add_bounds (values : list number) (lo hi acc : Q) :
  Forall (λ x, ∃ q, x = Fin q ∧ (lo <= q <= hi)%Q) values →
  ∃ total,
    foldl JS.add (Fin acc) values = Fin total
    ∧ (acc + lo * inject_Z (Z.of_nat (length values)) <= total
       <= acc + hi * inject_Z (Z.of_nat (length values)))%Q.
Proof.
  intros H. revert acc. induction H as [| x l (q & -> & Hq) _ IH]; intros acc.
  - exists acc. split; [done |]. cbn [length]. change (inject_Z (Z.of_nat 0)) with 0%Q. lra.
  - cbn [foldl JS.add length]. destruct (IH (Qred (acc + q))) as (total & -> & Ht).
    exists total. split; [done |].
    rewrite Qred_correct in Ht.
    rewrite Nat2Z.inj_succ, <- Z.add_1_r, inject_Z_plus.
    change (inject_Z 1) with 1%Q. lra.
Qed.

(** X27.  The average of an array of finite numbers that is not empty
    is a finite number between any two bounds of the entries; a [NaN]
    entry makes it [NaN]; an empty or missing array gives 0, not the
    [NaN] of a division of zero by zero. *)
Theorem calculateAverage_bounds (values : list number) (lo hi : Q) :
  (values ≠ [] →
   Forall (λ x, ∃ q, x = Fin q ∧ (lo <= q <= hi)%Q) values →
   ∃ a, App.calculateAverage (Some values) = Fin a ∧ (lo <= a <= hi)%Q)
  ∧ (NaN ∈ values → App.calculateAverage (Some values) = NaN)
  ∧ App.calculateAverage (Some []) = Fin 0
  ∧ App.calculateAverage None = Fin 0.
Proof.
  split; [| split; [| done]].
  - intros Hne H. destruct values as [| x l]; [done |].
    unfold App.calculateAverage.
    destruct (foldl_add_bounds (x :: l) lo hi 0 H) as (total & -> & Ht).
    set (n := Z.of_nat (length (x :: l))) in *.
    assert (1 ≤ n)%Z as Hn by (unfold n; simpl; lia).
    assert (0 < inject_Z n)%Q as Hpos.
    { change 0%Q with (inject_Z 0). rewrite <- Zlt_Qlt. lia. }
    unfold JS.div, JS.ofZ. rewrite (proj2 (signQ_Gt _) Hpos).
    eexists. split; [reflexivity |]. rewrite Qred_correct. split.
    + apply Qle_shift_div_l; [done |]. lra.
    + apply Qle_shift_div_r; [done |]. lra.
  - intros Hnan. destruct values as [| x l]; [by apply elem_of_nil in Hnan |].
    unfold App.calculateAverage.
    apply list_elem_of_split in Hnan as (l1 & l2 & ->).
    rewrite foldl_app. cbn [foldl]. rewrite add_NaN_r.
    change (foldl JS.add NaN l2) with (foldl (λ total y, JS.add total (id y)) NaN l2).
    by rewrite foldl_add_NaN.
Qed.

End Averages.

(* ===================================================================== *)
(** ** MealTracker and storage                                           *)
(* ===================================================================== *)

Section Tracker.

Import DataStore MealTracker Shape Reference.

Implicit Types (t : Tracker) (st : State) (mealType foodId notes status : string)
               (servings : number) (index : Z) (targetData : DayMeals).

Lemma roundTrip_idemp (x : option number) :
  JSON.roundTrip (JSON.roundTrip x) = JSON.roundTrip x.
Proof. by destruct x as [[] |]. Qed.

Lemma dayMeals_idemp (meals : DayMeals) :
  JSON.dayMeals (JSON.dayMeals meals) = JSON.dayMeals meals.
Proof.
  unfold JSON.dayMeals. rewrite <- map_fmap_compose. apply map_fmap_ext.
  intros _ items _. simpl. rewrite <- list_fmap_compose. apply list_fmap_ext.
  intros _ [i servings n] _. unfold JSON.mealItem. simpl. by rewrite roundTrip_idemp.
Qed.

(** An accepted write puts the tracker in step, whichever of the two
    variables was written. *)
Lemma save_inStep (consumed : bool) t st targetData :
  inStep t st →
  inStep (save true consumed t st targetData).1 (save true consumed t st targetData).2.
Proof.
  intros [Hmeals Hplans]. unfold inStep, save. destruct consumed; cbn [fst snd].
  - cbn [meals mealPlans currentDate memberText currentFamilyMemberId withMeals].
    change (memberText (withMeals t targetData)) with (memberText t).
    rewrite getMeals_saveMeals, decide_True by done.
    rewrite getMealPlans_saveMeals. by rewrite dayMeals_idemp.
  - cbn [meals mealPlans currentDate memberText currentFamilyMemberId withMealPlans].
    change (memberText (withMealPlans t targetData)) with (memberText t).
    rewrite getMealPlans_saveMealPlans, decide_True by done.
    rewrite getMeals_saveMealPlans. by rewrite dayMeals_idemp.
Qed.

(** X28.  Once the tracker is in step with storage, it stays so through
    [addMeal], [updateMeal] and [deleteMeal] whose writes are accepted, and
    through [consumePlannedMeal] in every case.  [loadMeals] with a
    selected member puts it in step.  An [addMeal] whose write is refused
    leaves storage as it was and the new item in the tracker's list. *)
Theorem tracker_in_step t st :
  inStep t st →
  (∀ mealType foodId servings notes status,
     inStep (addMeal true t st mealType foodId servings notes status).1
            (addMeal true t st mealType foodId servings notes status).2)
  ∧ (∀ mealType index foodId servings notes,
       inStep (updateMeal true t st mealType index foodId servings notes).1
              (updateMeal true t st mealType index foodId servings notes).2)
  ∧ (∀ mealType index,
       inStep (deleteMeal true t st mealType index).1
              (deleteMeal true t st mealType index).2)
  ∧ (∀ (accepted1 accepted2 : bool) mealType index,
       inStep (consumePlannedMeal accepted1 accepted2 t st mealType index).1
              (consumePlannedMeal accepted1 accepted2 t st mealType index).2)
  ∧ (∀ t' st', JS.truthyString (currentFamilyMemberId t') = true →
               inStep (loadMeals t' st') st')
  ∧ (∀ mealType foodId servings notes,
       (addMeal false t st mealType foodId servings notes "consumed").2 = st
       ∧ itemCount (meals (addMeal false t st mealType foodId servings notes
                             "consumed").1) mealType
         = S (itemCount (meals t) mealType)).
Proof.
  intros Hstep. split; [| split; [| split; [| split; [| split]]]].
  - intros. unfold addMeal. by apply save_inStep.
  - intros. unfold updateMeal.
    destruct (_ ≫= _) as [item |]; [by apply save_inStep | done].
  - intros. unfold deleteMeal.
    destruct (_ ≫= _) as [item |]; [by apply save_inStep | done].
  - intros. unfold consumePlannedMeal.
    destruct (convertPlanToMeal _ _ _ _ _ _ _) as [[] st'] eqn:E; [| cbn [fst snd]].
    + done.
    + unfold convertPlanToMeal in E.
      destruct (_ ≫= _) as [item |]; [done |]. by injection E as <-.
  - intros t' st' Hmember. unfold loadMeals. rewrite Hmember. done.
  - intros. unfold addMeal, save. simpl String.eqb. cbv iota. cbn [fst snd].
    split; [done |]. cbn [meals withMeals]. unfold itemCount.
    rewrite lookup_insert_eq. cbn [default from_option id]. rewrite length_app. simpl. lia.
Qed.

Lemma tracker_in_step_witness :
  let t := loadMeals (mkTracker "2024-02-29" (Some "1700000000001") ∅ ∅ "consumed")
             Sample.state in
  (∀ mealType foodId servings notes status,
     inStep (addMeal true t Sample.state mealType foodId servings notes status).1
            (addMeal true t Sample.state mealType foodId servings notes status).2)
  ∧ (∀ mealType index foodId servings notes,
       inStep (updateMeal true t Sample.state mealType index foodId servings notes).1
              (updateMeal true t Sample.state mealType index foodId servings notes).2)
  ∧ (∀ mealType index,
       inStep (deleteMeal true t Sample.state mealType index).1
              (deleteMeal true t Sample.state mealType index).2)
  ∧ (∀ (accepted1 accepted2 : bool) mealType index,
       inStep (consumePlannedMeal accepted1 accepted2 t Sample.state mealType index).1
              (consumePlannedMeal accepted1 accepted2 t Sample.state mealType index).2)
  ∧ (∀ t' st', JS.truthyString (currentFamilyMemberId t') = true →
               inStep (loadMeals t' st') st')
  ∧ (∀ mealType foodId servings notes,
       (addMeal false t Sample.state mealType foodId servings notes "consumed").2
       = Sample.state
       ∧ itemCount (meals (addMeal false t Sample.state mealType foodId servings notes
                             "consumed").1) mealType
         = S (itemCount (meals t) mealType)).
Proof.
  apply (tracker_in_step
           (loadMeals (mkTracker "2024-02-29" (Some "1700000000001") ∅ ∅ "consumed")
              Sample.state) Sample.state).
  split; reflexivity.
Defined.

(** X29.  In the view of the consumed meals, deleting the item that
    [addMeal] has just put at the end gives back the list of the meal
    type, or the empty list where the day had none, both in the tracker
    and in storage; the other meal types and the plans are untouched.
    [updateMeal] replaces the item at its index and nothing else.  With no
    item at the index, [updateMeal] and [deleteMeal] change nothing. *)
Theorem addMeal_deleteMeal t st mealType foodId servings notes :
  viewMode t = "consumed" →
  let items := default [] (meals t !! mealType) in
  let added := addMeal true t st mealType foodId servings notes "consumed" in
  let deleted := deleteMeal true added.1 added.2 mealType (Z.of_nat (length items)) in
  meals added.1 = <[mealType := items ++ [mealItem foodId servings notes]]> (meals t)
  ∧ meals deleted.1 = <[mealType := items]> (meals t)
  ∧ getMeals (stored deleted.2) (currentDate t) (memberText t)
    = JSON.dayMeals (meals deleted.1)
  ∧ mealPlans deleted.1 = mealPlans t
  ∧ (∀ index item foodId' servings' notes',
       at_index items index = Some item →
       meals (updateMeal true t st mealType index foodId' servings' notes').1
       = <[mealType := <[Z.to_nat index := mealItem foodId' servings' notes']> items]>
           (meals t))
  ∧ (∀ index foodId' servings' notes',
       at_index items index = None →
       updateMeal true t st mealType index foodId' servings' notes' = (t, st)
       ∧ deleteMeal true t st mealType index = (t, st)).
Proof.
  intros Hview items added deleted.
  assert (meals added.1
          = <[mealType := items ++ [mealItem foodId servings notes]]> (meals t)) as Hadded.
  { unfold added, addMeal, save. simpl String.eqb. cbv iota. reflexivity. }
  assert (viewMode added.1 = "consumed") as Hview'.
  { unfold added, addMeal, save. simpl String.eqb. cbv iota. exact Hview. }
  assert (meals deleted.1 = <[mealType := items]> (meals t)
          ∧ getMeals (stored deleted.2) (currentDate t) (memberText t)
            = JSON.dayMeals (meals deleted.1)
          ∧ mealPlans deleted.1 = mealPlans t) as Hdeleted.
  { unfold deleted, deleteMeal. rewrite Hview'. simpl String.eqb. cbv iota.
    rewrite Hadded, lookup_insert_eq. cbn [mbind option_bind].
    unfold at_index.
    replace (0 <=? Z.of_nat (length items))%Z with true by (symmetry; apply Z.leb_le; lia).
    rewrite Nat2Z.id, lookup_app_r by lia. rewrite Nat.sub_diag. cbn [lookup list_lookup].
    unfold save. cbn [fst snd meals mealPlans withMeals].
    rewrite alter_insert_eq.
    replace (delete (length items) (items ++ [mealItem foodId servings notes]))
      with items.
    2:{ clear. induction items as [| x l IH]; [done |]. simpl. by rewrite <- IH. }
    split; [done |]. split; [| done].
    change (currentDate added.1) with (currentDate t).
    change (memberText added.1) with (memberText t).
    by rewrite getMeals_saveMeals, decide_True. }
  split; [done |]. destruct Hdeleted as (? & ? & ?).
  split; [done |]. split; [done |]. split; [done |]. split.
  - intros index item foodId' servings' notes' Hitem.
    unfold updateMeal. rewrite Hview. simpl String.eqb. cbv iota.
    unfold items in Hitem.
    destruct (meals t !! mealType) as [l |] eqn:E.
    + cbn [mbind option_bind default from_option id] in Hitem |- *. rewrite Hitem.
      unfold save. cbn [fst meals withMeals]. unfold items. try rewrite E.
      cbn [default from_option id].
      apply map_eq. intros k. destruct (decide (k = mealType)) as [-> | Hne].
      * by rewrite lookup_alter_eq, lookup_insert_eq, E.
      * by rewrite lookup_alter_ne, lookup_insert_ne.
    + cbn [default from_option id] in Hitem. unfold at_index in Hitem.
      destruct (0 <=? index)%Z; done.
  - intros index foodId' servings' notes' Hnone.
    unfold updateMeal, deleteMeal. rewrite Hview. simpl String.eqb. cbv iota.
    unfold items in Hnone.
    destruct (meals t !! mealType) as [l |] eqn:E.
    + cbn [mbind option_bind default from_option id] in Hnone |- *. by rewrite Hnone.
    + done.
Qed.

Lemma addMeal_deleteMeal_witness :
  let t := loadMeals (mkTracker "2024-02-29" (Some "1700000000001") ∅ ∅ "consumed")
             Sample.state in
  let items := default [] (meals t !! "breakfast") in
  let added := addMeal true t Sample.state "breakfast" "3" (Fin 2) "" "consumed" in
  let deleted :=
    deleteMeal true added.1 added.2 "breakfast" (Z.of_nat (length items)) in
  meals added.1 = <["breakfast" := items ++ [mealItem "3" (Fin 2) ""]]> (meals t)
  ∧ meals deleted.1 = <["breakfast" := items]> (meals t)
  ∧ getMeals (stored deleted.2) (currentDate t) (memberText t)
    = JSON.dayMeals (meals deleted.1)
  ∧ mealPlans deleted.1 = mealPlans t
  ∧ (∀ index item foodId' servings' notes',
       at_index items index = Some item →
       meals (updateMeal true t Sample.state "breakfast" index foodId' servings'
                notes').1
       = <["breakfast" := <[Z.to_nat index := mealItem foodId' servings' notes']> items]>
           (meals t))
  ∧ (∀ index foodId' servings' notes',
       at_index items index = None →
       updateMeal true t Sample.state "breakfast" index foodId' servings' notes'
       = (t, Sample.state)
       ∧ deleteMeal true t Sample.state "breakfast" index = (t, Sample.state)).
Proof.
  apply (addMeal_deleteMeal
           (loadMeals (mkTracker "2024-02-29" (Some "1700000000001") ∅ ∅ "consumed")
              Sample.state) Sample.state "breakfast" "3" (Fin 2) "").
  reflexivity.
Defined.

(** X30.  [changeFamilyMember] with an id that is [null] or empty reads
    nothing: the tracker keeps the meals and plans of the member shown
    before, and a following [addMeal] stores those meals, with the new
    item, under the key of the date and the text of that id.  With any
    other id the tracker holds the stored meals and plans of that member. *)
Theorem changeFamilyMember_without_member t st (familyMemberId : option string)
    mealType foodId servings notes :
  let changed := changeFamilyMember t st familyMemberId in
  let text := default "null" familyMemberId in
  currentFamilyMemberId changed = familyMemberId
  ∧ (familyMemberId = None ∨ familyMemberId = Some "" →
     meals changed = meals t ∧ mealPlans changed = mealPlans t
     ∧ getMeals
         (stored (addMeal true changed st mealType foodId servings notes "consumed").2)
         (currentDate t) text
       = JSON.dayMeals
           (<[mealType := default [] (meals t !! mealType)
                          ++ [mealItem foodId servings notes]]> (meals t)))
  ∧ (JS.truthyString familyMemberId = true →
     meals changed = getMeals (stored st) (currentDate t) text
     ∧ mealPlans changed = getMealPlans (stored st) (currentDate t) text).
Proof.
  intros changed text. split; [| split].
  - unfold changed, changeFamilyMember, loadMeals.
    cbn [currentFamilyMemberId]. by destruct (JS.truthyString familyMemberId).
  - intros Hnone.
    assert (changed = mkTracker (currentDate t) familyMemberId (meals t) (mealPlans t)
                        (viewMode t)) as ->.
    { unfold changed, changeFamilyMember, loadMeals. cbn [currentFamilyMemberId].
      by destruct Hnone as [-> | ->]. }
    cbn [meals mealPlans]. split; [done |]. split; [done |].
    unfold addMeal, save. simpl String.eqb. cbv iota.
    cbn [snd meals mealPlans currentDate]. 
    change (memberText _) with text.
    by rewrite getMeals_saveMeals, decide_True.
  - intros Hmember. unfold changed, changeFamilyMember, loadMeals.
    cbn [currentFamilyMemberId]. rewrite Hmember. done.
Qed.

End Tracker.

(* ===================================================================== *)
(** ** Reports under the rules of a time zone                            *)
(* ===================================================================== *)

Section Zones.

Import Gregorian NutritionCalculator Shape.

Implicit Types (zone : Zone.t) (env : Env) (members : list Person.t).

(** *** Where the zone keeps one offset, the dates are those of [JSDate] *)

Lemma zoned_localFields zone (tz time : Z) :
  Zone.atUTC zone time = tz →
  ZonedDate.localFields zone (JSDate.Valid time)
  = JSDate.localFields tz (JSDate.Valid time).
Proof.
  intros H. unfold ZonedDate.localFields, JSDate.localFields, ZonedDate.localTime.
  by rewrite H.
Qed.

Lemma zoned_getDate zone (tz time : Z) :
  Zone.atUTC zone time = tz →
  ZonedDate.getDate zone (JSDate.Valid time) = JSDate.getDate tz (JSDate.Valid time).
Proof.
  intros H. unfold ZonedDate.getDate, JSDate.getDate.
  by rewrite (zoned_localFields zone tz time H).
Qed.

Lemma zoned_getDay zone (tz time : Z) :
  Zone.atUTC zone time = tz →
  ZonedDate.getDay zone (JSDate.Valid time) = JSDate.getDay tz (JSDate.Valid time).
Proof.
  intros H. unfold ZonedDate.getDay, JSDate.getDay, ZonedDate.localTime.
  by rewrite H.
Qed.

Lemma zoned_setDate zone (tz time time' : Z) (dt : option Z) :
  Zone.atUTC zone time = tz →
  JSDate.setDate tz (JSDate.Valid time) dt = JSDate.Valid time' →
  Zone.atLocal zone (time' + tz)%Z = tz →
  ZonedDate.setDate zone (JSDate.Valid time) dt = JSDate.Valid time'.
Proof.
  intros Hutc Hset Hlocal. destruct dt as [dt |]; [| done].
  unfold ZonedDate.setDate, JSDate.setDate, ZonedDate.localTime, ZonedDate.utc in *.
  rewrite Hutc.
  destruct (JSDate.civilFromDays ((time + tz) `div` JSDate.msPerDay)) as [[y m] d].
  injection Hset as Hset. f_equal.
  replace (JSDate.makeDay y (m - 1) dt * JSDate.msPerDay
           + (time + tz) `mod` JSDate.msPerDay)%Z with (time' + tz)%Z by lia.
  rewrite Hlocal. lia.
Qed.

Lemma zoned_make zone (tz time' : Z) (year month day : option Z) :
  JSDate.make tz year month day = JSDate.Valid time' →
  Zone.atLocal zone (time' + tz)%Z = tz →
  ZonedDate.make zone year month day = JSDate.Valid time'.
Proof.
  intros Hmake Hlocal.
  destruct year as [y |], month as [m |], day as [d |]; try done.
  unfold ZonedDate.make, JSDate.make, ZonedDate.utc in *.
  injection Hmake as Hmake. f_equal.
  set (y' := if (0 <=? y)%Z && (y <=? 99)%Z then (1900 + y)%Z else y) in *.
  replace (JSDate.makeDay y' m d * JSDate.msPerDay)%Z with (time' + tz)%Z by lia.
  rewrite Hlocal. lia.
Qed.

Lemma zoned_dayAfter zone env (start i : Z) :
  Zone.atUTC zone start = tz env →
  Zone.atLocal zone (start + i * JSDate.msPerDay + tz env)%Z = tz env →
  Zoned.dayAfter zone (JSDate.Valid start) i = dayAfter env (JSDate.Valid start) i.
Proof.
  intros Hutc Hlocal. rewrite dayAfter_valid. unfold Zoned.dayAfter. cbv zeta.
  rewrite (zoned_getDate zone (tz env) start Hutc).
  apply (zoned_setDate zone (tz env)); [done | apply setDate_getDate | done].
Qed.

Lemma zoned_days zone env (start n : Z) :
  (0 ≤ n)%Z →
  steady zone (tz env) start (start + (n - 1) * JSDate.msPerDay) →
  Zoned.dayAfter zone (JSDate.Valid start) <$> seqZ 0 n
  = dayAfter env (JSDate.Valid start) <$> seqZ 0 n.
Proof.
  intros Hn Hsteady. destruct (decide (n = 0%Z)) as [-> | Hpos]; [done |].
  apply list_fmap_ext. intros j i Hi. apply lookup_seqZ in Hi as [-> Hj].
  unfold JSDate.msPerDay in *.
  apply zoned_dayAfter.
  - apply (Hsteady start). lia.
  - apply (Hsteady (start + (0 + Z.of_nat j) * 86400000)%Z). unfold JSDate.msPerDay. lia.
Qed.

Lemma zoned_reportDates_weekly zone env (start : Z) :
  steady zone (tz env) start (start + 6 * JSDate.msPerDay) →
  Zoned.reportDates zone (now env) "weekly" (JSDate.Valid start)
  = reportDates env "weekly" (JSDate.Valid start).
Proof.
  intros Hsteady. unfold Zoned.reportDates, reportDates. simpl String.eqb. cbv iota.
  cbv zeta. by rewrite (zoned_days zone env start 7).
Qed.

Lemma zoned_reportDates_monthly zone env (start y m d : Z) :
  JSDate.localFields (tz env) (JSDate.Valid start) = Some (y, m, d) →
  ¬ (0 ≤ y ≤ 99)%Z →
  steady zone (tz env) (start - 31 * JSDate.msPerDay) (start + 31 * JSDate.msPerDay) →
  Zoned.reportDates zone (now env) "monthly" (JSDate.Valid start)
  = reportDates env "monthly" (JSDate.Valid start).
Proof.
  intros Hf Hy Hsteady.
  destruct (today_in_month (tz env) start) as (y' & m' & d' & Hf' & Hm & Hd & Hday).
  rewrite Hf in Hf'. injection Hf' as <- <- <-.
  pose proof (daysIn_bounds y m) as Hn.
  pose proof (month_length y m Hm) as Hlen.
  set (F := firstOfMonth (12 * y + m - 1)) in *.
  set (s1 := (F * JSDate.msPerDay - tz env)%Z).
  set (e1 := ((F + daysIn y m - 1) * JSDate.msPerDay - tz env)%Z).
  assert (start - JSDate.msPerDay * 31 ≤ s1 ≤ start)%Z as Hs1.
  { unfold s1, JSDate.msPerDay in *. Z.div_mod_to_equations. lia. }
  assert (Zone.atUTC zone start = tz env) as Hutc.
  { apply (Hsteady start). unfold JSDate.msPerDay. lia. }
  assert (JSDate.make (tz env) (Some y) (Some (m - 1)%Z) (Some 1%Z) = JSDate.Valid s1)
    as Hmake1.
  { unfold JSDate.make.
    replace ((0 <=? y)%Z && (y <=? 99)%Z) with false by (symmetry; lia).
    rewrite makeDay_index. unfold s1, F. do 2 f_equal.
    replace (12 * y + (m - 1))%Z with (12 * y + m - 1)%Z by lia. lia. }
  assert (JSDate.make (tz env) (Some y) (Some (Z.succ (m - 1))) (Some 0%Z)
          = JSDate.Valid e1) as Hmake2.
  { unfold JSDate.make.
    replace ((0 <=? y)%Z && (y <=? 99)%Z) with false by (symmetry; lia).
    rewrite makeDay_index. unfold e1. do 2 f_equal.
    replace (12 * y + Z.succ (m - 1))%Z with (12 * y + m)%Z by lia. lia. }
  unfold Zoned.reportDates, reportDates. simpl String.eqb. cbv iota. cbv zeta.
  unfold ZonedDate.getFullYear, ZonedDate.getMonth, JSDate.getFullYear, JSDate.getMonth.
  rewrite (zoned_localFields zone (tz env) start Hutc), Hf.
  cbn [mbind option_bind fmap option_fmap option_map].
  rewrite Hmake1, Hmake2.
  rewrite (zoned_make zone (tz env) s1 _ _ _ Hmake1).
  2:{ apply (Hsteady s1). unfold JSDate.msPerDay in *. lia. }
  rewrite (zoned_make zone (tz env) e1 _ _ _ Hmake2).
  2:{ apply (Hsteady e1). unfold e1, s1, JSDate.msPerDay in *. lia. }
  rewrite (zoned_getDate zone (tz env) e1).
  2:{ apply (Hsteady e1). unfold e1, s1, JSDate.msPerDay in *. lia. }
  destruct (getDate_valid (tz env) e1) as (n & -> & Hn1).
  cbn [default from_option id].
  rewrite (zoned_days zone env s1 n); [done | lia |].
  intros time Htime. apply Hsteady. unfold JSDate.msPerDay in *. lia.
Qed.

Lemma zoned_report zone env (reportType familyMemberId : string) (startDate : JSDate.t)
    (familyMembers : option (list Person.t)) :
  Zoned.reportDates zone (now env) reportType startDate
  = reportDates env reportType startDate →
  Zoned.generateNutritionReport zone env reportType familyMemberId startDate
    familyMembers
  = generateNutritionReport env reportType familyMemberId startDate familyMembers.
Proof.
  intros H. unfold Zoned.generateNutritionReport, Zoned.generateNutritionReport_try,
    generateNutritionReport, generateNutritionReport_try. by rewrite H.
Qed.

(** *** The weekly report *)


Lemma london_summer_steady (first last : Z) :
  (19813 * 86400000 + 3600000 ≤ first)%Z →
  (last < 20023 * 86400000)%Z →
  steady Zone.london2024 3600000 first last.
Proof.
  intros Hfirst Hlast time Htime. unfold Zone.london2024. cbn [Zone.atUTC Zone.atLocal].
  split.
  - replace ((19813 * 86400000 + 3600000 <=? time)%Z
             && (time <? 20023 * 86400000 + 3600000)%Z) with true; [done |].
    symmetry. apply andb_true_iff. split; [apply Z.leb_le | apply Z.ltb_lt]; lia.
  - replace ((19813 * 86400000 + 3600000 + 3600000 <=? time + 3600000)%Z
             && (time + 3600000 <? 20023 * 86400000 + 3600000 + 3600000)%Z)
      with true; [done |].
    symmetry. apply andb_true_iff. split; [apply Z.leb_le | apply Z.ltb_lt]; lia.
Qed.



(** *** The monthly report *)

(** X9.  While the zone keeps one offset in the 31 days before and after
    the start date, the dates of a monthly report are the local midnights
    of the days of the start date's month, from the 1st to the last one
    that is not after now, all of them once the month's last midnight has
    passed.  The labels are the UTC dates of those midnights: the days of
    the month moved by the whole days of the zone's offset, which is one
    day back in a zone ahead of UTC. *)
Theorem monthly_labels_steady zone env (familyMemberId : string) members
    (start y m d : Z) :
  ZonedDate.localFields zone (JSDate.Valid start) = Some (y, m, d) →
  ¬ (0 ≤ y ≤ 99)%Z →
  steady zone (tz env) (start - 31 * JSDate.msPerDay) (start + 31 * JSDate.msPerDay) →
  let first := JSDate.daysFromCivil y m 1 in
  let midnight := (first * JSDate.msPerDay - tz env)%Z in
  let n := daysIn y m in
  let k := Spec.datesUpTo n midnight (now env) in
  Zoned.reportDates zone (now env) "monthly" (JSDate.Valid start)
  = (λ i, JSDate.Valid (midnight + i * JSDate.msPerDay)) <$> seqZ 0 k
  ∧ Report.labels
      (Zoned.generateNutritionReport zone env "monthly" familyMemberId
         (JSDate.Valid start) (Some members))
    = (λ i, JSDate.isoDate (first + (- tz env) `div` JSDate.msPerDay + i)) <$> seqZ 0 k
  ∧ (0 ≤ k ≤ n)%Z ∧ (28 ≤ n ≤ 31)%Z
  ∧ ((midnight + (n - 1) * JSDate.msPerDay ≤ now env)%Z → k = n)
  ∧ ((0 < tz env ≤ JSDate.msPerDay)%Z →
     ((- tz env) `div` JSDate.msPerDay = -1)%Z).
Proof.
  intros Hf Hy Hsteady.
  assert (Zone.atUTC zone start = tz env) as Hutc.
  { apply (Hsteady start). unfold JSDate.msPerDay. lia. }
  rewrite (zoned_localFields zone (tz env) start Hutc) in Hf.
  pose proof (zoned_reportDates_monthly zone env start y m d Hf Hy Hsteady) as Hdates.
  rewrite (zoned_report zone env "monthly" familyMemberId _ (Some members) Hdates).
  rewrite Hdates.
  exact (monthly_labels env familyMemberId members start y m d Hf Hy).
Qed.

Lemma monthly_labels_steady_witness :
  Report.labels
    (Zoned.generateNutritionReport Zone.london2024 Sample.londonSummer "monthly"
       "1700000000001" (JSDate.Valid (now Sample.londonSummer)) (Some [Sample.member1]))
  = (λ i, JSDate.isoDate (JSDate.daysFromCivil 2024 7 1
                          + (- 3600000) `div` JSDate.msPerDay + i))
      <$> seqZ 0 (Spec.datesUpTo (daysIn 2024 7)
                    (JSDate.daysFromCivil 2024 7 1 * JSDate.msPerDay - 3600000)
                    (now Sample.londonSummer))
  ∧ Report.labels
      (Zoned.generateNutritionReport Zone.london2024 Sample.londonSummer "monthly"
         "1700000000001" (JSDate.Valid (now Sample.londonSummer))
         (Some [Sample.member1]))
    = ["2024-06-30"; "2024-07-01"; "2024-07-02"; "2024-07-03"; "2024-07-04";
       "2024-07-05"; "2024-07-06"; "2024-07-07"; "2024-07-08"; "2024-07-09"].
Proof.
  split; [| vm_compute; reflexivity].
  refine (proj1 (proj2 (monthly_labels_steady Zone.london2024 Sample.londonSummer
                          "1700000000001" [Sample.member1] (now Sample.londonSummer)
                          2024 7 10 eq_refl _ _))).
  - lia.
  - apply london_summer_steady; vm_compute; [discriminate | reflexivity].
Defined.

(** In London the report of October 2024, made in November, has 31
    dates; the clocks go back on the 27th, so the midnight of the 28th is
    25 hours after that of the 27th: the labels run from 2024-09-30 to
    2024-10-26, leave out 2024-10-27 and go on with 2024-10-28. *)
Example monthly_labels_skip_across_dst :
  let labels :=
    Report.labels
      (Zoned.generateNutritionReport Zone.london2024 Sample.londonAutumn "monthly"
         "1700000000001" (JSDate.Valid Sample.midOctober) (Some [Sample.member1])) in
  length labels = 31%nat
  ∧ take 2 labels = ["2024-09-30"; "2024-10-01"]
  ∧ drop 25 labels
    = ["2024-10-25"; "2024-10-26"; "2024-10-28"; "2024-10-29"; "2024-10-30";
       "2024-10-31"].
Proof. repeat split; vm_compute; reflexivity. Qed.

(** *** The reports the application asks for *)

Lemma zoned_reportStart_weekly zone (tz started : Z) :
  steady zone tz (started - 6 * JSDate.msPerDay) started →
  Zoned.reportStart zone started "weekly" = App.reportStart tz started "weekly".
Proof.
  intros Hsteady.
  assert (Zone.atUTC zone started = tz) as Hutc.
  { apply (Hsteady started). unfold JSDate.msPerDay. lia. }
  destruct (getDay_valid tz started) as (w & Hw & Hw6).
  rewrite (reportStart_weekly tz started w Hw).
  unfold Zoned.reportStart. simpl String.eqb. cbv iota. cbv zeta.
  rewrite (zoned_getDate zone tz started Hutc), (zoned_getDay zone tz started Hutc).
  apply (zoned_setDate zone tz); [done | |].
  - pose proof (reportStart_weekly tz started w Hw) as H.
    unfold App.reportStart in H. simpl String.eqb in H. cbv iota in H. exact H.
  - apply (Hsteady (started - w * JSDate.msPerDay)%Z). unfold JSDate.msPerDay. lia.
Qed.

Lemma zoned_reportStart_monthly zone (tz started y m d : Z) :
  JSDate.localFields tz (JSDate.Valid started) = Some (y, m, d) →
  steady zone tz (started - 31 * JSDate.msPerDay) (started + JSDate.msPerDay) →
  ∃ time,
    Zoned.reportStart zone started "monthly" = JSDate.Valid time
    ∧ App.reportStart tz started "monthly" = JSDate.Valid time
    ∧ JSDate.localFields tz (JSDate.Valid time) = Some (y, m, 1%Z)
    ∧ (started - 31 * JSDate.msPerDay ≤ time ≤ started + JSDate.msPerDay)%Z.
Proof.
  intros Hf Hsteady.
  assert (Zone.atUTC zone started = tz) as Hutc.
  { apply (Hsteady started). unfold JSDate.msPerDay. lia. }
  destruct (reportStart_monthly tz started y m d Hf) as (time & Hstart & Hf1).
  assert (started - 31 * JSDate.msPerDay ≤ time ≤ started + JSDate.msPerDay)%Z as Hrange.
  { destruct (today_in_month tz started) as (y1 & m1 & d1 & Hf' & _ & Hd1 & Hday1).
    rewrite Hf in Hf'. injection Hf' as <- <- <-.
    destruct (today_in_month tz time) as (y2 & m2 & d2 & Hf2 & _ & _ & Hday2).
    rewrite Hf1 in Hf2. injection Hf2 as <- <- <-.
    pose proof (daysIn_bounds y m). unfold JSDate.msPerDay in *.
    Z.div_mod_to_equations. lia. }
  exists time. split; [| done].
  unfold Zoned.reportStart. simpl String.eqb. cbv iota. cbv zeta.
  apply (zoned_setDate zone tz); [done | |].
  - unfold App.reportStart in Hstart. simpl String.eqb in Hstart. cbv iota in Hstart.
    exact Hstart.
  - by apply (Hsteady time).
Qed.

(** X10.  The labels of the reports [generateReport] produces, when the
    two readings of the clock fall on the same local day and the zone
    keeps one offset in the 62 days before and after: one for a daily
    report, one for each day from Sunday to today for a weekly report, one
    for each day from the 1st to today for a monthly report.  The labels
    are UTC dates: those of a monthly report are the days of the month
    moved by the whole days of the zone's offset. *)
Theorem generateReport_labels_steady zone env (started y m d : Z) members
    (familyMemberId : string) :
  ZonedDate.localFields zone (JSDate.Valid started) = Some (y, m, d) →
  ¬ (0 ≤ y ≤ 99)%Z →
  (started ≤ now env)%Z →
  ((now env + tz env) `div` JSDate.msPerDay
   = (started + tz env) `div` JSDate.msPerDay)%Z →
  steady zone (tz env) (started - 62 * JSDate.msPerDay)
    (started + 62 * JSDate.msPerDay) →
  ∃ w,
    ZonedDate.getDay zone (JSDate.Valid started) = Some w ∧ (0 ≤ w ≤ 6)%Z
    ∧ Report.labels
        (Zoned.generateReport zone env started members "daily" familyMemberId)
      = [JSDate.isoDate (JSDate.utcDay started)]
    ∧ Report.labels
        (Zoned.generateReport zone env started members "weekly" familyMemberId)
      = (λ i, JSDate.isoDate (JSDate.utcDay started - w + i)) <$> seqZ 0 (w + 1)
    ∧ Report.labels
        (Zoned.generateReport zone env started members "monthly" familyMemberId)
      = (λ i, JSDate.isoDate (JSDate.daysFromCivil y m 1
                              + (- tz env) `div` JSDate.msPerDay + i))
          <$> seqZ 0 d.
Proof.
  intros Hf Hy Hle Hday Hsteady.
  assert (Zone.atUTC zone started = tz env) as Hutc.
  { apply (Hsteady started). unfold JSDate.msPerDay. lia. }
  rewrite (zoned_localFields zone (tz env) started Hutc) in Hf.
  rewrite (zoned_getDay zone (tz env) started Hutc).
  assert (Zoned.generateReport zone env started members "daily" familyMemberId
          = App.generateReport env started members "daily" familyMemberId) as ->.
  { unfold Zoned.generateReport, App.generateReport. by apply zoned_report. }
  assert (Zoned.generateReport zone env started members "weekly" familyMemberId
          = App.generateReport env started members "weekly" familyMemberId) as ->.
  { unfold Zoned.generateReport, App.generateReport.
    rewrite (zoned_reportStart_weekly zone (tz env) started).
    2:{ intros time Htime. apply Hsteady. unfold JSDate.msPerDay in *. lia. }
    destruct (getDay_valid (tz env) started) as (w & Hw & Hw6).
    rewrite (reportStart_weekly (tz env) started w Hw).
    apply zoned_report, zoned_reportDates_weekly.
    intros time Htime. apply Hsteady. unfold JSDate.msPerDay in *. lia. }
  assert (Zoned.generateReport zone env started members "monthly" familyMemberId
          = App.generateReport env started members "monthly" familyMemberId) as ->.
  { unfold Zoned.generateReport, App.generateReport.
    destruct (zoned_reportStart_monthly zone (tz env) started y m d Hf)
      as (time & -> & -> & Hf1 & Hrange).
    { intros time Htime. apply Hsteady. unfold JSDate.msPerDay in *. lia. }
    apply zoned_report, (zoned_reportDates_monthly zone env time y m 1 Hf1 Hy).
    intros t Ht. apply Hsteady. unfold JSDate.msPerDay in *. lia. }
  exact (generateReport_labels env started y m d members familyMemberId Hf Hy Hle Hday).
Qed.

Lemma generateReport_labels_steady_witness :
  ∃ w,
    ZonedDate.getDay Zone.london2024 (JSDate.Valid (now Sample.londonSummer)) = Some w
    ∧ (0 ≤ w ≤ 6)%Z
    ∧ Report.labels
        (Zoned.generateReport Zone.london2024 Sample.londonSummer
           (now Sample.londonSummer) [Sample.member1] "daily" "1700000000001")
      = [JSDate.isoDate (JSDate.utcDay (now Sample.londonSummer))]
    ∧ Report.labels
        (Zoned.generateReport Zone.london2024 Sample.londonSummer
           (now Sample.londonSummer) [Sample.member1] "weekly" "1700000000001")
      = (λ i, JSDate.isoDate (JSDate.utcDay (now Sample.londonSummer) - w + i))
          <$> seqZ 0 (w + 1)
    ∧ Report.labels
        (Zoned.generateReport Zone.london2024 Sample.londonSummer
           (now Sample.londonSummer) [Sample.member1] "monthly" "1700000000001")
      = (λ i, JSDate.isoDate (JSDate.daysFromCivil 2024 7 1
                              + (- 3600000) `div` JSDate.msPerDay + i))
          <$> seqZ 0 10.
Proof.
  apply (generateReport_labels_steady Zone.london2024 Sample.londonSummer
           (now Sample.londonSummer) 2024 7 10 [Sample.member1] "1700000000001");
    [reflexivity | lia | reflexivity | reflexivity |].
  apply london_summer_steady; vm_compute; [discriminate | reflexivity].
Defined.

End Zones.
